(** * word-to-json-converter: the parser and the batch converter

    A shallow embedding of [convert_docx_to_json.py] and of the core of
    [streamlit_app.py] (class [WordToJsonConverter] in both), with the
    properties of the paragraph parser, of the validation step and of
    the folder conversion.

    Python strings are sequences of Unicode code points; a dict keeps
    its keys in insertion order; exceptions are values of a sum type;
    printing, the user interface sink and the file system are an
    explicit trace of events. The script and the validation step come
    twice: once with every call to the outside returning, and once with
    the calls that may raise ([ConvertDocxToJsonIO], [StreamlitAppIO]),
    the first being the second when nothing is refused. *)

From Stdlib Require Import List NArith ZArith Bool Lia String Ascii.
From Stdlib Require Import DecimalString.
Import ListNotations.

Set Implicit Arguments.

(** ** Python strings *)

Module PyStr.

Local Open Scope N_scope.

Definition char := N.
Definition str := list char.

(** An ASCII literal as a Python string. *)
Definition s (lit : string) : str :=
  map N_of_ascii (list_ascii_of_string lit).
Arguments s lit%_string.

Definition str_eqb (a b : str) : bool :=
  if list_eq_dec N.eq_dec a b then true else false.

(** [str.isspace] on one code point, the table of CPython
    ([_Py_ascii_whitespace] below 128, [_PyUnicode_IsWhitespace] above). *)
Definition isspace (c : char) : bool :=
  ((9 <=? c) && (c <=? 13)) || ((28 <=? c) && (c <=? 32))
  || (c =? 133) || (c =? 160) || (c =? 5760)
  || ((8192 <=? c) && (c <=? 8202))
  || (c =? 8232) || (c =? 8233) || (c =? 8239) || (c =? 8287)
  || (c =? 12288).

Definition colon : char := 58.
Definition slash : char := 47.
Definition dot : char := 46.

Fixpoint lstrip (x : str) : str :=
  match x with
  | [] => []
  | c :: t => if isspace c then lstrip t else x
  end.

Definition rstrip (x : str) : str := rev (lstrip (rev x)).

(** [x.strip()] with no argument. *)
Definition strip (x : str) : str := rstrip (lstrip x).

(** [c in x] for a one-character [c]. *)
Definition contains (c : char) (x : str) : bool := existsb (N.eqb c) x.

(** [x.partition(c)] without the separator: the text before the first
    [c] and the text after it, when [c] occurs. *)
Fixpoint cut (c : char) (x : str) : option (str * str) :=
  match x with
  | [] => None
  | d :: t =>
      if d =? c then Some ([], t)
      else match cut c t with
           | Some (a, b) => Some (d :: a, b)
           | None => None
           end
  end.

(** [x.split(c, 1)]: at most one split, at the first [c]. *)
Definition split1 (c : char) (x : str) : list str :=
  match cut c x with
  | Some (a, b) => [a; b]
  | None => [x]
  end.

Fixpoint startswith (x p : str) {struct p} : bool :=
  match p, x with
  | [], _ => true
  | _ :: _, [] => false
  | a :: p', b :: x' => (a =? b) && startswith x' p'
  end.

Definition endswith (x p : str) : bool := startswith (rev x) (rev p).

(** [x.rfind(c)]: the last index of [c], or -1. *)
Fixpoint rfind_from (c : char) (x : str) (i : Z) (last : Z) : Z :=
  match x with
  | [] => last
  | d :: t => rfind_from c t (i + 1)%Z (if d =? c then i else last)
  end.

Definition rfind (c : char) (x : str) : Z := rfind_from c x 0%Z (-1)%Z.

(** The slice [x[i:j]] for non-negative [i] and [j]. *)
Definition slice (x : str) (i j : Z) : str :=
  skipn (Z.to_nat i) (firstn (Z.to_nat j) x).

Definition slice_from (x : str) (i : Z) : str := skipn (Z.to_nat i) x.
Definition slice_to (x : str) (j : Z) : str := firstn (Z.to_nat j) x.

(** [x.replace(old, new)]: every non-overlapping occurrence, from the
    left. [skip] counts the characters of an occurrence still to drop. *)
Fixpoint replace_from (old new : str) (skip : nat) (x : str) : str :=
  match x with
  | [] => []
  | c :: t =>
      match skip with
      | S k => replace_from old new k t
      | O =>
          if startswith x old
          then new ++ replace_from old new (List.length old - 1)%nat t
          else c :: replace_from old new 0 t
      end
  end.

Definition replace (x old new : str) : str :=
  match old with
  | [] => new ++ flat_map (fun c => c :: new) x
  | _ :: _ => replace_from old new 0 x
  end.

End PyStr.

Import PyStr.

(** ** Python dicts, in insertion order *)

Module PyDict.

Section Dict.
Variable V : Type.

Definition dict := list (str * V).

Fixpoint get (d : dict) (k : str) : option V :=
  match d with
  | [] => None
  | (k', v) :: d' => if str_eqb k k' then Some v else get d' k
  end.

(** [k in d] *)
Definition mem (d : dict) (k : str) : bool :=
  match get d k with Some _ => true | None => false end.

(** [d[k] = v]: a present key keeps its place, a new one goes last. *)
Fixpoint set (d : dict) (k : str) (v : V) : dict :=
  match d with
  | [] => [(k, v)]
  | (k', v') :: d' =>
      if str_eqb k k' then (k', v) :: d' else (k', v') :: set d' k v
  end.

Definition keys (d : dict) : list str := map fst d.

(** [not d] *)
Definition is_empty (d : dict) : bool :=
  match d with [] => true | _ :: _ => false end.
End Dict.

End PyDict.

(** ** Exceptions and the two effect layers *)

Inductive exn : Type :=
| BadZipFile (msg : str)
| AttributeError (msg : str)
| ValueError (msg : str)
| KeyError (msg : str)
| OtherException (msg : str).

(** [str(e)] *)
Definition exn_str (e : exn) : str :=
  match e with
  | BadZipFile m | AttributeError m | ValueError m
  | KeyError m | OtherException m => m
  end.

(** What [key, value = parts] raises when [parts] has one element. *)
Definition unpack_error : exn :=
  ValueError (s "not enough values to unpack (expected 2, got 1)").

Inductive res (A : Type) : Type :=
| Ok (a : A)
| Raise (e : exn).
Arguments Ok {A} a.
Arguments Raise {A} e.

Definition res_bind {A B} (r : res A) (k : A -> res B) : res B :=
  match r with
  | Ok a => k a
  | Raise e => Raise e
  end.

(** The values a record holds. *)
Inductive cval : Type :=
| CStr (v : str)
| CList (l : list str).

Inductive mval : Type :=
| MStr (v : str)
| MInt (n : nat).

(** The dict [data] of [parse_doc_to_dict]: its two keys, in order. *)
Record Data : Type := mkData {
  metadata : PyDict.dict mval;
  content : PyDict.dict cval
}.

(** A computation over a trace of events of type [E] that may raise. *)
Module Eff.
Section Eff.
Variable E : Type.

Definition M (A : Type) : Type := list E -> res A * list E.

Definition ret {A} (a : A) : M A := fun tr => (Ok a, tr).

Definition bind {A B} (m : M A) (k : A -> M B) : M B :=
  fun tr =>
    match m tr with
    | (Ok a, tr') => k a tr'
    | (Raise e, tr') => (Raise e, tr')
    end.

Definition raise {A} (e : exn) : M A := fun tr => (Raise e, tr).

Definition emit (ev : E) : M unit := fun tr => (Ok tt, tr ++ [ev]).

Definition lift {A} (r : res A) : M A := fun tr => (r, tr).

(** [try: m except Exception as e: h e] *)
Definition try_except {A} (m : M A) (h : exn -> M A) : M A :=
  fun tr =>
    match m tr with
    | (Ok a, tr') => (Ok a, tr')
    | (Raise e, tr') => h e tr'
    end.

(** [for x in xs: body x], the loop state threaded through. *)
Fixpoint for_each {X S} (xs : list X) (body : X -> S -> M S) (st : S)
  : M S :=
  match xs with
  | [] => ret st
  | x :: xs' => bind (body x st) (for_each xs' body)
  end.
End Eff.
End Eff.

Arguments Eff.ret {E A} a.
Arguments Eff.raise {E A} e.
Arguments Eff.lift {E A} r.

Declare Scope eff_scope.
Delimit Scope eff_scope with eff.
Notation "x <- m ;; k" := (Eff.bind m (fun x => k))
  (at level 61, m at next level, right associativity) : eff_scope.
Notation "m ;;; k" := (Eff.bind m (fun _ => k))
  (at level 61, right associativity) : eff_scope.

(** ** [os.path] (posixpath) and [os.walk] *)

Module OsPath.

Local Open Scope N_scope.

(** [os.path.basename] *)
Definition basename (p : str) : str :=
  slice_from p (rfind slash p + 1)%Z.

(** [os.path.join] of two parts. *)
Definition join (a b : str) : str :=
  if startswith b [slash] then b
  else if (match a with [] => true | _ :: _ => false end)
          || endswith a [slash]
       then a ++ b
       else a ++ slash :: b.

(** [os.path.join(first, *rest)] *)
Definition join_all (first : str) (rest : list str) : str :=
  fold_left join rest first.

(** [os.path.splitext]: the last dot after the last slash starts the
    extension, unless only dots come before it in the file name. *)
Definition splitext (p : str) : str * str :=
  let sepIndex := rfind slash p in
  let dotIndex := rfind dot p in
  if (sepIndex <? dotIndex)%Z
     && existsb (fun c => negb (c =? dot)) (slice p (sepIndex + 1)%Z dotIndex)
  then (slice_to p dotIndex, slice_from p dotIndex)
  else (p, []).

(** [x.split(c)] with no limit. *)
Fixpoint split (c : char) (x : str) : list str :=
  match x with
  | [] => [[]]
  | d :: t =>
      if d =? c then [] :: split c t
      else match split c t with
           | h :: r => (d :: h) :: r
           | [] => [[d]]
           end
  end.

(** [c.join(parts)] *)
Fixpoint sep_join (c : char) (parts : list str) : str :=
  match parts with
  | [] => []
  | [p] => p
  | p :: rest => p ++ c :: sep_join c rest
  end.

Definition dotdot : str := [dot; dot].

(** The loop of [normpath] over the components. *)
Definition normpath_step (initial_slashes : nat) (new_comps : list str)
    (comp : str) : list str :=
  if str_eqb comp [] || str_eqb comp [dot] then new_comps
  else if negb (str_eqb comp dotdot)
          || ((initial_slashes =? 0)%nat
              && match new_comps with [] => true | _ :: _ => false end)
          || match rev new_comps with
             | last :: _ => str_eqb last dotdot
             | [] => false
             end
       then new_comps ++ [comp]
       else removelast new_comps.

(** [os.path.normpath] *)
Definition normpath (path : str) : str :=
  match path with
  | [] => [dot]
  | _ :: _ =>
      let initial_slashes :=
        if startswith path [slash] then
          if startswith path [slash; slash]
             && negb (startswith path [slash; slash; slash])
          then 2%nat else 1%nat
        else 0%nat in
      let comps := split slash path in
      let new_comps := fold_left (normpath_step initial_slashes) comps [] in
      let path' := repeat slash initial_slashes ++ sep_join slash new_comps in
      match path' with [] => [dot] | _ :: _ => path' end
  end.

(** [os.path.abspath], the working directory given. *)
Definition abspath (cwd path : str) : str :=
  normpath (if startswith path [slash] then path else join cwd path).

(** The length of the common prefix of two component lists. *)
Fixpoint commonprefix_len (a b : list str) : nat :=
  match a, b with
  | x :: a', y :: b' => if str_eqb x y then S (commonprefix_len a' b') else 0
  | _, _ => 0
  end.

Definition nonempty_parts (p : str) : list str :=
  filter (fun x => negb (str_eqb x [])) (split slash p).

(** [os.path.relpath(path, start)] *)
Definition relpath (cwd path start : str) : res str :=
  match path with
  | [] => Raise (ValueError (s "no path specified"))
  | _ :: _ =>
      let start_list := nonempty_parts (abspath cwd start) in
      let path_list := nonempty_parts (abspath cwd path) in
      let i := commonprefix_len start_list path_list in
      let rel_list :=
        repeat dotdot (List.length start_list - i) ++ skipn i path_list in
      match rel_list with
      | [] => Ok [dot]
      | first :: rest => Ok (join_all first rest)
      end
  end.

(** A directory as [os.walk] lists it: the names of its files and its
    sub-directories, each with its own listing. *)
Inductive Tree : Type :=
| Dir (files : list str) (dirs : Forest)
with Forest : Type :=
| FNil
| FCons (name : str) (sub : Tree) (rest : Forest).

Scheme Tree_Forest_ind := Induction for Tree Sort Prop
  with Forest_Tree_ind := Induction for Forest Sort Prop.
Combined Scheme Tree_Forest_mutind from Tree_Forest_ind, Forest_Tree_ind.

Fixpoint dir_names (f : Forest) : list str :=
  match f with
  | FNil => []
  | FCons name _ rest => name :: dir_names rest
  end.

(** [os.walk(top)], top-down: one triple [(root, dirs, files)] per
    directory. *)
Fixpoint walk (top : str) (t : Tree) : list (str * list str * list str) :=
  match t with
  | Dir files dirs => (top, dir_names dirs, files) :: walk_dirs top dirs
  end
with walk_dirs (top : str) (f : Forest) : list (str * list str * list str) :=
  match f with
  | FNil => []
  | FCons name sub rest => walk (join top name) sub ++ walk_dirs top rest
  end.

End OsPath.

Import OsPath.
Local Open Scope eff_scope.

Definition str_is_empty (x : str) : bool :=
  match x with [] => true | _ :: _ => false end.

(** ** convert_docx_to_json.py *)

Module ConvertDocxToJson.

(** What the script does to the outside: lines printed, directories
    created, JSON files written (the record dumped, not its text).
    Creating a directory and writing a file are taken to succeed: this
    is the script on a file system that refuses nothing.
    [ConvertDocxToJsonIO] below is the script with the calls that may
    raise. *)
Inductive event : Type :=
| Print (line : str)
| Makedirs (path : str)
| WriteJson (path : str) (data : Data).

Definition M : Type -> Type := Eff.M event.

(** The body of the paragraph loop of [parse_doc_to_dict] on
    [para.text], acting on [data["content"]]. *)
Definition para_step (content : PyDict.dict cval) (text : str)
  : res (PyDict.dict cval) :=
  let line := strip text in
  if str_is_empty line then Ok content
  else if contains colon line then
    match split1 colon line with
    | [key; value] => Ok (PyDict.set content (strip key) (CStr (strip value)))
    | _ => Raise unpack_error
    end
  else
    let content :=
      if negb (PyDict.mem content (s "free_text"))
      then PyDict.set content (s "free_text") (CList [])
      else content in
    match PyDict.get content (s "free_text") with
    | Some (CList l) =>
        Ok (PyDict.set content (s "free_text") (CList (l ++ [line])))
    | Some (CStr _) =>
        Raise (AttributeError (s "'str' object has no attribute 'append'"))
    | None => Raise (KeyError (s "'free_text'"))
    end.

(** [for para in doc.paragraphs: ...] *)
Fixpoint parse_paragraphs (content : PyDict.dict cval) (paragraphs : list str)
  : res (PyDict.dict cval) :=
  match paragraphs with
  | [] => Ok content
  | text :: rest =>
      res_bind (para_step content text) (fun c => parse_paragraphs c rest)
  end.

Section World.
(** [Document(path).paragraphs] as their texts, or the exception
    python-docx raises. *)
Variable Document : str -> res (list str).
(** [datetime.now().isoformat()] when the document at a path is parsed. *)
Variable now : str -> str.
(** The directory tree [os.walk] finds at a path, if any. *)
Variable listing : str -> option Tree.
(** [os.getcwd()] *)
Variable cwd : str.

Definition parse_doc_to_dict (doc_path : str) : M (option Data) :=
  if startswith (basename doc_path) (s "~$") then
    Eff.emit (Print (s "Skipping lock file: " ++ doc_path));;;
    Eff.ret None
  else
    Eff.try_except
      (paragraphs <- Eff.lift (Document doc_path);;
       let data :=
         mkData [(s "source_file", MStr (basename doc_path));
                 (s "converted_at", MStr (now doc_path));
                 (s "total_paragraphs", MInt (List.length paragraphs))]
                [] in
       c <- Eff.lift (parse_paragraphs (content data) paragraphs);;
       Eff.ret (Some (mkData (metadata data) c)))
      (fun e =>
         Eff.emit (Print (s "Error processing " ++ doc_path ++ s ": "
                          ++ exn_str e));;;
         Eff.ret None).

Definition convert_single_file (input_path : str) (output_path : option str)
  : M (option str) :=
  let output_path :=
    match output_path with
    | Some p =>
        if str_is_empty p then replace input_path (s ".docx") (s ".json")
        else p
    | None => replace input_path (s ".docx") (s ".json")
    end in
  data <- parse_doc_to_dict input_path;;
  match data with
  | Some d =>
      Eff.emit (WriteJson output_path d);;;
      Eff.ret (Some output_path)
  | None => Eff.ret None
  end.

(** [os.walk(top)] ignores the error of a directory it cannot list:
    it yields nothing then, as for the empty path, which names no
    directory. The files the conversion adds end in ".json", so the
    documents the walk meets are those of the tree as it was. *)
Definition os_walk (top : str) : list (str * list str * list str) :=
  match top with
  | [] => []
  | _ :: _ =>
      match listing top with
      | Some t => walk top t
      | None => []
      end
  end.

(** U+2713 and U+2192 of the progress line. *)
Definition check_mark : char := 10003%N.
Definition arrow : char := 8594%N.

(** The body of [for filename in files] in [convert_folder]. *)
Definition convert_file (docx_folder json_folder root filename : str)
    (converted_files : list str) : M (list str) :=
  if endswith filename (s ".docx") then
    let doc_path := join root filename in
    data <- parse_doc_to_dict doc_path;;
    match data with
    | None => Eff.ret converted_files
    | Some d =>
        rel_path <- Eff.lift (relpath cwd root docx_folder);;
        let target_folder := join json_folder rel_path in
        Eff.emit (Makedirs target_folder);;;
        let base_name := fst (splitext filename) in
        let json_path := join target_folder (base_name ++ s ".json") in
        Eff.emit (WriteJson json_path d);;;
        let converted_files := converted_files ++ [json_path] in
        Eff.emit (Print (s "[" ++ check_mark :: s "] Converted " ++ doc_path
                         ++ s " " ++ arrow :: s " " ++ json_path));;;
        Eff.ret converted_files
    end
  else Eff.ret converted_files.

Definition convert_folder (docx_folder : str) (json_folder : option str)
  : M (list str) :=
  let json_folder :=
    match json_folder with
    | Some p => if str_is_empty p then docx_folder else p
    | None => docx_folder
    end in
  Eff.emit (Makedirs json_folder);;;
  Eff.for_each (os_walk docx_folder)
    (fun '(root, dirs, files) converted_files =>
       Eff.for_each files (convert_file docx_folder json_folder root)
         converted_files)
    [].
End World.

End ConvertDocxToJson.

(** ** streamlit_app.py: validation and parsing of an uploaded file *)

Module StreamlitApp.

(** An uploaded file, as the converter sees it: its [name] attribute if
    it has one, what [zipfile.ZipFile(doc_file).namelist()] gives (or
    the exception opening it raises) and what [Document(doc_file)]
    gives. *)
Record Upload : Type := mkUpload {
  name : option str;
  zip_namelist : res (list str);
  document : res (list str)
}.

(** The calls on the file object and on the streamlit sink. [seek] is
    taken to return; [StreamlitAppIO] below has the [seek] that may
    raise. *)
Inductive event : Type :=
| Seek (pos : Z)
| StError (msg : str)
| StWarning (msg : str).

Definition M : Type -> Type := Eff.M event.

(** [getattr(doc_file, 'name', default)] *)
Definition getattr_name (doc_file : Upload) (default : str) : str :=
  match name doc_file with
  | Some n => n
  | None => default
  end.

Definition required_files : list str :=
  [s "word/document.xml"; s "[Content_Types].xml"].

(** [for required_file in required_files: if ... not in zip_contents:
    return ...]: the first required entry that is missing. *)
Fixpoint first_missing (required zip_contents : list str) : option str :=
  match required with
  | [] => None
  | required_file :: rest =>
      if negb (existsb (str_eqb required_file) zip_contents)
      then Some required_file
      else first_missing rest zip_contents
  end.

Definition validate_docx_file (doc_file : Upload) : M (bool * str) :=
  Eff.try_except
    (Eff.emit (Seek 0);;;
     zip_contents <- Eff.lift (zip_namelist doc_file);;
     match first_missing required_files zip_contents with
     | Some required_file =>
         Eff.ret (false, s "Missing required file: " ++ required_file)
     | None =>
         Eff.emit (Seek 0);;;
         Eff.ret (true, s "Valid DOCX file")
     end)
    (fun e =>
       match e with
       | BadZipFile _ => Eff.ret (false, s "File is not a valid ZIP/DOCX file")
       | _ => Eff.ret (false, s "File validation error: " ++ exn_str e)
       end).

(** The body of the paragraph loop, on [data["content"]] and
    [paragraph_count]. *)
Definition para_step (st : PyDict.dict cval * nat) (text : str)
  : res (PyDict.dict cval * nat) :=
  let '(content, paragraph_count) := st in
  let line := strip text in
  if str_is_empty line then Ok (content, paragraph_count)
  else
    let paragraph_count := paragraph_count + 1 in
    if contains colon line then
      match split1 colon line with
      | [key; value] =>
          Ok (PyDict.set content (strip key) (CStr (strip value)),
              paragraph_count)
      | _ => Raise unpack_error
      end
    else
      let content :=
        if negb (PyDict.mem content (s "free_text"))
        then PyDict.set content (s "free_text") (CList [])
        else content in
      match PyDict.get content (s "free_text") with
      | Some (CList l) =>
          Ok (PyDict.set content (s "free_text") (CList (l ++ [line])),
              paragraph_count)
      | Some (CStr _) =>
          Raise (AttributeError (s "'str' object has no attribute 'append'"))
      | None => Raise (KeyError (s "'free_text'"))
      end.

Fixpoint parse_paragraphs (st : PyDict.dict cval * nat) (paragraphs : list str)
  : res (PyDict.dict cval * nat) :=
  match paragraphs with
  | [] => Ok st
  | text :: rest =>
      res_bind (para_step st text) (fun st' => parse_paragraphs st' rest)
  end.

Definition no_content_msg : str :=
  s ": No content found (document might be empty or use unsupported formatting)".

(** [now] is [datetime.now().isoformat()] at the call. *)
Definition parse_doc_to_dict (now : str) (doc_file : Upload)
  : M (option Data) :=
  Eff.try_except
    (v <- validate_docx_file doc_file;;
     let '(is_valid, validation_message) := v in
     if negb is_valid then
       Eff.emit (StError (getattr_name doc_file (s "File") ++ s ": "
                          ++ validation_message));;;
       Eff.ret None
     else
       paragraphs <- Eff.lift (document doc_file);;
       let data :=
         mkData [(s "source_file",
                  MStr (getattr_name doc_file (s "uploaded_file.docx")));
                 (s "converted_at", MStr now);
                 (s "total_paragraphs", MInt (List.length paragraphs))]
                [] in
       st <- Eff.lift (parse_paragraphs (content data, 0) paragraphs);;
       let '(c, paragraph_count) := st in
       let data :=
         mkData (PyDict.set (metadata data) (s "content_paragraphs")
                            (MInt paragraph_count))
                c in
       (if PyDict.is_empty (content data)
        then Eff.emit (StWarning (getattr_name doc_file (s "File")
                                  ++ no_content_msg))
        else Eff.ret tt);;;
       Eff.ret (Some data))
    (fun e =>
       Eff.emit (StError (s "Error processing "
                          ++ getattr_name doc_file (s "document")
                          ++ s ": " ++ exn_str e));;;
       Eff.ret None).

End StreamlitApp.

(** ** convert_docx_to_json.py, the outside answering *)

Module ConvertDocxToJsonIO.

(** The script again, now with the answers of the outside: [print],
    [os.makedirs], [open] and [json.dump] may raise, and neither
    [convert_single_file] nor [convert_folder] catches what they raise.
    An event is recorded when its call has returned: [Open] leaves the
    file empty, [Dump] fills it with the record. A call that raises
    leaves no event. *)
Inductive event : Type :=
| Print (line : str)
| Makedirs (path : str)
| Open (path : str)
| Dump (path : str) (data : Data).

Definition M : Type -> Type := Eff.M event.

Section World.
Variable Document : str -> res (list str).
Variable now : str -> str.
Variable listing : str -> option Tree.
Variable cwd : str.
(** What the call behind an event raises when it is made after the
    events so far, [None] when it returns. *)
Variable io_error : list event -> event -> option exn.

(** A call to [print], [os.makedirs], [open] or [json.dump]. *)
Definition attempt (ev : event) : M unit :=
  fun tr =>
    match io_error tr ev with
    | Some e => (Raise e, tr)
    | None => (Ok tt, tr ++ [ev])
    end.

Definition parse_doc_to_dict (doc_path : str) : M (option Data) :=
  if startswith (basename doc_path) (s "~$") then
    attempt (Print (s "Skipping lock file: " ++ doc_path));;;
    Eff.ret None
  else
    Eff.try_except
      (paragraphs <- Eff.lift (Document doc_path);;
       let data :=
         mkData [(s "source_file", MStr (basename doc_path));
                 (s "converted_at", MStr (now doc_path));
                 (s "total_paragraphs", MInt (List.length paragraphs))]
                [] in
       c <- Eff.lift (ConvertDocxToJson.parse_paragraphs (content data)
                        paragraphs);;
       Eff.ret (Some (mkData (metadata data) c)))
      (fun e =>
         attempt (Print (s "Error processing " ++ doc_path ++ s ": "
                          ++ exn_str e));;;
         Eff.ret None).

(** [with open(path, "w", encoding="utf-8") as f: json.dump(data, f, ...)] *)
Definition write_json (path : str) (data : Data) : M unit :=
  attempt (Open path);;;
  attempt (Dump path data).

Definition convert_single_file (input_path : str) (output_path : option str)
  : M (option str) :=
  let output_path :=
    match output_path with
    | Some p =>
        if str_is_empty p then replace input_path (s ".docx") (s ".json")
        else p
    | None => replace input_path (s ".docx") (s ".json")
    end in
  data <- parse_doc_to_dict input_path;;
  match data with
  | Some d =>
      write_json output_path d;;;
      Eff.ret (Some output_path)
  | None => Eff.ret None
  end.

(** The body of [for filename in files] in [convert_folder]. *)
Definition convert_file (docx_folder json_folder root filename : str)
    (converted_files : list str) : M (list str) :=
  if endswith filename (s ".docx") then
    let doc_path := join root filename in
    data <- parse_doc_to_dict doc_path;;
    match data with
    | None => Eff.ret converted_files
    | Some d =>
        rel_path <- Eff.lift (relpath cwd root docx_folder);;
        let target_folder := join json_folder rel_path in
        attempt (Makedirs target_folder);;;
        let base_name := fst (splitext filename) in
        let json_path := join target_folder (base_name ++ s ".json") in
        write_json json_path d;;;
        let converted_files := converted_files ++ [json_path] in
        attempt (Print (s "[" ++ ConvertDocxToJson.check_mark
                         :: s "] Converted " ++ doc_path
                         ++ s " " ++ ConvertDocxToJson.arrow
                         :: s " " ++ json_path));;;
        Eff.ret converted_files
    end
  else Eff.ret converted_files.

Definition convert_folder (docx_folder : str) (json_folder : option str)
  : M (list str) :=
  let json_folder :=
    match json_folder with
    | Some p => if str_is_empty p then docx_folder else p
    | None => docx_folder
    end in
  attempt (Makedirs json_folder);;;
  Eff.for_each (ConvertDocxToJson.os_walk listing docx_folder)
    (fun '(root, dirs, files) converted_files =>
       Eff.for_each files (convert_file docx_folder json_folder root)
         converted_files)
    [].
End World.

End ConvertDocxToJsonIO.

(** ** streamlit_app.py: validation, the file object answering *)

Module StreamlitAppIO.

Import StreamlitApp.

(** An uploaded file whose [seek] may raise: [seek_error tr] is what
    [doc_file.seek(0)] raises when it is called after the events [tr],
    [None] when it returns. *)
Record Stream : Type := mkStream {
  upload : Upload;
  seek_error : list event -> option exn
}.

(** [doc_file.seek(pos)] *)
Definition seek (doc_file : Stream) (pos : Z) : M unit :=
  fun tr =>
    match seek_error doc_file tr with
    | Some e => (Raise e, tr)
    | None => (Ok tt, tr ++ [Seek pos])
    end.

(** The [import zipfile] inside [validate_docx_file] makes [zipfile] a
    local name of the function, bound only once the import has run.
    When the first [seek] raises, the clause [except zipfile.BadZipFile]
    is evaluated with the name unbound, and that raises
    [UnboundLocalError] in place of the handlers. *)
Definition unbound_zipfile : exn :=
  OtherException
    (s "cannot access local variable 'zipfile' where it is not associated with a value").

Definition validate_docx_file (doc_file : Stream) : M (bool * str) :=
  Eff.try_except (seek doc_file 0) (fun _ => Eff.raise unbound_zipfile);;;
  Eff.try_except
    (zip_contents <- Eff.lift (zip_namelist (upload doc_file));;
     match first_missing required_files zip_contents with
     | Some required_file =>
         Eff.ret (false, s "Missing required file: " ++ required_file)
     | None =>
         seek doc_file 0;;;
         Eff.ret (true, s "Valid DOCX file")
     end)
    (fun e =>
       match e with
       | BadZipFile _ => Eff.ret (false, s "File is not a valid ZIP/DOCX file")
       | _ => Eff.ret (false, s "File validation error: " ++ exn_str e)
       end).

Definition parse_doc_to_dict (now : str) (doc_file : Stream)
  : M (option Data) :=
  let file := upload doc_file in
  Eff.try_except
    (v <- validate_docx_file doc_file;;
     let '(is_valid, validation_message) := v in
     if negb is_valid then
       Eff.emit (StError (getattr_name file (s "File") ++ s ": "
                          ++ validation_message));;;
       Eff.ret None
     else
       paragraphs <- Eff.lift (document file);;
       let data :=
         mkData [(s "source_file",
                  MStr (getattr_name file (s "uploaded_file.docx")));
                 (s "converted_at", MStr now);
                 (s "total_paragraphs", MInt (List.length paragraphs))]
                [] in
       st <- Eff.lift (parse_paragraphs (content data, 0) paragraphs);;
       let '(c, paragraph_count) := st in
       let data :=
         mkData (PyDict.set (metadata data) (s "content_paragraphs")
                            (MInt paragraph_count))
                c in
       (if PyDict.is_empty (content data)
        then Eff.emit (StWarning (getattr_name file (s "File")
                                  ++ no_content_msg))
        else Eff.ret tt);;;
       Eff.ret (Some data))
    (fun e =>
       Eff.emit (StError (s "Error processing "
                          ++ getattr_name file (s "document")
                          ++ s ": " ++ exn_str e));;;
       Eff.ret None).

End StreamlitAppIO.

(** ** Formatting *)

Module PyFmt.

(** [str(n)] for a natural number: its decimal digits. *)
Definition str_of_nat (n : nat) : str :=
  s (NilEmpty.string_of_uint (Nat.to_uint n)).

Definition comma : char := 44%N.
Definition newline : char := 10%N.

(** The digits of [f"{n:,}"], last digit first: a comma after every
    third one that has a digit after it. *)
Fixpoint group_thousands (rev_digits : list char) : list char :=
  match rev_digits with
  | a :: b :: c :: ((_ :: _) as rest) =>
      a :: b :: c :: comma :: group_thousands rest
  | _ => rev_digits
  end.

(** [f"{n:,}"] *)
Definition format_commas (n : nat) : str :=
  rev (group_thousands (rev (str_of_nat n))).

(** [sep.join(parts)] *)
Fixpoint str_join (sep : str) (parts : list str) : str :=
  match parts with
  | [] => []
  | [p] => p
  | p :: rest => p ++ sep ++ str_join sep rest
  end.

End PyFmt.

Import PyFmt.

(** ** convert_docx_to_json.py: the command line block *)

Module ScriptMain.

Import ConvertDocxToJsonIO.

Definition DOCX_FOLDER : str := s "sample_data/7. Critical Illness_all".
Definition JSON_FOLDER : str := s "sample_data/7. Critical Illness_all".

Section World.
Variable Document : str -> res (list str).
Variable now : str -> str.
Variable listing : str -> option Tree.
Variable cwd : str.
Variable io_error : list event -> event -> option exn.
(** [os.path.exists] *)
Variable path_exists : str -> bool.

(** The block under [if __name__ == "__main__"]. *)
Definition main : M unit :=
  if path_exists DOCX_FOLDER then
    converted <- convert_folder Document now listing cwd io_error
                   DOCX_FOLDER (Some JSON_FOLDER);;
    attempt io_error (Print (newline :: s "Conversion complete! Converted "
                     ++ str_of_nat (List.length converted) ++ s " files."))
  else
    attempt io_error (Print (s "Folder not found: " ++ DOCX_FOLDER));;;
    attempt io_error (Print (s "Please update the DOCX_FOLDER path in the script.")).
End World.

End ScriptMain.

(** ** streamlit_app.py: the loop behind "Convert All Documents" *)

Module StreamlitMain.

(** An uploaded file with the [size] attribute the page shows. *)
Record UploadedFile : Type := mkUploadedFile {
  file : StreamlitApp.Upload;
  size : nat
}.

(** What [json.dumps] is given: the whole record, or its content alone
    when metadata is left out. *)
Inductive payload : Type :=
| WholeRecord (data : Data)
| ContentOnly (content : PyDict.dict cval).

(** The calls on streamlit: those of the parser, and those of the page.
    [Progress i n] is [progress_bar.progress(i / n)], the quotient kept
    as its two terms. *)
Inductive event : Type :=
| Parser (e : StreamlitApp.event)
| NewProgress (value : nat)
| NewEmpty
| StatusText (msg : str)
| StWrite (msg : str)
| StSuccess (msg : str)
| StError (msg : str)
| StInfo (msg : str)
| Progress (i n : nat).

Definition M : Type -> Type := Eff.M event.

(** A call of the parser from the page: its events join the page's. *)
Definition call_parser {A} (m : StreamlitApp.M A) : M A :=
  fun tr => let (r, evs) := m [] in (r, tr ++ map Parser evs).

(** [uploaded_file.name] *)
Definition get_name (uploaded_file : UploadedFile) : M str :=
  match StreamlitApp.name (file uploaded_file) with
  | Some n => Eff.ret n
  | None =>
      Eff.raise
        (AttributeError (s "'UploadedFile' object has no attribute 'name'"))
  end.

(** U+1F50D *)
Definition magnifier : char := 128269%N.

Definition tips : str :=
  s "**Troubleshooting tips:**"
  ++ newline :: s "- Make sure files are valid .docx format (not .doc)"
  ++ newline :: s "- Try re-saving the file in Microsoft Word"
  ++ newline :: s "- Check if file is corrupted".

Section Page.
(** [json.dumps(data, indent=indent, ensure_ascii=False)] *)
Variable json_dumps : option nat -> payload -> str.
(** [datetime.now().isoformat()] when the file at an index is parsed. *)
Variable now : nat -> str.
(** The two check boxes. *)
Variable include_metadata pretty_format : bool.

(** The body of [for i, uploaded_file in enumerate(uploaded_files)],
    acting on [converted_files] and [failed_files]. *)
Definition convert_one (total : nat) (item : nat * UploadedFile)
    (st : PyDict.dict str * list str) : M (PyDict.dict str * list str) :=
  let '(i, uploaded_file) := item in
  let '(converted_files, failed_files) := st in
  nm <- get_name uploaded_file;;
  Eff.emit (StatusText (s "Converting " ++ nm ++ s "..."));;;
  Eff.emit (StWrite (magnifier :: s " Processing: " ++ nm ++ s " ("
                     ++ format_commas (size uploaded_file) ++ s " bytes)"));;;
  data <- call_parser (StreamlitApp.parse_doc_to_dict (now i)
                         (file uploaded_file));;
  st' <- match data with
         | Some d =>
             let data :=
               if negb include_metadata then ContentOnly (content d)
               else WholeRecord d in
             let json_str :=
               if pretty_format then json_dumps (Some 2) data
               else json_dumps None data in
             let json_filename := replace nm (s ".docx") (s ".json") in
             let converted_files :=
               PyDict.set converted_files json_filename json_str in
             Eff.emit (StSuccess (s "Successfully converted " ++ nm));;;
             Eff.ret (converted_files, failed_files)
         | None =>
             let failed_files := failed_files ++ [nm] in
             Eff.emit (StError (s "Failed to convert " ++ nm));;;
             Eff.ret (converted_files, failed_files)
         end;;
  Eff.emit (Progress (i + 1) total);;;
  Eff.ret st'.

(** The block under [if st.button("Convert All Documents")], from the
    two empty collections to the summary. *)
Definition convert_all (uploaded_files : list UploadedFile)
  : M (PyDict.dict str * list str) :=
  Eff.emit (NewProgress 0);;;
  Eff.emit NewEmpty;;;
  st <- Eff.for_each
          (combine (seq 0 (List.length uploaded_files)) uploaded_files)
          (convert_one (List.length uploaded_files))
          ([], []);;
  let '(converted_files, failed_files) := st in
  (if negb (PyDict.is_empty converted_files)
   then Eff.emit (StatusText
                    (s "Conversion complete! "
                     ++ str_of_nat (List.length converted_files)
                     ++ s " successful, "
                     ++ str_of_nat (List.length failed_files)
                     ++ s " failed"))
   else Eff.emit (StatusText (s "No files were successfully converted")));;;
  (if negb (match failed_files with [] => true | _ :: _ => false end)
   then Eff.emit (StError (s "Failed to convert: "
                           ++ str_join (s ", ") failed_files));;;
        Eff.emit (StInfo tips)
   else Eff.ret tt);;;
  Eff.ret (converted_files, failed_files).
End Page.

End StreamlitMain.

(** * Properties *)

Unset Implicit Arguments.

Module B := ConvertDocxToJson.
Module A := StreamlitApp.

(** ** Strings *)

Module PyStrFacts.

Local Open Scope N_scope.

Lemma str_eqb_eq (a b : str) : str_eqb a b = true <-> a = b.
Proof.
  unfold str_eqb. destruct (list_eq_dec N.eq_dec a b); split; congruence.
Qed.

Lemma str_eqb_refl (a : str) : str_eqb a a = true.
Proof. now apply str_eqb_eq. Qed.

Lemma str_eqb_neq (a b : str) : str_eqb a b = false <-> a <> b.
Proof.
  unfold str_eqb. destruct (list_eq_dec N.eq_dec a b); split; congruence.
Qed.

Lemma contains_app c (a b : str) :
  contains c (a ++ b) = contains c a || contains c b.
Proof. unfold contains. apply existsb_app. Qed.

Lemma contains_rev c (a : str) : contains c (rev a) = contains c a.
Proof.
  induction a as [|d a IH]; simpl; auto.
  rewrite contains_app, IH. simpl. rewrite orb_false_r. apply orb_comm.
Qed.

Lemma contains_true_iff c (a : str) : contains c a = true <-> In c a.
Proof.
  unfold contains. rewrite existsb_exists. split.
  - intros (d & Hin & Hd). apply N.eqb_eq in Hd. now subst.
  - intros Hin. exists c. split; auto. apply N.eqb_refl.
Qed.

Lemma contains_false_iff c (a : str) : contains c a = false <-> ~ In c a.
Proof.
  rewrite <- contains_true_iff. destruct (contains c a); split; congruence.
Qed.

(** *** [cut] finds the first occurrence *)

Lemma cut_spec c (x a b : str) :
  cut c x = Some (a, b) -> x = a ++ c :: b /\ contains c a = false.
Proof.
  revert a b. induction x as [|d x IH]; simpl; intros a b H; [discriminate|].
  destruct (d =? c) eqn:E.
  - apply N.eqb_eq in E. subst d. injection H as <- <-. auto.
  - destruct (cut c x) as [[a' b']|]; [|discriminate].
    injection H as <- <-. destruct (IH a' b' eq_refl) as [-> Hc].
    split; auto. simpl. rewrite N.eqb_sym, E. exact Hc.
Qed.

Lemma cut_app c (a b : str) :
  contains c a = false -> cut c (a ++ c :: b) = Some (a, b).
Proof.
  induction a as [|d a IH]; simpl; intros H.
  - now rewrite N.eqb_refl.
  - apply orb_false_iff in H. destruct H as [Hd Ha].
    rewrite N.eqb_sym, Hd, (IH Ha). reflexivity.
Qed.

Lemma cut_none c (x : str) : cut c x = None <-> contains c x = false.
Proof.
  induction x as [|d x IH]; simpl; [tauto|].
  rewrite (N.eqb_sym c d). destruct (d =? c); simpl; [split; discriminate|].
  destruct (cut c x) as [[a b]|].
  - split; [discriminate|]. intros H. apply IH in H. discriminate.
  - tauto.
Qed.

Lemma contains_cut c (x : str) :
  contains c x = true -> exists a b, cut c x = Some (a, b).
Proof.
  intros H. destruct (cut c x) as [[a b]|] eqn:E; eauto.
  apply cut_none in E. congruence.
Qed.

(** *** [strip] around a character that is not white space *)

Lemma lstrip_app_nonspace c (a b : str) :
  isspace c = false -> lstrip (a ++ c :: b) = lstrip a ++ c :: b.
Proof.
  intros Hc. induction a as [|d a IH]; simpl.
  - now rewrite Hc.
  - destruct (isspace d); auto.
Qed.

Lemma rstrip_app_nonspace c (a b : str) :
  isspace c = false -> rstrip (a ++ c :: b) = a ++ c :: rstrip b.
Proof.
  intros Hc. unfold rstrip.
  rewrite rev_app_distr. simpl. rewrite <- app_assoc. simpl.
  rewrite lstrip_app_nonspace by assumption.
  rewrite rev_app_distr. simpl. rewrite rev_involutive, <- app_assoc.
  reflexivity.
Qed.

Lemma strip_app_nonspace c (a b : str) :
  isspace c = false -> strip (a ++ c :: b) = lstrip a ++ c :: rstrip b.
Proof.
  intros Hc. unfold strip.
  rewrite lstrip_app_nonspace by assumption.
  now apply rstrip_app_nonspace.
Qed.

(** [lstrip] drops a run of white space and stops at the first other
    character. *)
Lemma lstrip_cases (x : str) :
  (forallb isspace x = true /\ lstrip x = [])
  \/ exists sp c r, x = sp ++ c :: r /\ forallb isspace sp = true
                    /\ isspace c = false /\ lstrip x = c :: r.
Proof.
  induction x as [|d x IH]; simpl; auto.
  destruct (isspace d) eqn:E; simpl.
  - destruct IH as [IH | (sp & c & r & -> & Hsp & Hc & Hl)]; auto.
    right. exists (d :: sp), c, r. simpl. rewrite E, Hsp. auto.
  - right. exists [], d, x. auto.
Qed.

Lemma lstrip_all_space (x : str) : forallb isspace x = true -> lstrip x = [].
Proof.
  induction x as [|d x IH]; simpl; auto.
  destruct (isspace d); simpl; auto. discriminate.
Qed.

Lemma forallb_rev {A} (f : A -> bool) (l : list A) :
  forallb f (rev l) = forallb f l.
Proof.
  induction l as [|a l IH]; simpl; auto.
  rewrite forallb_app, IH. simpl. rewrite andb_true_r. apply andb_comm.
Qed.

Lemma rstrip_all_space (x : str) : forallb isspace x = true -> rstrip x = [].
Proof.
  intros H. unfold rstrip. rewrite lstrip_all_space; auto.
  now rewrite forallb_rev.
Qed.

Lemma lstrip_idem (x : str) : lstrip (lstrip x) = lstrip x.
Proof.
  destruct (lstrip_cases x) as [[_ ->] | (sp & c & r & _ & _ & Hc & ->)];
    simpl; auto. now rewrite Hc.
Qed.

Lemma rstrip_idem (x : str) : rstrip (rstrip x) = rstrip x.
Proof. unfold rstrip. now rewrite rev_involutive, lstrip_idem. Qed.

Lemma strip_comm (x : str) : rstrip (lstrip x) = lstrip (rstrip x).
Proof.
  destruct (lstrip_cases x) as [[Hall ->] | (sp & c & r & -> & Hsp & Hc & ->)].
  - now rewrite (rstrip_all_space x Hall).
  - rewrite (rstrip_app_nonspace c sp r Hc).
    change (c :: r) with ([] ++ c :: r) at 1.
    rewrite (rstrip_app_nonspace c [] r Hc).
    rewrite lstrip_app_nonspace, lstrip_all_space by assumption.
    reflexivity.
Qed.

Lemma strip_lstrip (x : str) : strip (lstrip x) = strip x.
Proof. unfold strip. now rewrite lstrip_idem. Qed.

Lemma strip_rstrip (x : str) : strip (rstrip x) = strip x.
Proof. unfold strip. now rewrite <- strip_comm, rstrip_idem. Qed.

Lemma strip_idem (x : str) : strip (strip x) = strip x.
Proof. unfold strip at 2. now rewrite strip_rstrip, strip_lstrip. Qed.

(** What [lstrip] and [rstrip] keep is a part of the string. *)
Lemma lstrip_suffix (x : str) : exists sp, x = sp ++ lstrip x.
Proof.
  induction x as [|d x [sp IH]]; simpl.
  - now exists [].
  - destruct (isspace d).
    + exists (d :: sp). simpl. now f_equal.
    + now exists [].
Qed.

Lemma rstrip_prefix (x : str) : exists sp, x = rstrip x ++ sp.
Proof.
  unfold rstrip. destruct (lstrip_suffix (rev x)) as [sp H].
  exists (rev sp). rewrite <- rev_app_distr, <- H. now rewrite rev_involutive.
Qed.

Lemma contains_lstrip c (x : str) :
  contains c (lstrip x) = true -> contains c x = true.
Proof.
  destruct (lstrip_suffix x) as [sp H]. intros Hc.
  rewrite H, contains_app, Hc. apply orb_true_r.
Qed.

Lemma contains_rstrip c (x : str) :
  contains c (rstrip x) = true -> contains c x = true.
Proof.
  destruct (rstrip_prefix x) as [sp H]. intros Hc.
  rewrite H, contains_app, Hc. reflexivity.
Qed.

Lemma contains_strip c (x : str) :
  contains c (strip x) = true -> contains c x = true.
Proof. intros H. now apply contains_lstrip, contains_rstrip. Qed.

Lemma contains_lstrip_false c (x : str) :
  contains c x = false -> contains c (lstrip x) = false.
Proof.
  intros H. destruct (contains c (lstrip x)) eqn:E; auto.
  apply contains_lstrip in E. congruence.
Qed.

Lemma contains_strip_false c (x : str) :
  contains c x = false -> contains c (strip x) = false.
Proof.
  intros H. destruct (contains c (strip x)) eqn:E; auto.
  apply contains_strip in E. congruence.
Qed.

Lemma contains_nonspace_strip c (x : str) :
  isspace c = false -> contains c x = true -> contains c (strip x) = true.
Proof.
  intros Hc H. destruct (contains_cut _ _ H) as (a & b & Hcut).
  apply cut_spec in Hcut. destruct Hcut as [-> _].
  rewrite strip_app_nonspace, contains_app by assumption.
  simpl. rewrite N.eqb_refl. apply orb_true_r.
Qed.

Lemma strip_nil_iff (x : str) : strip x = [] <-> forallb isspace x = true.
Proof.
  split.
  - intros H. destruct (lstrip_cases x)
      as [[Hall _] | (sp & c & r & -> & Hsp & Hc & Hl)]; auto.
    rewrite strip_app_nonspace in H by assumption.
    now destruct (lstrip sp).
  - intros H. unfold strip. now rewrite lstrip_all_space.
Qed.

Example strip_ex : strip (s "  Age: 30 ") = s "Age: 30".
Proof. reflexivity. Qed.

Example replace_ex :
  replace (s "a.docx.docx") (s ".docx") (s ".json") = s "a.json.json".
Proof. reflexivity. Qed.

Example split1_ex :
  split1 colon (s "a:b:c") = [s "a"; s "b:c"].
Proof. reflexivity. Qed.

End PyStrFacts.

Import PyStrFacts.

(** ** Dicts *)

Module PyDictFacts.
Import PyDict.

Section Dict.
Variable V : Type.
Implicit Types d : dict V.

Lemma get_set_same d k v : get (set d k v) k = Some v.
Proof.
  induction d as [|[k' v'] d IH]; simpl.
  - now rewrite str_eqb_refl.
  - destruct (str_eqb k k') eqn:E; simpl; rewrite E; auto.
Qed.

Lemma get_set_other d k k' v :
  k' <> k -> get (set d k v) k' = get d k'.
Proof.
  intros Hne. induction d as [|[k0 v0] d IH]; simpl.
  - apply str_eqb_neq in Hne. now rewrite Hne.
  - destruct (str_eqb k k0) eqn:E; simpl.
    + apply str_eqb_eq in E. subst k0.
      apply str_eqb_neq in Hne. now rewrite Hne.
    + destruct (str_eqb k' k0); auto.
Qed.

Lemma set_absent d k v : get d k = None -> set d k v = d ++ [(k, v)].
Proof.
  induction d as [|[k' v'] d IH]; simpl; auto.
  destruct (str_eqb k k'); [discriminate|].
  intros H. now rewrite IH.
Qed.

Lemma set_set d k v v' : set (set d k v) k v' = set d k v'.
Proof.
  induction d as [|[k0 v0] d IH]; simpl.
  - now rewrite str_eqb_refl.
  - destruct (str_eqb k k0) eqn:E; simpl; rewrite E; auto.
    now rewrite IH.
Qed.

Lemma set_not_nil d k v : set d k v <> [].
Proof.
  destruct d as [|[k' v'] d]; simpl; [discriminate|].
  destruct (str_eqb k k'); discriminate.
Qed.

Lemma keys_set_incl d k v k' :
  In k' (keys d) -> In k' (keys (set d k v)).
Proof.
  induction d as [|[k0 v0] d IH]; simpl; [tauto|].
  destruct (str_eqb k k0); simpl; tauto.
Qed.

Lemma keys_set_nodup d k v :
  NoDup (keys d) -> NoDup (keys (set d k v)).
Proof.
  induction d as [|[k0 v0] d IH]; simpl; intros Hnd.
  - constructor; [tauto | constructor].
  - destruct (str_eqb k k0) eqn:E; simpl; auto.
    inversion Hnd as [|? ? Hnotin Hnd']; subst.
    constructor; auto.
    intros Hin. apply Hnotin. clear - Hin E.
    induction d as [|[k1 v1] d IH]; simpl in *.
    + destruct Hin as [->|[]]. now rewrite str_eqb_refl in E.
    + destruct (str_eqb k k1); simpl in *; tauto.
Qed.
End Dict.

End PyDictFacts.

(** ** Paths *)

Module OsPathFacts.

Local Open Scope Z_scope.

Lemma rfind_from_absent c (x : str) : forall i last,
  contains c x = false -> rfind_from c x i last = last.
Proof.
  induction x as [|d x IH]; intros i last H; cbn [rfind_from]; auto.
  cbn [contains existsb] in H. apply orb_false_iff in H. destruct H as [Hd Hx].
  rewrite N.eqb_sym, Hd. now apply IH.
Qed.

Lemma rfind_from_app c (a b : str) : forall i last,
  rfind_from c (a ++ b) i last
  = rfind_from c b (i + Z.of_nat (List.length a)) (rfind_from c a i last).
Proof.
  induction a as [|d a IH]; intros i last; cbn [app rfind_from List.length].
  - now rewrite Z.add_0_r.
  - rewrite IH. f_equal. lia.
Qed.

(** The last occurrence: nothing after it. *)
Lemma rfind_last c (a b : str) :
  contains c b = false -> rfind c (a ++ c :: b) = Z.of_nat (List.length a).
Proof.
  intros Hb. unfold rfind. rewrite rfind_from_app. cbn [rfind_from].
  rewrite N.eqb_refl. now rewrite rfind_from_absent.
Qed.

Lemma rfind_absent c (x : str) : contains c x = false -> rfind c x = -1.
Proof. intros H. unfold rfind. now apply rfind_from_absent. Qed.

Lemma basename_no_slash (x : str) :
  contains slash x = false -> basename x = x.
Proof. intros H. unfold basename. now rewrite rfind_absent. Qed.

Lemma basename_after_slash (a b : str) :
  contains slash b = false -> basename (a ++ slash :: b) = b.
Proof.
  intros H. unfold basename, slice_from. rewrite rfind_last by assumption.
  replace (Z.to_nat (Z.of_nat (List.length a) + 1))
    with (List.length a + 1)%nat by lia.
  rewrite skipn_app, skipn_all2 by lia.
  replace (List.length a + 1 - List.length a)%nat with 1%nat by lia.
  reflexivity.
Qed.

Lemma endswith_char (a : str) c :
  endswith a [c] = true -> exists a', a = a' ++ [c].
Proof.
  unfold endswith. cbn [rev app].
  destruct (rev a) as [|d r] eqn:E; cbn [startswith]; [discriminate|].
  rewrite andb_true_r. intros H. apply N.eqb_eq in H. subst d.
  exists (rev r). rewrite <- (rev_involutive a), E. reflexivity.
Qed.

Lemma startswith_slash_free (b : str) :
  contains slash b = false -> startswith b [slash] = false.
Proof.
  destruct b as [|c b]; cbn [startswith contains existsb]; auto.
  intros H. apply orb_false_iff in H. destruct H as [H _].
  now rewrite H.
Qed.

(** Joining a directory and a plain name: a separator is put between
    them unless the directory is empty or has one at its end. *)
Lemma join_plain (a b : str) :
  contains slash b = false ->
  join a b = b /\ a = []
  \/ (exists a', a = a' ++ [slash] /\ join a b = a' ++ slash :: b)
  \/ join a b = a ++ slash :: b.
Proof.
  intros Hb. unfold join. rewrite (startswith_slash_free b Hb).
  destruct a as [|c a]; cbn [orb]; [now left | right].
  destruct (endswith (c :: a) [slash]) eqn:E; [left | now right].
  destruct (endswith_char _ _ E) as [a' Ha']. exists a'. split; auto.
  rewrite Ha', <- app_assoc. reflexivity.
Qed.

(** The file a walk names keeps its name as the base name of its path. *)
Lemma basename_join (root filename : str) :
  contains slash filename = false -> basename (join root filename) = filename.
Proof.
  intros H. destruct (join_plain root filename H)
    as [[-> _] | [(a' & _ & ->) | ->]].
  - now apply basename_no_slash.
  - now apply basename_after_slash.
  - now apply basename_after_slash.
Qed.

(** [splitext] on a plain file name that ends with an extension. *)
Lemma splitext_plain (stem ext : str) :
  contains slash (stem ++ dot :: ext) = false ->
  contains dot ext = false ->
  splitext (stem ++ dot :: ext)
  = if existsb (fun c => negb (N.eqb c dot)) stem
    then (stem, dot :: ext)
    else (stem ++ dot :: ext, []).
Proof.
  intros Hslash Hext. unfold splitext.
  rewrite (rfind_absent _ _ Hslash), (rfind_last _ _ _ Hext).
  replace (-1 <? Z.of_nat (List.length stem)) with true
    by (symmetry; apply Z.ltb_lt; lia).
  unfold slice, slice_to, slice_from. cbn [andb].
  replace (Z.to_nat (-1 + 1)) with 0%nat by lia.
  rewrite Nat2Z.id. cbn [skipn].
  rewrite firstn_app, firstn_all, Nat.sub_diag. cbn [firstn].
  rewrite app_nil_r.
  rewrite skipn_app, skipn_all, Nat.sub_diag. cbn [skipn app].
  reflexivity.
Qed.

Lemma endswith_app (x p : str) : endswith (x ++ p) p = true.
Proof.
  unfold endswith. rewrite rev_app_distr.
  induction (rev p) as [|c r IH]; cbn [app startswith]; auto.
  now rewrite N.eqb_refl, IH.
Qed.

Lemma startswith_spec (x p : str) :
  startswith x p = true <-> exists r, x = p ++ r.
Proof.
  revert x. induction p as [|a p IH]; intros x; cbn [startswith].
  - split; [intros _; now exists x | auto].
  - destruct x as [|b x].
    + split; [discriminate | intros [r Hr]; discriminate].
    + rewrite andb_true_iff, N.eqb_eq, IH. split.
      * intros [-> [r ->]]. now exists r.
      * intros [r Hr]. injection Hr as -> ->. split; eauto.
Qed.

Lemma endswith_spec (x p : str) :
  endswith x p = true <-> exists stem, x = stem ++ p.
Proof.
  unfold endswith. rewrite startswith_spec. split.
  - intros [r Hr]. exists (rev r).
    rewrite <- (rev_involutive x), Hr, rev_app_distr, rev_involutive.
    reflexivity.
  - intros [stem ->]. exists (rev stem). apply rev_app_distr.
Qed.

Example basename_ex : basename (s "a/b/~$c.docx") = s "~$c.docx".
Proof. reflexivity. Qed.

Example splitext_ex1 : splitext (s "a.b/c.d.docx") = (s "a.b/c.d", s ".docx").
Proof. reflexivity. Qed.

Example splitext_ex2 : splitext (s ".docx") = (s ".docx", []).
Proof. reflexivity. Qed.

Example normpath_ex : normpath (s "/a//b/./c/../d/") = s "/a/b/d".
Proof. reflexivity. Qed.

Example relpath_ex1 :
  relpath (s "/home/u") (s "in/x/y") (s "in") = Ok (s "x/y").
Proof. reflexivity. Qed.

Example relpath_ex2 : relpath (s "/home/u") (s "in") (s "in") = Ok (s ".").
Proof. reflexivity. Qed.

Example relpath_ex3 :
  relpath (s "/home/u") (s "/a/b") (s "/a/c/d") = Ok (s "../../b").
Proof. reflexivity. Qed.

End OsPathFacts.

(** ** The paragraph loop *)

Module ParserFacts.

Definition bump (text : str) (n : nat) : nat :=
  if str_is_empty (strip text) then n else n + 1.

(** The loop body of the application is the one of the script, with the
    count of the non-blank lines carried along. *)
Lemma app_para_step content n text :
  A.para_step (content, n) text
  = res_bind (B.para_step content text) (fun c => Ok (c, bump text n)).
Proof.
  unfold A.para_step, B.para_step, bump.
  destruct (str_is_empty (strip text)); simpl; auto.
  destruct (contains colon (strip text)).
  - destruct (split1 colon (strip text)) as [|k [|v [|? ?]]]; reflexivity.
  - destruct (PyDict.get _ _) as [[v|l]|]; reflexivity.
Qed.

Lemma app_parse_paragraphs paragraphs : forall content n,
  A.parse_paragraphs (content, n) paragraphs
  = res_bind (B.parse_paragraphs content paragraphs)
      (fun c => Ok (c, fold_left (fun k t => bump t k) paragraphs n)).
Proof.
  induction paragraphs as [|t ps IH]; intros content n; auto.
  cbn [A.parse_paragraphs B.parse_paragraphs fold_left].
  rewrite app_para_step.
  destruct (B.para_step content t) as [c|e]; cbn [res_bind]; auto.
Qed.

Lemma colon_not_space : isspace colon = false.
Proof. reflexivity. Qed.

Lemma str_is_empty_true (x : str) : str_is_empty x = true <-> x = [].
Proof. destruct x; simpl; split; congruence. Qed.

Lemma str_is_empty_or (x : str) : x = [] \/ x <> [].
Proof. destruct x; [now left | right; discriminate]. Qed.

Lemma str_is_empty_false (x : str) : str_is_empty x = false <-> x <> [].
Proof. destruct x; simpl; split; congruence. Qed.

(** A line with a colon: the text before the first colon is the key. *)
Lemma para_step_key_value content (K V : str) :
  contains colon K = false ->
  B.para_step content (K ++ colon :: V)
  = Ok (PyDict.set content (strip K) (CStr (strip V))).
Proof.
  intros HK. unfold B.para_step.
  rewrite (strip_app_nonspace colon K V colon_not_space).
  replace (str_is_empty (lstrip K ++ colon :: rstrip V)) with false
    by (now destruct (lstrip K)).
  replace (contains colon (lstrip K ++ colon :: rstrip V)) with true
    by (symmetry; apply contains_true_iff, in_or_app; right; now left).
  unfold split1.
  rewrite cut_app by now apply contains_lstrip_false.
  now rewrite strip_lstrip, strip_rstrip.
Qed.

Lemma para_step_blank content (text : str) :
  strip text = [] -> B.para_step content text = Ok content.
Proof. intros H. unfold B.para_step. now rewrite H. Qed.

End ParserFacts.

Import ParserFacts.

(** C1: a line that has a colon once trimmed splits at its first colon
    only: with the line read as [K ++ ":" ++ V], [K] free of colons, the
    loop stores the trimmed [V] under the trimmed [K], whatever colons [V]
    has; "Note: call at 9:30" gives the key "Note" and the value
    "call at 9:30". The same holds in the script and in the application. *)
Theorem C1_split_at_first_colon :
  (forall (text : str) (content : PyDict.dict cval) (n : nat),
      strip text <> [] ->
      contains colon (strip text) = true ->
      (exists K V, text = K ++ colon :: V /\ contains colon K = false)
      /\ forall K V,
          text = K ++ colon :: V -> contains colon K = false ->
          ConvertDocxToJson.para_step content text
          = Ok (PyDict.set content (strip K) (CStr (strip V)))
          /\ StreamlitApp.para_step (content, n) text
             = Ok (PyDict.set content (strip K) (CStr (strip V)), n + 1))
  /\ (forall content n,
         ConvertDocxToJson.para_step content (s "Note: call at 9:30")
         = Ok (PyDict.set content (s "Note") (CStr (s "call at 9:30")))
         /\ StreamlitApp.para_step (content, n) (s "Note: call at 9:30")
            = Ok (PyDict.set content (s "Note") (CStr (s "call at 9:30")),
                  n + 1)).
Proof.
  assert (Hgen : forall text content n K V,
             text = K ++ colon :: V -> contains colon K = false ->
             ConvertDocxToJson.para_step content text
             = Ok (PyDict.set content (strip K) (CStr (strip V)))
             /\ StreamlitApp.para_step (content, n) text
                = Ok (PyDict.set content (strip K) (CStr (strip V)), n + 1)).
  { intros text content n K V -> HK.
    rewrite app_para_step, para_step_key_value by assumption.
    split; auto. simpl. unfold bump.
    rewrite (strip_app_nonspace colon K V colon_not_space).
    now destruct (lstrip K). }
  split.
  - intros text content n _ Hcolon. split.
    + apply contains_strip in Hcolon.
      destruct (contains_cut _ _ Hcolon) as (K & V & Hcut).
      apply cut_spec in Hcut. eauto.
    + intros K V. apply Hgen.
  - intros content n.
    apply (Hgen _ content n (s "Note") (s " call at 9:30")); reflexivity.
Qed.

Lemma C1_split_at_first_colon_witness :
  strip (s "a : b:c ") <> []
  /\ contains colon (strip (s "a : b:c ")) = true
  /\ ConvertDocxToJson.para_step [] (s "a : b:c ")
     = Ok [(s "a", CStr (s "b:c"))].
Proof.
  split; [discriminate|]. split; [reflexivity|].
  exact (proj1 (proj2 (proj1 C1_split_at_first_colon
                         (s "a : b:c ") [] 0
                         ltac:(discriminate) eq_refl)
                 (s "a ") (s " b:c ") eq_refl eq_refl)).
Defined.

Module ScenarioFacts.

Definition scenario : list str :=
  [s "Name: John Doe"; s ""; s "Age: 30"; s "likes hiking"].

Definition scenario_content : PyDict.dict cval :=
  [(s "Name", CStr (s "John Doe"));
   (s "Age", CStr (s "30"));
   (s "free_text", CList [s "likes hiking"])].

Definition valid_names : list str :=
  [s "[Content_Types].xml"; s "word/document.xml"].

(** A line without a colon goes to the end of the [free_text] list,
    which is created when the key is absent. *)
Lemma para_step_free_text content (text : str) :
  strip text <> [] -> contains colon (strip text) = false ->
  match PyDict.get content (s "free_text") with
  | None =>
      ConvertDocxToJson.para_step content text
      = Ok (content ++ [(s "free_text", CList [strip text])])
  | Some (CList l) =>
      ConvertDocxToJson.para_step content text
      = Ok (PyDict.set content (s "free_text") (CList (l ++ [strip text])))
  | Some (CStr _) =>
      ConvertDocxToJson.para_step content text
      = Raise (AttributeError (s "'str' object has no attribute 'append'"))
  end.
Proof.
  intros Hne Hc. unfold ConvertDocxToJson.para_step, PyDict.mem.
  apply str_is_empty_false in Hne. rewrite Hne, Hc.
  destruct (PyDict.get content (s "free_text")) as [[v|l]|] eqn:E;
    cbn [negb]; try rewrite E; auto.
  rewrite PyDictFacts.get_set_same, PyDictFacts.set_set.
  now rewrite (PyDictFacts.set_absent _ _ _ _ E).
Qed.

End ScenarioFacts.

Import ScenarioFacts.

(** C2: the document with the paragraphs "Name: John Doe", "",
    "Age: 30", "likes hiking" parses to the content
    {"Name": "John Doe", "Age": "30", "free_text": ["likes hiking"]} with
    total_paragraphs 4, in the script and in the application; and in
    general a non-blank line without a colon is appended, trimmed, at the
    end of the free_text list. *)
Theorem C2_scenario_record :
  (forall Document now doc_path tr,
      startswith (basename doc_path) (s "~$") = false ->
      Document doc_path = Ok scenario ->
      ConvertDocxToJson.parse_doc_to_dict Document now doc_path tr
      = (Ok (Some (mkData [(s "source_file", MStr (basename doc_path));
                           (s "converted_at", MStr (now doc_path));
                           (s "total_paragraphs", MInt 4)]
                          scenario_content)),
         tr))
  /\ (forall now doc_file names tr,
         StreamlitApp.zip_namelist doc_file = Ok names ->
         StreamlitApp.first_missing StreamlitApp.required_files names = None ->
         StreamlitApp.document doc_file = Ok scenario ->
         exists data,
           StreamlitApp.parse_doc_to_dict now doc_file tr
           = (Ok (Some data),
              tr ++ [StreamlitApp.Seek 0; StreamlitApp.Seek 0])
           /\ content data = scenario_content
           /\ PyDict.get (metadata data) (s "total_paragraphs")
              = Some (MInt 4))
  /\ (forall content text l,
         strip text <> [] -> contains colon (strip text) = false ->
         PyDict.get content (s "free_text") = Some (CList l) ->
         ConvertDocxToJson.para_step content text
         = Ok (PyDict.set content (s "free_text") (CList (l ++ [strip text])))).
Proof.
  split; [|split].
  - intros Document now doc_path tr Hlock Hdoc.
    unfold ConvertDocxToJson.parse_doc_to_dict.
    rewrite Hlock.
    unfold Eff.try_except, Eff.bind, Eff.lift, Eff.ret.
    rewrite Hdoc. reflexivity.
  - intros now doc_file names tr Hzip Hreq Hdoc.
    eexists. split.
    + unfold StreamlitApp.parse_doc_to_dict, StreamlitApp.validate_docx_file.
      unfold Eff.try_except, Eff.bind, Eff.lift, Eff.ret, Eff.emit.
      rewrite Hzip, Hreq. cbn [negb]. rewrite Hdoc.
      cbn. rewrite <- app_assoc. reflexivity.
    + split; reflexivity.
  - intros content text l Hne Hc Hget.
    pose proof (para_step_free_text content text Hne Hc) as H.
    now rewrite Hget in H.
Qed.

Lemma C2_scenario_record_witness :
  exists data,
    ConvertDocxToJson.parse_doc_to_dict
      (fun _ => Ok scenario) (fun _ => s "2024-01-01T00:00:00")
      (s "in/john.docx") []
    = (Ok (Some data), [])
    /\ content data = scenario_content
    /\ PyDict.get (metadata data) (s "total_paragraphs") = Some (MInt 4).
Proof.
  eexists. split.
  - apply (proj1 C2_scenario_record (fun _ => Ok scenario)
             (fun _ => s "2024-01-01T00:00:00") (s "in/john.docx") []);
      reflexivity.
  - split; reflexivity.
Defined.

(** ** The reserved key *)

Module ReservedKeyFacts.

Definition no_append : exn :=
  AttributeError (s "'str' object has no attribute 'append'").

(** [content["free_text"]] holds a string. *)
Definition locked (content : PyDict.dict cval) : Prop :=
  exists v, PyDict.get content (s "free_text") = Some (CStr v).

Lemma parse_paragraphs_app pre : forall content rest,
  B.parse_paragraphs content (pre ++ rest)
  = res_bind (B.parse_paragraphs content pre)
      (fun c => B.parse_paragraphs c rest).
Proof.
  induction pre as [|t pre IH]; intros content rest; auto.
  cbn [app B.parse_paragraphs].
  destruct (B.para_step content t); cbn [res_bind]; auto.
Qed.

(** The only exception the loop body raises is the failed [append]. *)
Lemma para_step_raise content text e :
  B.para_step content text = Raise e -> e = no_append.
Proof.
  unfold B.para_step.
  destruct (str_is_empty (strip text)); [discriminate|].
  destruct (contains colon (strip text)) eqn:Hc.
  - unfold split1. destruct (contains_cut _ _ Hc) as (a & b & ->).
    discriminate.
  - unfold PyDict.mem.
    destruct (PyDict.get content (s "free_text")) as [[v|l]|] eqn:E;
      cbn [negb].
    + rewrite E. intros H. now injection H as <-.
    + rewrite E. discriminate.
    + rewrite PyDictFacts.get_set_same. discriminate.
Qed.

Lemma parse_paragraphs_raise paragraphs : forall content e,
  B.parse_paragraphs content paragraphs = Raise e -> e = no_append.
Proof.
  induction paragraphs as [|t ps IH]; intros content e;
    cbn [B.parse_paragraphs]; [discriminate|].
  destruct (B.para_step content t) as [c|e'] eqn:E; cbn [res_bind].
  - apply IH.
  - intros H. injection H as <-. eapply para_step_raise, E.
Qed.

Lemma para_step_locked content text :
  locked content ->
  match B.para_step content text with
  | Ok c => locked c
  | Raise e => e = no_append
  end.
Proof.
  intros [v Hv].
  destruct (B.para_step content text) as [c|e] eqn:E;
    [|eapply para_step_raise, E].
  revert E. unfold B.para_step.
  destruct (str_is_empty (strip text)).
  { intros H. injection H as <-. now exists v. }
  destruct (contains colon (strip text)).
  - destruct (split1 colon (strip text)) as [|k [|w [|? ?]]]; try discriminate.
    intros H. injection H as <-.
    destruct (list_eq_dec N.eq_dec (s "free_text") (strip k)) as [Hk|Hk].
    + exists (strip w). rewrite <- Hk. apply PyDictFacts.get_set_same.
    + exists v. now rewrite PyDictFacts.get_set_other.
  - unfold PyDict.mem. rewrite Hv. cbn [negb]. rewrite Hv. discriminate.
Qed.

Lemma parse_paragraphs_locked paragraphs : forall content,
  locked content ->
  match B.parse_paragraphs content paragraphs with
  | Ok c => locked c
  | Raise e => e = no_append
  end.
Proof.
  induction paragraphs as [|t ps IH]; intros content Hl;
    cbn [B.parse_paragraphs]; auto.
  pose proof (para_step_locked content t Hl) as H.
  destruct (B.para_step content t) as [c|e]; cbn [res_bind].
  - now apply IH.
  - exact H.
Qed.

(** A key line for "free_text" and, later, a line without a colon. *)
Lemma reserved_key_raises pre mid post K V free_line content :
  contains colon K = false ->
  strip K = s "free_text" ->
  strip free_line <> [] ->
  contains colon (strip free_line) = false ->
  B.parse_paragraphs content
    (pre ++ (K ++ colon :: V) :: mid ++ free_line :: post)
  = Raise no_append.
Proof.
  intros HK Hkey Hne Hc.
  rewrite parse_paragraphs_app.
  destruct (B.parse_paragraphs content pre) as [c1|e] eqn:E1; cbn [res_bind].
  2:{ f_equal. eapply parse_paragraphs_raise, E1. }
  cbn [B.parse_paragraphs].
  rewrite para_step_key_value by assumption. cbn [res_bind].
  rewrite Hkey, parse_paragraphs_app.
  assert (Hl : locked (PyDict.set c1 (s "free_text") (CStr (strip V)))).
  { exists (strip V). apply PyDictFacts.get_set_same. }
  pose proof (parse_paragraphs_locked mid _ Hl) as Hmid.
  destruct (B.parse_paragraphs _ mid) as [c3|e]; cbn [res_bind];
    [|now f_equal].
  cbn [B.parse_paragraphs].
  destruct Hmid as [v Hv].
  pose proof (para_step_free_text c3 free_line Hne Hc) as H.
  rewrite Hv in H. now rewrite H.
Qed.

End ReservedKeyFacts.

Import ReservedKeyFacts.

(** C10: when a line sets the key "free_text" (as "free_text: note"
    does) and a later non-blank line has no colon, the append to the
    string stored under that key raises, the handler of
    [parse_doc_to_dict] catches the exception and reports it, and the
    call returns no record: None, in the script and in the application,
    whatever the other paragraphs are. *)
Theorem C10_reserved_key_fails_document :
  forall pre mid post K V free_line,
    contains colon K = false ->
    strip K = s "free_text" ->
    strip free_line <> [] ->
    contains colon (strip free_line) = false ->
    let paragraphs := pre ++ (K ++ colon :: V) :: mid ++ free_line :: post in
    (forall Document now doc_path tr,
        startswith (basename doc_path) (s "~$") = false ->
        Document doc_path = Ok paragraphs ->
        ConvertDocxToJson.parse_doc_to_dict Document now doc_path tr
        = (Ok None,
           tr ++ [ConvertDocxToJson.Print
                    (s "Error processing " ++ doc_path ++ s ": "
                     ++ s "'str' object has no attribute 'append'")]))
    /\ (forall now doc_file names tr,
           StreamlitApp.zip_namelist doc_file = Ok names ->
           StreamlitApp.first_missing StreamlitApp.required_files names = None ->
           StreamlitApp.document doc_file = Ok paragraphs ->
           StreamlitApp.parse_doc_to_dict now doc_file tr
           = (Ok None,
              tr ++ [StreamlitApp.Seek 0; StreamlitApp.Seek 0;
                     StreamlitApp.StError
                       (s "Error processing "
                        ++ StreamlitApp.getattr_name doc_file (s "document")
                        ++ s ": "
                        ++ s "'str' object has no attribute 'append'")])).
Proof.
  intros pre mid post K V free_line HK Hkey Hne Hc paragraphs.
  pose proof (reserved_key_raises pre mid post K V free_line [] HK Hkey Hne Hc)
    as Hraise.
  fold paragraphs in Hraise. split.
  - intros Document now doc_path tr Hlock Hdoc.
    unfold ConvertDocxToJson.parse_doc_to_dict. rewrite Hlock.
    unfold Eff.try_except, Eff.bind, Eff.lift, Eff.ret, Eff.emit.
    rewrite Hdoc. cbn [content]. rewrite Hraise. reflexivity.
  - intros now doc_file names tr Hzip Hreq Hdoc.
    unfold StreamlitApp.parse_doc_to_dict, StreamlitApp.validate_docx_file.
    unfold Eff.try_except, Eff.bind, Eff.lift, Eff.ret, Eff.emit.
    rewrite Hzip, Hreq. cbn [negb]. rewrite Hdoc. cbn [content].
    rewrite app_parse_paragraphs, Hraise. cbn [res_bind].
    rewrite <- !app_assoc. reflexivity.
Qed.

Lemma C10_reserved_key_fails_document_witness :
  ConvertDocxToJson.parse_doc_to_dict
    (fun _ => Ok [s "free_text: note"; s "no separator here"])
    (fun _ => s "2024-01-01T00:00:00") (s "in/a.docx") []
  = (Ok None,
     [ConvertDocxToJson.Print
        (s "Error processing in/a.docx: 'str' object has no attribute 'append'")]).
Proof.
  exact (proj1 (C10_reserved_key_fails_document
                  [] [] [] (s "free_text") (s " note") (s "no separator here")
                  eq_refl eq_refl ltac:(discriminate) eq_refl)
           (fun _ => Ok [s "free_text: note"; s "no separator here"])
           (fun _ => s "2024-01-01T00:00:00") (s "in/a.docx") []
           eq_refl eq_refl).
Defined.

(** ** [parse_doc_to_dict], outcome by outcome *)

Module ParseFacts.

Definition validation_error (e : exn) : str :=
  match e with
  | BadZipFile _ => s "File is not a valid ZIP/DOCX file"
  | _ => s "File validation error: " ++ exn_str e
  end.

Definition app_metadata (now : str) (doc_file : A.Upload) (total n : nat)
  : PyDict.dict mval :=
  [(s "source_file", MStr (A.getattr_name doc_file (s "uploaded_file.docx")));
   (s "converted_at", MStr now);
   (s "total_paragraphs", MInt total);
   (s "content_paragraphs", MInt n)].

Definition script_metadata (now : str -> str) (doc_path : str) (total : nat)
  : PyDict.dict mval :=
  [(s "source_file", MStr (basename doc_path));
   (s "converted_at", MStr (now doc_path));
   (s "total_paragraphs", MInt total)].

Definition processing_error (who : str) (e : exn) : str :=
  s "Error processing " ++ who ++ s ": " ++ exn_str e.

(** Every run of the application's parser. *)
Lemma app_parse_run now doc_file tr :
  A.parse_doc_to_dict now doc_file tr =
  match A.zip_namelist doc_file with
  | Raise e =>
      (Ok None,
       tr ++ [A.Seek 0;
              A.StError (A.getattr_name doc_file (s "File") ++ s ": "
                         ++ validation_error e)])
  | Ok names =>
      match A.first_missing A.required_files names with
      | Some missing =>
          (Ok None,
           tr ++ [A.Seek 0;
                  A.StError (A.getattr_name doc_file (s "File") ++ s ": "
                             ++ s "Missing required file: " ++ missing)])
      | None =>
          match res_bind (A.document doc_file)
                  (fun ps =>
                     res_bind
                       (A.parse_paragraphs (([] : PyDict.dict cval), 0) ps)
                               (fun st => Ok (List.length ps, st))) with
          | Raise e =>
              (Ok None,
               tr ++ [A.Seek 0; A.Seek 0;
                      A.StError (processing_error
                                   (A.getattr_name doc_file (s "document")) e)])
          | Ok (total, (c, n)) =>
              (Ok (Some (mkData (app_metadata now doc_file total n) c)),
               tr ++ [A.Seek 0; A.Seek 0]
                  ++ (if PyDict.is_empty c
                      then [A.StWarning (A.getattr_name doc_file (s "File")
                                         ++ A.no_content_msg)]
                      else []))
          end
      end
  end.
Proof.
  unfold A.parse_doc_to_dict, A.validate_docx_file.
  unfold Eff.try_except, Eff.bind, Eff.lift, Eff.ret, Eff.emit.
  destruct (A.zip_namelist doc_file) as [names|e].
  2:{ destruct e; cbn [negb]; cbv beta iota;
      rewrite <- ?app_assoc; reflexivity. }
  destruct (A.first_missing A.required_files names) as [missing|].
  { cbn [negb]; cbv beta iota. rewrite <- ?app_assoc; reflexivity. }
  cbn [negb]. destruct (A.document doc_file) as [ps|e]; cbn [res_bind].
  2:{ rewrite <- !app_assoc; reflexivity. }
  cbn [content].
  destruct (A.parse_paragraphs _ ps) as [[c n]|e]; cbn [res_bind].
  2:{ rewrite <- !app_assoc; reflexivity. }
  cbn [content metadata]. destruct c as [|kv c]; cbn [PyDict.is_empty].
  - rewrite <- !app_assoc; reflexivity.
  - rewrite <- !app_assoc, app_nil_r; reflexivity.
Qed.

(** Every run of the script's parser. *)
Lemma script_parse_run Document now doc_path tr :
  B.parse_doc_to_dict Document now doc_path tr =
  if startswith (basename doc_path) (s "~$") then
    (Ok None, tr ++ [B.Print (s "Skipping lock file: " ++ doc_path)])
  else
    match res_bind (Document doc_path)
            (fun ps => res_bind (B.parse_paragraphs [] ps)
                         (fun c => Ok (List.length ps, c))) with
    | Raise e => (Ok None, tr ++ [B.Print (processing_error doc_path e)])
    | Ok (total, c) =>
        (Ok (Some (mkData (script_metadata now doc_path total) c)), tr)
    end.
Proof.
  unfold B.parse_doc_to_dict.
  destruct (startswith (basename doc_path) (s "~$")); [reflexivity|].
  unfold Eff.try_except, Eff.bind, Eff.lift, Eff.ret, Eff.emit.
  destruct (Document doc_path) as [ps|e]; cbn [res_bind]; [|reflexivity].
  cbn [content].
  destruct (B.parse_paragraphs [] ps) as [c|e]; reflexivity.
Qed.

Definition blank (text : str) : Prop := strip text = [].

Lemma para_step_ok_cases content text c :
  B.para_step content text = Ok c ->
  (blank text /\ c = content) \/ (~ blank text /\ c <> []).
Proof.
  unfold B.para_step, blank.
  destruct (strip text) as [|a line] eqn:E; cbn [str_is_empty].
  { intros H. injection H as <-. auto. }
  intros H. right. split; [discriminate|].
  destruct (contains colon (a :: line)).
  - destruct (split1 colon (a :: line)) as [|k [|w [|? ?]]]; try discriminate.
    injection H as <-. apply PyDictFacts.set_not_nil.
  - destruct (PyDict.get _ (s "free_text")) as [[v|l]|]; try discriminate.
    injection H as <-. apply PyDictFacts.set_not_nil.
Qed.

(** The content stays empty exactly when every paragraph is blank. *)
Lemma parse_paragraphs_empty_iff paragraphs : forall content c,
  B.parse_paragraphs content paragraphs = Ok c ->
  (c = [] <-> content = [] /\ Forall blank paragraphs).
Proof.
  induction paragraphs as [|t ps IH]; intros content c;
    cbn [B.parse_paragraphs].
  - intros H. injection H as <-. split; [auto | tauto].
  - destruct (B.para_step content t) as [c1|e] eqn:E; cbn [res_bind];
      [|discriminate].
    intros H. rewrite (IH _ _ H).
    destruct (para_step_ok_cases _ _ _ E) as [[Hb ->] | [Hnb Hne]].
    + split; intros [H1 H2]; split; auto. now inversion H2.
    + split; intros [H1 H2]; [contradiction|].
      inversion H2; contradiction.
Qed.

(** Only an exception stops the loop: blank paragraphs never do. *)
Lemma parse_paragraphs_blank paragraphs content :
  Forall blank paragraphs -> B.parse_paragraphs content paragraphs = Ok content.
Proof.
  induction 1 as [|t ps Ht _ IH]; cbn [B.parse_paragraphs]; auto.
  now rewrite (para_step_blank content t Ht).
Qed.

Lemma bump_blank paragraphs n :
  Forall blank paragraphs ->
  fold_left (fun k t => bump t k) paragraphs n = n.
Proof.
  induction 1 as [|t ps Ht _ IH]; cbn [fold_left]; auto.
  unfold bump at 2. now rewrite Ht.
Qed.

End ParseFacts.

Import ParseFacts.

(** ** Validation *)

Module ValidateFacts.

Lemma existsb_str_eqb (x : str) (l : list str) :
  existsb (str_eqb x) l = true <-> In x l.
Proof.
  rewrite existsb_exists. split.
  - intros (y & Hin & Hy). apply str_eqb_eq in Hy. now subst.
  - intros Hin. exists x. split; auto. apply str_eqb_refl.
Qed.

Lemma first_missing_some required names missing :
  A.first_missing required names = Some missing ->
  In missing required /\ ~ In missing names.
Proof.
  induction required as [|r rest IH]; cbn [A.first_missing]; [discriminate|].
  destruct (existsb (str_eqb r) names) eqn:E; cbn [negb].
  - intros H. destruct (IH H). split; [now right | assumption].
  - intros H. injection H as <-. split; [now left|].
    intros Hin. apply existsb_str_eqb in Hin. congruence.
Qed.

Lemma first_missing_none required names :
  A.first_missing required names = None <->
  forall r, In r required -> In r names.
Proof.
  induction required as [|r rest IH]; cbn [A.first_missing].
  - split; [intros _ r [] | reflexivity].
  - destruct (existsb (str_eqb r) names) eqn:E; cbn [negb].
    + rewrite IH. apply existsb_str_eqb in E. split.
      * intros H r' [<-|Hin]; auto.
      * intros H r' Hin. apply H. now right.
    + split; [discriminate|]. intros H.
      assert (Hin : In r names) by (apply H; now left).
      apply existsb_str_eqb in Hin. congruence.
Qed.

End ValidateFacts.

Import ValidateFacts.

(** C4: the application validates an upload before python-docx reads
    it. When the file does not open as a ZIP archive no record is made
    and the error says so; when the archive lacks word/document.xml or
    [Content_Types].xml no record is made and the error names a required
    entry that is missing. Neither outcome depends on what [Document]
    would give: [document doc_file] is unconstrained. *)
Theorem C4_invalid_format_no_record :
  forall now doc_file tr,
    (forall e,
        StreamlitApp.zip_namelist doc_file = Raise e ->
        StreamlitApp.parse_doc_to_dict now doc_file tr
        = (Ok None,
           tr ++ [StreamlitApp.Seek 0;
                  StreamlitApp.StError
                    (StreamlitApp.getattr_name doc_file (s "File") ++ s ": "
                     ++ validation_error e)])
        /\ forall msg, e = BadZipFile msg ->
             validation_error e = s "File is not a valid ZIP/DOCX file")
    /\ (forall names required_file,
           StreamlitApp.zip_namelist doc_file = Ok names ->
           In required_file StreamlitApp.required_files ->
           ~ In required_file names ->
           exists missing,
             In missing StreamlitApp.required_files
             /\ ~ In missing names
             /\ StreamlitApp.parse_doc_to_dict now doc_file tr
                = (Ok None,
                   tr ++ [StreamlitApp.Seek 0;
                          StreamlitApp.StError
                            (StreamlitApp.getattr_name doc_file (s "File")
                             ++ s ": " ++ s "Missing required file: "
                             ++ missing)])).
Proof.
  intros now doc_file tr. split.
  - intros e He. rewrite app_parse_run, He. split; [reflexivity|].
    now intros msg ->.
  - intros names r Hnames Hreq Hnot.
    destruct (StreamlitApp.first_missing StreamlitApp.required_files names)
      as [missing|] eqn:E.
    + destruct (first_missing_some _ _ _ E) as [H1 H2].
      exists missing. repeat split; auto.
      now rewrite app_parse_run, Hnames, E.
    + exfalso. apply Hnot.
      now apply (proj1 (first_missing_none _ _) E).
Qed.

Lemma C4_invalid_format_no_record_witness :
  StreamlitApp.parse_doc_to_dict (s "2024-01-01T00:00:00")
    (StreamlitApp.mkUpload (Some (s "a.docx"))
       (Raise (BadZipFile (s "File is not a zip file")))
       (Ok scenario))
    []
  = (Ok None,
     [StreamlitApp.Seek 0;
      StreamlitApp.StError (s "a.docx: File is not a valid ZIP/DOCX file")]).
Proof.
  exact (proj1 (proj1 (C4_invalid_format_no_record
                         (s "2024-01-01T00:00:00")
                         (StreamlitApp.mkUpload (Some (s "a.docx"))
                            (Raise (BadZipFile (s "File is not a zip file")))
                            (Ok scenario))
                         [])
                  (BadZipFile (s "File is not a zip file")) eq_refl)).
Defined.

(** ** Counters and empty content *)

Module CounterFacts.

(** [line] is not empty after [strip]. *)
Definition non_blank (text : str) : bool := negb (str_is_empty (strip text)).

Lemma bump_count paragraphs : forall n,
  fold_left (fun k t => bump t k) paragraphs n
  = n + List.length (filter non_blank paragraphs).
Proof.
  induction paragraphs as [|t ps IH]; intros n; cbn [fold_left filter].
  - cbn. lia.
  - rewrite IH. unfold bump, non_blank.
    destruct (str_is_empty (strip t)); cbn [negb List.length]; lia.
Qed.

(** What a successful run of the application's parser returned. *)
Lemma app_parse_some now doc_file tr data tr' :
  A.parse_doc_to_dict now doc_file tr = (Ok (Some data), tr') ->
  exists ps c,
    A.document doc_file = Ok ps
    /\ B.parse_paragraphs [] ps = Ok c
    /\ data = mkData (app_metadata now doc_file (List.length ps)
                        (List.length (filter non_blank ps))) c.
Proof.
  rewrite app_parse_run.
  destruct (A.zip_namelist doc_file) as [names|e]; [|discriminate].
  destruct (A.first_missing A.required_files names); [discriminate|].
  destruct (A.document doc_file) as [ps|e]; cbn [res_bind]; [|discriminate].
  rewrite app_parse_paragraphs.
  destruct (B.parse_paragraphs [] ps) as [c|e] eqn:E; cbn [res_bind];
    [|discriminate].
  intros H. injection H as <- _. exists ps, c.
  rewrite bump_count. auto.
Qed.

(** What a successful run of the script's parser returned. *)
Lemma script_parse_some Document now doc_path tr data tr' :
  B.parse_doc_to_dict Document now doc_path tr = (Ok (Some data), tr') ->
  exists ps c,
    Document doc_path = Ok ps
    /\ B.parse_paragraphs [] ps = Ok c
    /\ data = mkData (script_metadata now doc_path (List.length ps)) c
    /\ tr' = tr.
Proof.
  rewrite script_parse_run.
  destruct (startswith (basename doc_path) (s "~$")); [discriminate|].
  destruct (Document doc_path) as [ps|e]; cbn [res_bind]; [|discriminate].
  destruct (B.parse_paragraphs [] ps) as [c|e] eqn:E; cbn [res_bind];
    [|discriminate].
  intros H. injection H as <- <-. exists ps, c. auto.
Qed.

End CounterFacts.

Import CounterFacts.

(** C5, as the code has it: a record of either parser has
    total_paragraphs, the number of paragraphs of the document, blank ones
    included. The application's record has content_paragraphs as well,
    the number of paragraphs that are not blank once trimmed; the script's
    metadata has the three keys source_file, converted_at and
    total_paragraphs and no count of the non-blank paragraphs. *)
Theorem C5_paragraph_counters :
  (forall now doc_file tr data tr',
      StreamlitApp.parse_doc_to_dict now doc_file tr = (Ok (Some data), tr') ->
      exists paragraphs,
        StreamlitApp.document doc_file = Ok paragraphs
        /\ PyDict.get (metadata data) (s "total_paragraphs")
           = Some (MInt (List.length paragraphs))
        /\ PyDict.get (metadata data) (s "content_paragraphs")
           = Some (MInt (List.length (filter non_blank paragraphs))))
  /\ (forall Document now doc_path tr data tr',
         ConvertDocxToJson.parse_doc_to_dict Document now doc_path tr
         = (Ok (Some data), tr') ->
         exists paragraphs,
           Document doc_path = Ok paragraphs
           /\ PyDict.get (metadata data) (s "total_paragraphs")
              = Some (MInt (List.length paragraphs))
           /\ PyDict.keys (metadata data)
              = [s "source_file"; s "converted_at"; s "total_paragraphs"]).
Proof.
  split.
  - intros now doc_file tr data tr' H.
    destruct (app_parse_some _ _ _ _ _ H) as (ps & c & Hdoc & _ & ->).
    exists ps. repeat split; auto.
  - intros Document now doc_path tr data tr' H.
    destruct (script_parse_some _ _ _ _ _ _ H) as (ps & c & Hdoc & _ & -> & _).
    exists ps. repeat split; auto.
Qed.

Definition scenario_upload : StreamlitApp.Upload :=
  StreamlitApp.mkUpload (Some (s "john.docx")) (Ok valid_names) (Ok scenario).

Lemma C5_paragraph_counters_witness :
  exists data,
    StreamlitApp.parse_doc_to_dict (s "2024-01-01T00:00:00") scenario_upload []
    = (Ok (Some data), [StreamlitApp.Seek 0; StreamlitApp.Seek 0])
    /\ PyDict.get (metadata data) (s "total_paragraphs") = Some (MInt 4)
    /\ PyDict.get (metadata data) (s "content_paragraphs") = Some (MInt 3).
Proof.
  eexists. split; [reflexivity|].
  destruct (proj1 C5_paragraph_counters
              (s "2024-01-01T00:00:00") scenario_upload [] _ _ eq_refl)
    as (ps & Hdoc & Htotal & Hcount).
  injection Hdoc as <-. split; [exact Htotal | exact Hcount].
Defined.

(** C5 as stated fails on the script: the record it returns for the
    four-paragraph scenario, three of them non-blank, has no
    content_paragraphs and no value 3 anywhere in its metadata. *)
Lemma C5_script_has_no_non_empty_counter :
  exists data,
    ConvertDocxToJson.parse_doc_to_dict
      (fun _ => Ok scenario) (fun _ => s "2024-01-01T00:00:00")
      (s "in/john.docx") []
    = (Ok (Some data), [])
    /\ List.length (filter non_blank scenario) = 3
    /\ PyDict.get (metadata data) (s "content_paragraphs") = None
    /\ ~ In (MInt 3) (map snd (metadata data)).
Proof.
  eexists. split; [reflexivity|]. split; [reflexivity|].
  split; [reflexivity|].
  cbn. intros [H|[H|[H|[]]]]; discriminate.
Qed.

(** C9: a record's content is empty exactly when every paragraph of the
    document is blank once trimmed, in the application and in the script;
    and the application turns a valid upload whose paragraphs are all
    blank into a record with empty content, with a warning on the sink and
    no error. *)
Theorem C9_empty_content_only_when_blank :
  (forall now doc_file tr data tr',
      StreamlitApp.parse_doc_to_dict now doc_file tr = (Ok (Some data), tr') ->
      exists paragraphs,
        StreamlitApp.document doc_file = Ok paragraphs
        /\ (content data = [] <-> Forall blank paragraphs))
  /\ (forall Document now doc_path tr data tr',
         ConvertDocxToJson.parse_doc_to_dict Document now doc_path tr
         = (Ok (Some data), tr') ->
         exists paragraphs,
           Document doc_path = Ok paragraphs
           /\ (content data = [] <-> Forall blank paragraphs))
  /\ (forall now doc_file names paragraphs tr,
         StreamlitApp.zip_namelist doc_file = Ok names ->
         (forall r, In r StreamlitApp.required_files -> In r names) ->
         StreamlitApp.document doc_file = Ok paragraphs ->
         Forall blank paragraphs ->
         StreamlitApp.parse_doc_to_dict now doc_file tr
         = (Ok (Some (mkData (app_metadata now doc_file
                                (List.length paragraphs) 0) [])),
            tr ++ [StreamlitApp.Seek 0; StreamlitApp.Seek 0;
                   StreamlitApp.StWarning
                     (StreamlitApp.getattr_name doc_file (s "File")
                      ++ StreamlitApp.no_content_msg)])).
Proof.
  split; [|split].
  - intros now doc_file tr data tr' H.
    destruct (app_parse_some _ _ _ _ _ H) as (ps & c & Hdoc & Hc & ->).
    exists ps. split; auto. cbn [content].
    rewrite (parse_paragraphs_empty_iff _ _ _ Hc). tauto.
  - intros Document now doc_path tr data tr' H.
    destruct (script_parse_some _ _ _ _ _ _ H) as (ps & c & Hdoc & Hc & -> & _).
    exists ps. split; auto. cbn [content].
    rewrite (parse_paragraphs_empty_iff _ _ _ Hc). tauto.
  - intros now doc_file names ps tr Hzip Hreq Hdoc Hblank.
    rewrite app_parse_run, Hzip.
    rewrite (proj2 (first_missing_none _ _) Hreq), Hdoc. cbn [res_bind].
    rewrite app_parse_paragraphs, (parse_paragraphs_blank _ _ Hblank).
    cbn [res_bind]. rewrite (bump_blank _ _ Hblank).
    reflexivity.
Qed.

Lemma C9_empty_content_only_when_blank_witness :
  StreamlitApp.parse_doc_to_dict (s "2024-01-01T00:00:00")
    (StreamlitApp.mkUpload (Some (s "e.docx")) (Ok valid_names)
       (Ok [s ""; s "   "]))
    []
  = (Ok (Some (mkData [(s "source_file", MStr (s "e.docx"));
                       (s "converted_at", MStr (s "2024-01-01T00:00:00"));
                       (s "total_paragraphs", MInt 2);
                       (s "content_paragraphs", MInt 0)]
                      [])),
     [StreamlitApp.Seek 0; StreamlitApp.Seek 0;
      StreamlitApp.StWarning
        (s "e.docx: No content found (document might be empty or use unsupported formatting)")]).
Proof.
  apply (proj2 (proj2 C9_empty_content_only_when_blank)
           (s "2024-01-01T00:00:00")
           (StreamlitApp.mkUpload (Some (s "e.docx")) (Ok valid_names)
              (Ok [s ""; s "   "]))
           valid_names [s ""; s "   "] []).
  - reflexivity.
  - intros r [<-|[<-|[]]]; cbn; auto.
  - reflexivity.
  - repeat constructor.
Defined.

(** ** The folder conversion, file by file *)

Module BatchFacts.

Section World.
Variable Document : str -> res (list str).
Variable now : str -> str.
Variable listing : str -> option Tree.
Variable cwd : str.

Local Abbreviation parse := (B.parse_doc_to_dict Document now).
Local Abbreviation convert_file := (B.convert_file Document now cwd).

(** [json_folder = docx_folder] when none is given. *)
Definition destination (docx_folder : str) (json_folder : option str) : str :=
  match json_folder with
  | Some p => if str_is_empty p then docx_folder else p
  | None => docx_folder
  end.

(** The pairs [(root, filename)] in the order the two loops meet them. *)
Definition jobs (docx_folder : str) : list (str * str) :=
  flat_map (fun '(root, _, files) => map (pair root) files)
    (B.os_walk listing docx_folder).

(** The loop body on one file, run on its own. *)
Definition file_run (docx_folder json_folder : str) (job : str * str)
  : res (list str) * list B.event :=
  convert_file docx_folder json_folder (fst job) (snd job) [] [].

Definition file_out docx_folder json_folder job : list str :=
  match fst (file_run docx_folder json_folder job) with
  | Ok out => out
  | Raise _ => []
  end.

Definition file_events docx_folder json_folder job : list B.event :=
  snd (file_run docx_folder json_folder job).

Lemma parse_frame doc_path tr :
  parse doc_path tr = (fst (parse doc_path []), tr ++ snd (parse doc_path [])).
Proof.
  rewrite !script_parse_run.
  destruct (startswith (basename doc_path) (s "~$")); [reflexivity|].
  destruct (res_bind _ _) as [[total c]|e]; cbn [fst snd];
    now rewrite ?app_nil_r.
Qed.

Lemma parse_never_raises doc_path tr :
  exists data, fst (parse doc_path tr) = Ok data.
Proof.
  rewrite script_parse_run.
  destruct (startswith (basename doc_path) (s "~$")); [now eexists|].
  destruct (res_bind _ _) as [[total c]|e]; now eexists.
Qed.

Lemma relpath_ok root start :
  root <> [] -> exists rel, relpath cwd root start = Ok rel.
Proof.
  intros Hroot. unfold relpath. destruct root; [contradiction|].
  destruct (repeat _ _ ++ _); now eexists.
Qed.

(** The loop body only appends: to the list and to the trace. *)
Lemma convert_file_frame docx_folder json_folder root filename acc tr :
  root <> [] ->
  convert_file docx_folder json_folder root filename acc tr
  = (Ok (acc ++ file_out docx_folder json_folder (root, filename)),
     tr ++ file_events docx_folder json_folder (root, filename)).
Proof.
  intros Hroot. unfold file_out, file_events, file_run. cbn [fst snd].
  unfold B.convert_file.
  destruct (endswith filename (s ".docx")).
  2:{ unfold Eff.ret. cbn [fst snd]. now rewrite !app_nil_r. }
  unfold Eff.bind, Eff.lift, Eff.ret, Eff.emit.
  rewrite (parse_frame (join root filename) tr).
  destruct (parse_never_raises (join root filename) []) as [data Hd].
  destruct (parse (join root filename) []) as [r evs].
  cbn [fst snd] in *. subst r.
  destruct data as [d|]; cbn [fst snd]; [|now rewrite app_nil_r].
  destruct (relpath_ok root docx_folder Hroot) as [rel ->].
  cbn [fst snd app]. now rewrite <- !app_assoc.
Qed.

Lemma for_each_frame {X} (xs : list X)
    (body : X -> list str -> B.M (list str))
    (out : X -> list str) (evs : X -> list B.event) :
  (forall x st tr, In x xs ->
      body x st tr = (Ok (st ++ out x), tr ++ evs x)) ->
  forall st tr,
    Eff.for_each xs body st tr
    = (Ok (st ++ flat_map out xs), tr ++ flat_map evs xs).
Proof.
  induction xs as [|x xs IH]; intros Hbody st tr; cbn [Eff.for_each flat_map].
  - unfold Eff.ret. now rewrite !app_nil_r.
  - unfold Eff.bind. rewrite Hbody by now left.
    rewrite IH by (intros; apply Hbody; now right).
    now rewrite <- !app_assoc.
Qed.

Lemma join_not_nil a b : a <> [] -> join a b <> [].
Proof.
  intros Ha. unfold join.
  destruct (startswith b [slash]) eqn:E.
  - destruct b; [discriminate E | discriminate].
  - destruct a; [contradiction|].
    destruct (_ || _); cbn; discriminate.
Qed.

Lemma walk_roots_not_nil :
  (forall t top, top <> [] ->
      forall root dirs files, In (root, dirs, files) (walk top t) -> root <> [])
  /\ (forall f top, top <> [] ->
         forall root dirs files,
           In (root, dirs, files) (walk_dirs top f) -> root <> []).
Proof.
  apply Tree_Forest_mutind.
  - intros files dirs IH top Htop root ds fs H.
    cbn [walk In] in H. destruct H as [H|H].
    + injection H as <- _ _. assumption.
    + eapply IH; eauto.
  - intros top _ root ds fs [].
  - intros name sub IHsub rest IHrest top Htop root ds fs H.
    cbn [walk_dirs] in H. apply in_app_or in H. destruct H as [H|H].
    + eapply IHsub; [|exact H]. now apply join_not_nil.
    + eapply IHrest; eauto.
Qed.

Lemma os_walk_root_not_nil docx_folder root dirs files :
  In (root, dirs, files) (B.os_walk listing docx_folder) -> root <> [].
Proof.
  unfold B.os_walk. intros Hin.
  destruct docx_folder as [|c df]; [destruct Hin|].
  destruct (listing (c :: df)) as [t|]; [|destruct Hin].
  eapply (proj1 walk_roots_not_nil); [|exact Hin]. discriminate.
Qed.

Lemma jobs_root_not_nil docx_folder job :
  In job (jobs docx_folder) -> fst job <> [].
Proof.
  unfold jobs. intros H. apply in_flat_map in H.
  destruct H as ([[root dirs] files] & Hin & Hjob).
  apply in_map_iff in Hjob. destruct Hjob as (filename & <- & _).
  cbn [fst]. eapply os_walk_root_not_nil, Hin.
Qed.

(** The whole run: the destination is created, then every file the
    walk lists is handled once, in order, and the run ends normally. *)
Lemma convert_folder_run docx_folder json_folder tr :
  B.convert_folder Document now listing cwd docx_folder json_folder tr
  = (Ok (flat_map (file_out docx_folder (destination docx_folder json_folder))
           (jobs docx_folder)),
     tr ++ B.Makedirs (destination docx_folder json_folder)
        :: flat_map (file_events docx_folder
                       (destination docx_folder json_folder))
             (jobs docx_folder)).
Proof.
  unfold B.convert_folder. fold (destination docx_folder json_folder).
  set (jf := destination docx_folder json_folder).
  unfold Eff.bind at 1. unfold Eff.emit.
  assert (Hwalk :
            forall (triples : list (str * list str * list str)) st tr0,
             (forall root dirs files, In (root, dirs, files) triples ->
                                      root <> []) ->
             Eff.for_each triples
               (fun '(root, _, files) converted_files =>
                  Eff.for_each files (convert_file docx_folder jf root)
                    converted_files) st tr0
             = (Ok (st ++ flat_map (file_out docx_folder jf)
                            (flat_map (fun '(root, _, files) =>
                                         map (pair root) files) triples)),
                tr0 ++ flat_map (file_events docx_folder jf)
                         (flat_map (fun '(root, _, files) =>
                                      map (pair root) files) triples))).
  { induction triples as [|[[root dirs] files] triples IH];
      intros st tr0 Hroots; cbn [Eff.for_each flat_map].
    - unfold Eff.ret. now rewrite !app_nil_r.
    - unfold Eff.bind.
      rewrite (for_each_frame files (convert_file docx_folder jf root)
                 (fun f => file_out docx_folder jf (root, f))
                 (fun f => file_events docx_folder jf (root, f))).
      2:{ intros f st' tr' _. apply convert_file_frame.
          eapply Hroots. now left. }
      rewrite IH by (intros; eapply Hroots; right; eauto).
      rewrite !flat_map_app, <- !app_assoc.
      rewrite !flat_map_concat_map, !map_map.
      reflexivity. }
  rewrite Hwalk.
  - cbn [app]. unfold jobs. now rewrite <- app_assoc.
  - intros root dirs files Hin. eapply os_walk_root_not_nil, Hin.
Qed.
(** *** One file, by what happens to it *)

Definition progress_line (doc_path json_path : str) : str :=
  s "[" ++ B.check_mark :: s "] Converted " ++ doc_path
  ++ s " " ++ B.arrow :: s " " ++ json_path.

(** The path of the JSON file of a document [filename] found in [root]. *)
Definition json_path_of (json_folder rel_path filename : str) : str :=
  join (join json_folder rel_path) (fst (splitext filename) ++ s ".json").




Lemma file_run_converted docx_folder json_folder root filename ps c rel :
  endswith filename (s ".docx") = true ->
  startswith (basename (join root filename)) (s "~$") = false ->
  Document (join root filename) = Ok ps ->
  B.parse_paragraphs [] ps = Ok c ->
  relpath cwd root docx_folder = Ok rel ->
  let doc_path := join root filename in
  let data := mkData (script_metadata now doc_path (List.length ps)) c in
  let json_path := json_path_of json_folder rel filename in
  file_run docx_folder json_folder (root, filename)
  = (Ok [json_path],
     [B.Makedirs (join json_folder rel);
      B.WriteJson json_path data;
      B.Print (progress_line doc_path json_path)]).
Proof.
  intros Hext Hlock Hdoc Hparse Hrel. unfold file_run, B.convert_file.
  cbn [fst snd]. rewrite Hext. unfold Eff.bind.
  rewrite script_parse_run, Hlock, Hdoc. cbn [res_bind].
  rewrite Hparse. cbn [res_bind]. unfold Eff.lift. rewrite Hrel.
  reflexivity.
Qed.

End World.

End BatchFacts.

Import BatchFacts.

(** A small world to run the script in: a folder "in" holding two files
    and a sub-folder "sub" holding two more. *)
Module SampleWorld.

Definition cwd : str := s "/home/u".
Definition now (_ : str) : str := s "2024-01-01T00:00:00".

Definition tree : Tree :=
  Dir [s "~$draft.docx"; s "a.docx"; s "notes.txt"]
      (FCons (s "sub") (Dir [s "bad.docx"; s "b.docx"] FNil) FNil).

Definition listing (top : str) : option Tree :=
  if str_eqb top (s "in") then Some tree else None.

Definition Document (doc_path : str) : res (list str) :=
  if str_eqb doc_path (s "in/sub/bad.docx")
  then Raise (OtherException (s "Package not found"))
  else Ok scenario.

Definition record (doc_path : str) : Data :=
  mkData (script_metadata now doc_path 4) scenario_content.


(** A folder with a file named ".docx" and, in "sub", one document
    that cannot be opened. *)
Definition listing_failed_sub (top : str) : option Tree :=
  if str_eqb top (s "in")
  then Some (Dir [s ".docx"]
               (FCons (s "sub") (Dir [s "bad.docx"] FNil) FNil))
  else None.

(** The run of [convert_folder] from "in" to "out". *)
Definition run (listing : str -> option Tree)
  : res (list str) * list ConvertDocxToJson.event :=
  ConvertDocxToJson.convert_folder Document now listing cwd
    (s "in") (Some (s "out")) [].

End SampleWorld.



(** ** A single file *)

Module SingleFileFacts.



End SingleFileFacts.

Import SingleFileFacts.

(** C6, at an input where the code departs from it: for the document
    "team.docx.d/report.docx" and no destination, [convert_single_file]
    writes and returns "team.json.d/report.json": [str.replace] changed
    the ".docx" of the folder name too, where swapping the extension
    alone, as [os.path.splitext] does in [convert_folder], gives
    "team.docx.d/report.json". *)
Theorem C6_replace_changes_every_occurrence :
  ConvertDocxToJson.convert_single_file SampleWorld.Document SampleWorld.now
    (s "team.docx.d/report.docx") None []
  = (Ok (Some (s "team.json.d/report.json")),
     [ConvertDocxToJson.WriteJson (s "team.json.d/report.json")
        (SampleWorld.record (s "team.docx.d/report.docx"))])
  /\ fst (splitext (s "team.docx.d/report.docx")) ++ s ".json"
     = s "team.docx.d/report.json".
Proof. split; reflexivity. Qed.




(** ** [relpath] along a walk *)

Module RelpathFacts.

(** A name as a directory listing gives it: not empty, no separator,
    neither "." nor "..". *)
Definition plain (d : str) : Prop :=
  d <> [] /\ contains slash d = false /\ d <> [dot] /\ d <> dotdot.

(** A component [normpath] keeps. *)
Definition part (p : str) : Prop := p <> [] /\ contains slash p = false.

Lemma plain_part d : plain d -> part d.
Proof. intros (H1 & H2 & _). now split. Qed.

Lemma split_not_nil c (x : str) : split c x <> [].
Proof.
  destruct x as [|d x]; cbn [split]; [discriminate|].
  destruct (N.eqb d c); [discriminate|].
  destruct (split c x); discriminate.
Qed.

Lemma split_app c (a b : str) :
  split c (a ++ c :: b) = split c a ++ split c b.
Proof.
  induction a as [|d a IH]; cbn [app split].
  - now rewrite N.eqb_refl.
  - destruct (N.eqb d c); [now rewrite IH|].
    rewrite IH. pose proof (split_not_nil c a) as Hne.
    destruct (split c a) as [|h r]; [contradiction | reflexivity].
Qed.

Lemma split_free c (b : str) : contains c b = false -> split c b = [b].
Proof.
  induction b as [|d b IH]; cbn [split contains existsb]; auto.
  intros H. apply orb_false_iff in H. destruct H as [Hd Hb].
  rewrite N.eqb_sym, Hd. now rewrite (IH Hb).
Qed.

Lemma split_parts_free c (x : str) :
  Forall (fun p => contains c p = false) (split c x).
Proof.
  induction x as [|d x IH]; cbn [split].
  - now repeat constructor.
  - destruct (N.eqb d c) eqn:E; [now constructor|].
    pose proof (split_not_nil c x) as Hne.
    destruct (split c x) as [|h r]; [contradiction|].
    inversion IH as [|? ? Hh Hr]; subst. constructor; auto.
    cbn [contains existsb]. rewrite N.eqb_sym, E. exact Hh.
Qed.

(** *** The component loop of [normpath] on an absolute path *)

Definition abs_comps (q : str) : list str :=
  fold_left (normpath_step 1) (split slash q) [].

Lemma normpath_step_two cs comp :
  normpath_step 2 cs comp = normpath_step 1 cs comp.
Proof. reflexivity. Qed.

Lemma normpath_step_empty k cs : normpath_step k cs [] = cs.
Proof. reflexivity. Qed.

Lemma normpath_step_plain k cs d : plain d -> normpath_step k cs d = cs ++ [d].
Proof.
  intros (H1 & _ & H3 & H4). unfold normpath_step.
  apply str_eqb_neq in H1, H3, H4. rewrite H1, H3, H4. reflexivity.
Qed.

Lemma Forall_removelast {X} (P : X -> Prop) (l : list X) :
  Forall P l -> Forall P (removelast l).
Proof.
  induction 1 as [|x l Hx Hl IH]; cbn [removelast]; auto.
  destruct l; auto.
Qed.

Lemma normpath_step_parts k cs comp :
  Forall part cs -> contains slash comp = false ->
  Forall part (normpath_step k cs comp).
Proof.
  intros Hcs Hc. unfold normpath_step.
  destruct (str_eqb comp []) eqn:E; cbn [orb]; auto.
  destruct (str_eqb comp [dot]); auto.
  apply str_eqb_neq in E.
  destruct (_ || _).
  - apply Forall_app. split; auto. now repeat constructor.
  - now apply Forall_removelast.
Qed.

Lemma fold_normpath_parts k comps : forall cs,
  Forall part cs -> Forall (fun p => contains slash p = false) comps ->
  Forall part (fold_left (normpath_step k) comps cs).
Proof.
  induction comps as [|c comps IH]; intros cs Hcs Hfree; cbn [fold_left]; auto.
  inversion Hfree; subst. apply IH; auto. now apply normpath_step_parts.
Qed.

Lemma abs_comps_parts q : Forall part (abs_comps q).
Proof. apply fold_normpath_parts; [constructor | apply split_parts_free]. Qed.

Lemma fold_normpath_two comps : forall cs,
  fold_left (normpath_step 2) comps cs = fold_left (normpath_step 1) comps cs.
Proof.
  induction comps as [|c comps IH]; intros cs; cbn [fold_left]; auto.
Qed.

(** An absolute path normalises to one or two slashes and its kept
    components. *)
Lemma normpath_abs q :
  startswith q [slash] = true ->
  exists k, normpath q = repeat slash (S k) ++ sep_join slash (abs_comps q).
Proof.
  intros Habs. unfold normpath. destruct q as [|c q]; [discriminate|].
  rewrite Habs.
  destruct (startswith (c :: q) [slash; slash]
            && negb (startswith (c :: q) [slash; slash; slash])).
  - exists 1%nat. rewrite fold_normpath_two. reflexivity.
  - exists 0%nat. reflexivity.
Qed.

Lemma nonempty_parts_slash x : nonempty_parts (slash :: x) = nonempty_parts x.
Proof. reflexivity. Qed.

Lemma nonempty_parts_sep_join cs :
  Forall part cs -> nonempty_parts (sep_join slash cs) = cs.
Proof.
  induction 1 as [|p cs [Hne Hfree] Hcs IH]; [reflexivity|].
  assert (Hp : nonempty_parts p = [p]).
  { unfold nonempty_parts. rewrite (split_free _ _ Hfree). cbn [filter].
    apply str_eqb_neq in Hne. now rewrite Hne. }
  destruct cs as [|p' cs]; [exact Hp|].
  change (sep_join slash (p :: p' :: cs))
    with (p ++ slash :: sep_join slash (p' :: cs)).
  unfold nonempty_parts in *. rewrite split_app, filter_app, Hp, IH.
  reflexivity.
Qed.

Lemma abs_parts q :
  startswith q [slash] = true -> nonempty_parts (normpath q) = abs_comps q.
Proof.
  intros Habs. destruct (normpath_abs q Habs) as [k ->].
  induction k as [|k IH].
  - cbn [repeat app]. rewrite nonempty_parts_slash.
    apply nonempty_parts_sep_join, abs_comps_parts.
  - change (repeat slash (S (S k))) with (slash :: repeat slash (S k)).
    cbn [app]. now rewrite nonempty_parts_slash.
Qed.

(** *** One more directory name *)

Lemma abs_comps_join q d :
  q <> [] -> plain d -> abs_comps (join q d) = abs_comps q ++ [d].
Proof.
  intros Hq Hd. pose proof Hd as (_ & Hfree & _).
  unfold abs_comps.
  destruct (OsPathFacts.join_plain q d Hfree)
    as [[_ ->] | [(q' & -> & ->) | ->]]; [contradiction| |].
  - change (q' ++ [slash]) with (q' ++ slash :: []).
    rewrite !split_app, (split_free _ _ Hfree). cbn [split].
    rewrite !fold_left_app. cbn [fold_left].
    now rewrite normpath_step_empty, normpath_step_plain.
  - rewrite split_app, (split_free _ _ Hfree), fold_left_app.
    cbn [fold_left]. now rewrite normpath_step_plain.
Qed.

Lemma startswith_app_l (a b p : str) :
  startswith a p = true -> startswith (a ++ b) p = true.
Proof.
  rewrite !OsPathFacts.startswith_spec. intros [r ->]. exists (r ++ b).
  now rewrite app_assoc.
Qed.

Lemma startswith_char_app (a b : str) c :
  a <> [] -> startswith (a ++ b) [c] = startswith a [c].
Proof. destruct a; [contradiction | reflexivity]. Qed.

Lemma join_startswith q d :
  q <> [] -> contains slash d = false ->
  startswith (join q d) [slash] = startswith q [slash].
Proof.
  intros Hq Hfree.
  destruct (OsPathFacts.join_plain q d Hfree)
    as [[_ ->] | [(q' & -> & ->) | ->]]; [contradiction| |].
  - destruct q'; reflexivity.
  - now apply startswith_char_app.
Qed.

Lemma endswith_char_app (a b : str) c :
  b <> [] -> endswith (a ++ b) [c] = endswith b [c].
Proof.
  intros Hb. unfold endswith. rewrite rev_app_distr.
  destruct (rev b) as [|x r] eqn:E.
  - apply (f_equal (@rev _)) in E. rewrite rev_involutive in E.
    now subst b.
  - reflexivity.
Qed.

Lemma join_rel c x :
  startswith x [slash] = false ->
  join c x
  = c ++ (if str_is_empty c || endswith c [slash] then x else slash :: x).
Proof.
  intros H. unfold join. rewrite H.
  destruct c as [|a c]; [reflexivity|]. cbn [str_is_empty orb].
  destruct (endswith (a :: c) [slash]); reflexivity.
Qed.

Lemma str_is_empty_app_r (a b : str) : b <> [] -> str_is_empty (a ++ b) = false.
Proof. destruct a, b; auto. contradiction. Qed.

(** [join] is associative when the middle part is a relative path and
    the last one a plain name. *)
Lemma join_assoc c r d :
  r <> [] -> startswith r [slash] = false -> contains slash d = false ->
  join c (join r d) = join (join c r) d.
Proof.
  intros Hr Hrel Hfree.
  assert (Hjr : startswith (join r d) [slash] = false)
    by now rewrite join_startswith.
  pose proof (OsPathFacts.startswith_slash_free d Hfree) as Hd.
  rewrite (join_rel c (join r d) Hjr), (join_rel c r Hrel).
  rewrite (join_rel r d Hd), (join_rel _ d Hd).
  replace (str_is_empty r) with false by (now destruct r).
  destruct (str_is_empty c || endswith c [slash]).
  - rewrite str_is_empty_app_r, endswith_char_app by assumption.
    now rewrite app_assoc.
  - rewrite str_is_empty_app_r by discriminate.
    change (slash :: r) with ([slash] ++ r).
    rewrite (app_assoc c [slash] r), endswith_char_app by assumption.
    rewrite <- !app_assoc. reflexivity.
Qed.

(** The path [abspath] normalises. *)
Definition full (cwd p : str) : str :=
  if startswith p [slash] then p else join cwd p.

Lemma full_join cwd root d :
  root <> [] -> contains slash d = false ->
  full cwd (join root d) = join (full cwd root) d.
Proof.
  intros Hroot Hfree. unfold full.
  rewrite join_startswith by assumption.
  destruct (startswith root [slash]) eqn:E; [reflexivity|].
  now apply join_assoc.
Qed.

Lemma full_abs cwd p :
  startswith cwd [slash] = true -> p <> [] ->
  startswith (full cwd p) [slash] = true.
Proof.
  intros Hcwd Hp. unfold full.
  destruct (startswith p [slash]) eqn:E; [exact E|].
  rewrite (join_rel cwd p E). now apply startswith_app_l.
Qed.

Lemma full_not_nil cwd p : p <> [] -> full cwd p <> [].
Proof.
  intros Hp. unfold full. destruct (startswith p [slash]); auto.
  unfold join. destruct (startswith p [slash]); auto.
  destruct (_ || _); destruct cwd, p; try discriminate; contradiction.
Qed.

(** The components of the absolute form of a path. *)
Definition abs_parts_of (cwd p : str) : list str :=
  nonempty_parts (abspath cwd p).

Lemma abs_parts_of_comps cwd p :
  startswith cwd [slash] = true -> p <> [] ->
  abs_parts_of cwd p = abs_comps (full cwd p).
Proof.
  intros Hcwd Hp. unfold abs_parts_of, abspath. fold (full cwd p).
  now apply abs_parts, full_abs.
Qed.

Lemma abs_parts_of_join cwd root d :
  startswith cwd [slash] = true -> root <> [] -> plain d ->
  abs_parts_of cwd (join root d) = abs_parts_of cwd root ++ [d].
Proof.
  intros Hcwd Hroot Hd. pose proof Hd as (_ & Hfree & _).
  rewrite !abs_parts_of_comps; auto using join_not_nil.
  rewrite full_join by assumption.
  apply abs_comps_join; auto using full_not_nil.
Qed.

(** The directory reached from [top] through the names [ds]. *)
Definition descend (top : str) (ds : list str) : str := fold_left join ds top.

Lemma descend_not_nil ds : forall top, top <> [] -> descend top ds <> [].
Proof.
  induction ds as [|d ds IH]; intros top Htop; cbn [descend fold_left]; auto.
  apply IH. now apply join_not_nil.
Qed.

Lemma abs_parts_of_descend cwd ds : forall top,
  startswith cwd [slash] = true -> top <> [] -> Forall plain ds ->
  abs_parts_of cwd (descend top ds) = abs_parts_of cwd top ++ ds.
Proof.
  induction ds as [|d ds IH]; intros top Hcwd Htop Hds;
    cbn [descend fold_left].
  - now rewrite app_nil_r.
  - inversion Hds; subst.
    change (fold_left join ds (join top d)) with (descend (join top d) ds).
    rewrite IH; auto using join_not_nil.
    rewrite abs_parts_of_join by assumption.
    now rewrite <- app_assoc.
Qed.

(** *** The relative path of a directory of the walk *)

Lemma commonprefix_len_app (l x : list str) :
  commonprefix_len l (l ++ x) = List.length l.
Proof.
  induction l as [|a l IH]; cbn [commonprefix_len app List.length].
  - now destruct x.
  - now rewrite str_eqb_refl, IH.
Qed.

Lemma endswith_free (d : str) c :
  contains c d = false -> endswith d [c] = false.
Proof.
  intros H. destruct (endswith d [c]) eqn:E; auto.
  destruct (OsPathFacts.endswith_char _ _ E) as [d' ->].
  rewrite contains_app in H. cbn in H. rewrite N.eqb_refl in H.
  now rewrite orb_true_r in H.
Qed.

Lemma sep_join_cons c d rest :
  sep_join c (d :: rest) = d ++ flat_map (cons c) rest.
Proof.
  revert d. induction rest as [|e rest IH]; intros d.
  - cbn. now rewrite app_nil_r.
  - change (sep_join c (d :: e :: rest))
      with (d ++ c :: sep_join c (e :: rest)).
    now rewrite IH.
Qed.

Lemma fold_join_plain rest : forall acc,
  acc <> [] -> endswith acc [slash] = false -> Forall plain rest ->
  fold_left join rest acc = acc ++ flat_map (cons slash) rest.
Proof.
  induction rest as [|d rest IH]; intros acc Hacc Hend Hrest;
    cbn [fold_left flat_map].
  - now rewrite app_nil_r.
  - inversion Hrest as [|? ? (Hd1 & Hd2 & _) Hrest']; subst.
    rewrite (join_rel acc d (OsPathFacts.startswith_slash_free d Hd2)).
    replace (str_is_empty acc) with false by (now destruct acc).
    rewrite Hend. cbn [orb].
    rewrite IH; auto.
    + now rewrite <- app_assoc.
    + now destruct acc.
    + change (slash :: d) with ([slash] ++ d).
      rewrite app_assoc, endswith_char_app by assumption.
      now apply endswith_free.
Qed.

Lemma join_all_plain d rest :
  Forall plain (d :: rest) -> join_all d rest = sep_join slash (d :: rest).
Proof.
  intros H. inversion H as [|? ? (Hd1 & Hd2 & _) Hrest]; subst.
  unfold join_all. rewrite fold_join_plain; auto using endswith_free.
  now rewrite sep_join_cons.
Qed.

(** ["."] for the top directory, the names joined by "/" below it. *)
Definition rel_of (ds : list str) : str :=
  match ds with
  | [] => [dot]
  | _ :: _ => sep_join slash ds
  end.

Lemma relpath_descend cwd top ds :
  startswith cwd [slash] = true -> top <> [] -> Forall plain ds ->
  relpath cwd (descend top ds) top = Ok (rel_of ds).
Proof.
  intros Hcwd Htop Hds. unfold relpath.
  pose proof (descend_not_nil ds top Htop) as Hne.
  destruct (descend top ds) as [|a r] eqn:E; [contradiction|].
  rewrite <- E. fold (abs_parts_of cwd top).
  fold (abs_parts_of cwd (descend top ds)).
  rewrite abs_parts_of_descend by assumption.
  rewrite commonprefix_len_app, Nat.sub_diag. cbn [repeat app].
  rewrite skipn_app, skipn_all, Nat.sub_diag. cbn [skipn app].
  destruct ds as [|d rest]; [reflexivity|].
  now rewrite join_all_plain.
Qed.

(** *** The directories a walk lists *)

Fixpoint tree_names_plain (t : Tree) : Prop :=
  match t with
  | Dir _ dirs => forest_names_plain dirs
  end
with forest_names_plain (f : Forest) : Prop :=
  match f with
  | FNil => True
  | FCons name sub rest =>
      plain name /\ tree_names_plain sub /\ forest_names_plain rest
  end.

(** [name] is a sub-directory in [f], with listing [sub]. *)
Inductive has_dir : Forest -> str -> Tree -> Prop :=
| has_dir_here name sub rest : has_dir (FCons name sub rest) name sub
| has_dir_later name sub name' sub' rest :
    has_dir rest name sub -> has_dir (FCons name' sub' rest) name sub.

(** Going down [ds] from the top of [t] leads to a directory whose
    files are [files]. *)
Inductive lists : Tree -> list str -> list str -> Prop :=
| lists_here files dirs : lists (Dir files dirs) [] files
| lists_sub files dirs name sub ds fs :
    has_dir dirs name sub -> lists sub ds fs ->
    lists (Dir files dirs) (name :: ds) fs.

Lemma walk_dirs_has_dir f name sub top x :
  has_dir f name sub -> In x (walk (join top name) sub) ->
  In x (walk_dirs top f).
Proof.
  induction 1 as [name sub rest | name sub name' sub' rest _ IH];
    intros Hin; cbn [walk_dirs]; apply in_or_app; auto.
Qed.

(** Every directory of the tree is in the walk, under its path. *)
Lemma walk_complete t ds fs :
  lists t ds fs ->
  forall top, exists dirs, In (descend top ds, dirs, fs) (walk top t).
Proof.
  induction 1 as [files dirs | files dirs name sub ds fs Hdir _ IH];
    intros top.
  - exists (dir_names dirs). now left.
  - destruct (IH (join top name)) as [dnames Hin].
    exists dnames. cbn [walk descend fold_left]. right.
    eapply walk_dirs_has_dir; eauto.
Qed.

(** Every root of the walk is the top followed by plain names. *)
Lemma walk_roots_descend :
  (forall t top, tree_names_plain t ->
      forall root dirs files, In (root, dirs, files) (walk top t) ->
        exists ds, Forall plain ds /\ root = descend top ds)
  /\ (forall f top, forest_names_plain f ->
         forall root dirs files, In (root, dirs, files) (walk_dirs top f) ->
           exists ds, Forall plain ds /\ root = descend top ds).
Proof.
  apply Tree_Forest_mutind.
  - intros files dirs IH top Hplain root ds fs H.
    cbn [walk In] in H. destruct H as [H|H].
    + injection H as <- _ _. now exists [].
    + eapply IH; eauto.
  - intros top _ root ds fs [].
  - intros name sub IHsub rest IHrest top (Hname & Hsub & Hrest) root ds fs H.
    cbn [walk_dirs] in H. apply in_app_or in H. destruct H as [H|H].
    + destruct (IHsub (join top name) Hsub _ _ _ H) as (ds' & Hds' & ->).
      exists (name :: ds'). split; [now constructor | reflexivity].
    + eapply IHrest; eauto.
Qed.

(** The number of files in a tree, all directories together. *)
Fixpoint file_count (t : Tree) : nat :=
  match t with
  | Dir files dirs => List.length files + forest_file_count dirs
  end
with forest_file_count (f : Forest) : nat :=
  match f with
  | FNil => 0
  | FCons _ sub rest => file_count sub + forest_file_count rest
  end.

Definition files_of (triple : str * list str * list str) : list (str * str) :=
  let '(root, _, files) := triple in map (pair root) files.

(** The walk lists as many files as the tree has. *)
Lemma walk_file_count :
  (forall t top,
      List.length (flat_map files_of (walk top t)) = file_count t)
  /\ (forall f top,
         List.length (flat_map files_of (walk_dirs top f))
         = forest_file_count f).
Proof.
  apply Tree_Forest_mutind.
  - intros files dirs IH top. cbn [walk flat_map file_count files_of].
    now rewrite length_app, length_map, IH.
  - reflexivity.
  - intros name sub IHsub rest IHrest top.
    cbn [walk_dirs forest_file_count].
    now rewrite flat_map_app, length_app, IHsub, IHrest.
Qed.

End RelpathFacts.

Import RelpathFacts.

(** ** The folder conversion, the outside answering *)

Module BatchIOFacts.

Module F := ConvertDocxToJsonIO.

(** The outside that never refuses. *)
Definition willing (tr : list F.event) (ev : F.event) : option exn := None.

(** Every run of the parser: it raises only what its [print] raises. *)
Lemma io_parse_run Document now io_error doc_path tr :
  F.parse_doc_to_dict Document now io_error doc_path tr =
  let say line :=
    match io_error tr (F.Print line) with
    | Some e => (Raise e, tr)
    | None => (Ok None, tr ++ [F.Print line])
    end in
  if startswith (basename doc_path) (s "~$") then
    say (s "Skipping lock file: " ++ doc_path)
  else
    match res_bind (Document doc_path)
            (fun ps => res_bind (B.parse_paragraphs [] ps)
                         (fun c => Ok (List.length ps, c))) with
    | Raise e => say (processing_error doc_path e)
    | Ok (total, c) =>
        (Ok (Some (mkData (script_metadata now doc_path total) c)), tr)
    end.
Proof.
  unfold F.parse_doc_to_dict. cbv zeta.
  destruct (startswith (basename doc_path) (s "~$")).
  { unfold Eff.bind, F.attempt, Eff.ret.
    now destruct (io_error tr _). }
  unfold Eff.try_except, Eff.bind, Eff.lift, Eff.ret, F.attempt.
  destruct (Document doc_path) as [ps|e]; cbn [res_bind].
  2:{ unfold processing_error. now destruct (io_error tr _). }
  cbn [content].
  destruct (B.parse_paragraphs [] ps) as [c|e]; cbn [res_bind];
    [reflexivity|].
  unfold processing_error. now destruct (io_error tr _).
Qed.

(** When nothing is refused the parser is the one of
    [script_parse_run]. *)
Lemma willing_parse_run Document now doc_path tr :
  F.parse_doc_to_dict Document now willing doc_path tr =
  if startswith (basename doc_path) (s "~$") then
    (Ok None, tr ++ [F.Print (s "Skipping lock file: " ++ doc_path)])
  else
    match res_bind (Document doc_path)
            (fun ps => res_bind (B.parse_paragraphs [] ps)
                         (fun c => Ok (List.length ps, c))) with
    | Raise e => (Ok None, tr ++ [F.Print (processing_error doc_path e)])
    | Ok (total, c) =>
        (Ok (Some (mkData (script_metadata now doc_path total) c)), tr)
    end.
Proof. rewrite io_parse_run. reflexivity. Qed.

Section World.
Variable Document : str -> res (list str).
Variable now : str -> str.
Variable listing : str -> option Tree.
Variable cwd : str.

(** The loop body on one file when nothing is refused, run on its own:
    what the conversion sets out to do for the file. *)
Definition file_plan (docx_folder json_folder : str) (job : str * str)
  : res (list str) * list F.event :=
  F.convert_file Document now cwd willing docx_folder json_folder
    (fst job) (snd job) [] [].

Definition plan_out docx_folder json_folder job : list str :=
  match fst (file_plan docx_folder json_folder job) with
  | Ok out => out
  | Raise _ => []
  end.

Definition plan_events docx_folder json_folder job : list F.event :=
  snd (file_plan docx_folder json_folder job).

(** Everything a folder conversion sets out to do, in order. *)
Definition plan (docx_folder : str) (json_folder : option str)
  : list F.event :=
  F.Makedirs (destination docx_folder json_folder)
  :: flat_map (plan_events docx_folder (destination docx_folder json_folder))
       (jobs listing docx_folder).

Variable io_error : list F.event -> F.event -> option exn.

(** Going through the events of a plan with the outside answering: the
    first call it refuses ends the run with its exception. *)
Fixpoint replay (tr todo : list F.event) : option exn * list F.event :=
  match todo with
  | [] => (None, tr)
  | ev :: rest =>
      match io_error tr ev with
      | Some e => (Some e, tr)
      | None => replay (tr ++ [ev]) rest
      end
  end.

Definition outcome (acc out : list str) (r : option exn * list F.event)
  : res (list str) * list F.event :=
  match r with
  | (None, tr) => (Ok (acc ++ out), tr)
  | (Some e, tr) => (Raise e, tr)
  end.

Lemma replay_app todo1 todo2 : forall tr,
  replay tr (todo1 ++ todo2)
  = match replay tr todo1 with
    | (None, tr') => replay tr' todo2
    | (Some e, tr') => (Some e, tr')
    end.
Proof.
  induction todo1 as [|ev todo1 IH]; intros tr; cbn [app replay]; auto.
  destruct (io_error tr ev); auto.
Qed.

(** A run that is not refused has done all of the plan; one that is
    refused has done the part before the call that was refused. *)
Lemma replay_done todo : forall tr,
  exists done rest,
    todo = done ++ rest
    /\ snd (replay tr todo) = tr ++ done
    /\ (forall d1 ev d2,
           done = d1 ++ ev :: d2 -> io_error (tr ++ d1) ev = None)
    /\ match rest with
       | [] => fst (replay tr todo) = None
       | ev :: _ =>
           exists e, io_error (tr ++ done) ev = Some e
                     /\ fst (replay tr todo) = Some e
       end.
Proof.
  induction todo as [|ev todo IH]; intros tr; cbn [replay].
  - exists [], []. cbn [app fst snd]. rewrite app_nil_r.
    split; [reflexivity|]. split; [reflexivity|]. split; [|reflexivity].
    intros [|? ?] ? ? H; discriminate H.
  - destruct (io_error tr ev) as [e|] eqn:E.
    + exists [], (ev :: todo). cbn [app fst snd]. rewrite app_nil_r.
      split; [reflexivity|]. split; [reflexivity|]. split.
      * intros [|? ?] ? ? H; discriminate H.
      * now exists e.
    + destruct (IH (tr ++ [ev])) as (done & rest & -> & Htr & Hok & Hrest).
      exists (ev :: done), rest. cbn [app].
      split; [reflexivity|]. split; [now rewrite Htr, <- app_assoc|].
      split.
      * intros [|a d1] ev' d2 H; cbn [app] in H.
        -- injection H as <- _. now rewrite app_nil_r.
        -- injection H as <- ->.
           specialize (Hok d1 ev' d2 eq_refl).
           now rewrite <- app_assoc in Hok.
      * destruct rest as [|ev' rest]; auto.
        now rewrite <- app_assoc in Hrest.
Qed.

Lemma replay_all todo : forall tr,
  (forall d1 ev d2, todo = d1 ++ ev :: d2 -> io_error (tr ++ d1) ev = None) ->
  replay tr todo = (None, tr ++ todo).
Proof.
  induction todo as [|ev todo IH]; intros tr H; cbn [replay].
  - now rewrite app_nil_r.
  - assert (E : io_error tr ev = None).
    { specialize (H [] ev todo eq_refl). now rewrite app_nil_r in H. }
    rewrite E, IH.
    + now rewrite <- app_assoc.
    + intros d1 ev' d2 ->. rewrite <- app_assoc.
      now apply (H (ev :: d1) ev' d2).
Qed.

(** The loop body: the plan of the file, gone through. *)
Lemma io_convert_file_run docx_folder json_folder root filename acc tr :
  root <> [] ->
  F.convert_file Document now cwd io_error docx_folder json_folder
    root filename acc tr
  = outcome acc (plan_out docx_folder json_folder (root, filename))
      (replay tr (plan_events docx_folder json_folder (root, filename))).
Proof.
  intros Hroot. unfold plan_out, plan_events, file_plan. cbn [fst snd].
  unfold F.convert_file.
  destruct (endswith filename (s ".docx")).
  2:{ unfold Eff.ret. cbn [fst snd replay outcome]. now rewrite app_nil_r. }
  unfold Eff.bind. rewrite willing_parse_run, io_parse_run. cbv zeta.
  destruct (startswith (basename (join root filename)) (s "~$")).
  { unfold Eff.ret. cbn [app fst snd replay outcome].
    destruct (io_error tr _); cbn [outcome]; rewrite ?app_nil_r;
      reflexivity. }
  destruct (res_bind _ _) as [[total c]|e].
  2:{ unfold Eff.ret. cbn [app fst snd replay outcome].
      destruct (io_error tr _); cbn [outcome]; rewrite ?app_nil_r;
        reflexivity. }
  destruct (relpath_ok cwd root docx_folder Hroot) as [rel Hrel].
  unfold Eff.lift. rewrite Hrel.
  unfold F.write_json, Eff.bind, F.attempt, willing, Eff.ret.
  cbn [app fst snd replay outcome].
  destruct (io_error tr _); [reflexivity|].
  destruct (io_error (tr ++ _) _); [reflexivity|].
  destruct (io_error ((tr ++ _) ++ _) _); [reflexivity|].
  destruct (io_error (((tr ++ _) ++ _) ++ _) _); reflexivity.
Qed.

Lemma for_each_replay {X} (xs : list X)
    (body : X -> list str -> F.M (list str))
    (out : X -> list str) (evs : X -> list F.event) :
  (forall x st tr, In x xs ->
      body x st tr = outcome st (out x) (replay tr (evs x))) ->
  forall st tr,
    Eff.for_each xs body st tr
    = outcome st (flat_map out xs) (replay tr (flat_map evs xs)).
Proof.
  induction xs as [|x xs IH]; intros Hbody st tr; cbn [Eff.for_each flat_map].
  - unfold Eff.ret. cbn [replay outcome]. now rewrite app_nil_r.
  - unfold Eff.bind. rewrite Hbody by now left. rewrite replay_app.
    destruct (replay tr (evs x)) as [[e|] tr']; cbn [outcome]; auto.
    rewrite IH by (intros; apply Hbody; now right).
    destruct (replay tr' _) as [[e|] tr'']; cbn [outcome]; auto.
    now rewrite app_assoc.
Qed.

(** The whole run: the plan of the folder, gone through. *)
Lemma io_convert_folder_run docx_folder json_folder tr :
  F.convert_folder Document now listing cwd io_error docx_folder json_folder tr
  = outcome []
      (flat_map (plan_out docx_folder (destination docx_folder json_folder))
         (jobs listing docx_folder))
      (replay tr (plan docx_folder json_folder)).
Proof.
  unfold F.convert_folder, plan. fold (destination docx_folder json_folder).
  set (jf := destination docx_folder json_folder).
  unfold Eff.bind at 1. unfold F.attempt. cbn [replay].
  destruct (io_error tr (F.Makedirs jf)) as [e|]; [reflexivity|].
  assert (Hwalk :
            forall (triples : list (str * list str * list str)) st tr0,
             (forall root dirs files, In (root, dirs, files) triples ->
                                      root <> []) ->
             Eff.for_each triples
               (fun '(root, _, files) converted_files =>
                  Eff.for_each files
                    (F.convert_file Document now cwd io_error
                       docx_folder jf root)
                    converted_files) st tr0
             = outcome st
                 (flat_map (plan_out docx_folder jf)
                    (flat_map (fun '(root, _, files) =>
                                 map (pair root) files) triples))
                 (replay tr0
                    (flat_map (plan_events docx_folder jf)
                       (flat_map (fun '(root, _, files) =>
                                    map (pair root) files) triples)))).
  { intros triples st tr0 Hroots.
    rewrite (for_each_replay triples _
               (fun '(root, _, files) =>
                  flat_map (fun f => plan_out docx_folder jf (root, f)) files)
               (fun '(root, _, files) =>
                  flat_map (fun f => plan_events docx_folder jf (root, f))
                    files)).
    - f_equal.
      + clear. induction triples as [|[[root dirs] files] triples IH];
          cbn [flat_map]; auto.
        rewrite flat_map_app, IH. f_equal.
        now rewrite !flat_map_concat_map, map_map.
      + f_equal.
        clear. induction triples as [|[[root dirs] files] triples IH];
          cbn [flat_map]; auto.
        rewrite flat_map_app, IH. f_equal.
        now rewrite !flat_map_concat_map, map_map.
    - intros [[root dirs] files] st' tr' Hin.
      apply for_each_replay. intros f st'' tr'' _.
      apply io_convert_file_run. eapply Hroots, Hin. }
  rewrite Hwalk.
  - reflexivity.
  - intros root dirs files Hin. eapply os_walk_root_not_nil, Hin.
Qed.

(** The same, without [replay]: what was done is the beginning of the
    plan, every call in it was answered, and the run either did all of
    the plan and returns, or stopped at a call that was refused and
    raises what that call raised. *)
Lemma io_convert_folder_done docx_folder json_folder tr :
  let run := F.convert_folder Document now listing cwd io_error
               docx_folder json_folder tr in
  exists done rest,
    plan docx_folder json_folder = done ++ rest
    /\ snd run = tr ++ done
    /\ (forall d1 ev d2,
           done = d1 ++ ev :: d2 -> io_error (tr ++ d1) ev = None)
    /\ match rest with
       | [] =>
           fst run
           = Ok (flat_map
                   (plan_out docx_folder (destination docx_folder json_folder))
                   (jobs listing docx_folder))
       | ev :: _ =>
           exists e, io_error (tr ++ done) ev = Some e
                     /\ fst run = Raise e
       end.
Proof.
  intros run. subst run. rewrite io_convert_folder_run.
  destruct (replay_done (plan docx_folder json_folder) tr)
    as (done & rest & Hplan & Htr & Hok & Hrest).
  exists done, rest. split; [assumption|].
  destruct (replay tr (plan docx_folder json_folder)) as [[e|] tr'];
    cbn [fst snd outcome] in *.
  - split; [assumption|]. split; [assumption|].
    destruct rest as [|ev rest]; [discriminate|].
    destruct Hrest as (e' & He & Hfst).
    exists e'. split; auto. now injection Hfst as ->.
  - split; [assumption|]. split; [assumption|].
    destruct rest as [|ev rest]; [reflexivity|].
    destruct Hrest as (e' & _ & Hfst). discriminate.
Qed.

(** *** One file, by what the conversion sets out to do for it *)

Lemma file_plan_other docx_folder json_folder root filename :
  endswith filename (s ".docx") = false ->
  file_plan docx_folder json_folder (root, filename) = (Ok [], []).
Proof.
  intros H. unfold file_plan, F.convert_file. cbn [fst snd]. now rewrite H.
Qed.

Lemma file_plan_docx docx_folder json_folder root filename :
  root <> [] ->
  endswith filename (s ".docx") = true ->
  exists r evs,
    F.parse_doc_to_dict Document now willing (join root filename) []
    = (Ok r, evs)
    /\ match r with
       | None =>
           (exists line, evs = [F.Print line])
           /\ file_plan docx_folder json_folder (root, filename)
              = (Ok [], evs)
       | Some data =>
           evs = []
           /\ exists rel,
                relpath cwd root docx_folder = Ok rel
                /\ file_plan docx_folder json_folder (root, filename)
                   = (Ok [json_path_of json_folder rel filename],
                      [F.Makedirs (join json_folder rel);
                       F.Open (json_path_of json_folder rel filename);
                       F.Dump (json_path_of json_folder rel filename) data;
                       F.Print
                         (progress_line (join root filename)
                            (json_path_of json_folder rel filename))])
       end.
Proof.
  intros Hroot Hext. unfold file_plan, F.convert_file. cbn [fst snd].
  rewrite Hext. unfold Eff.bind. rewrite !willing_parse_run.
  destruct (startswith (basename (join root filename)) (s "~$")).
  { eexists _, _. split; [reflexivity|]. split; [|reflexivity].
    now eexists. }
  destruct (res_bind _ _) as [[total c]|e].
  2:{ eexists _, _. split; [reflexivity|]. split; [|reflexivity].
      now eexists. }
  eexists _, _. split; [reflexivity|]. split; [reflexivity|].
  destruct (relpath_ok cwd root docx_folder Hroot) as [rel Hrel].
  exists rel. split; auto. unfold Eff.lift. rewrite Hrel. reflexivity.
Qed.

End World.

(** *** The run in which no call is refused *)

(** An event of [ConvertDocxToJson], in the events of this module: the
    writing of a file is an [open] followed by a [json.dump]. *)
Definition io_events (ev : B.event) : list F.event :=
  match ev with
  | B.Print line => [F.Print line]
  | B.Makedirs path => [F.Makedirs path]
  | B.WriteJson path data => [F.Open path; F.Dump path data]
  end.

Lemma willing_file_plan Document now cwd docx_folder json_folder job :
  fst job <> [] ->
  file_plan Document now cwd docx_folder json_folder job
  = (fst (file_run Document now cwd docx_folder json_folder job),
     flat_map io_events
       (snd (file_run Document now cwd docx_folder json_folder job))).
Proof.
  destruct job as [root filename]. cbn [fst]. intros Hroot.
  unfold file_plan, file_run, F.convert_file, B.convert_file. cbn [fst snd].
  destruct (endswith filename (s ".docx")); [|reflexivity].
  unfold Eff.bind. rewrite willing_parse_run, script_parse_run.
  destruct (startswith (basename (join root filename)) (s "~$"));
    [reflexivity|].
  destruct (res_bind _ _) as [[total c]|e]; [|reflexivity].
  destruct (relpath_ok cwd root docx_folder Hroot) as [rel Hrel].
  unfold Eff.lift. rewrite Hrel. reflexivity.
Qed.

(** [ConvertDocxToJson.convert_folder] is the conversion when nothing
    is refused. *)
Lemma willing_convert_folder Document now listing cwd docx_folder json_folder :
  F.convert_folder Document now listing cwd willing docx_folder json_folder []
  = (fst (B.convert_folder Document now listing cwd
            docx_folder json_folder []),
     flat_map io_events
       (snd (B.convert_folder Document now listing cwd
               docx_folder json_folder []))).
Proof.
  rewrite io_convert_folder_run, convert_folder_run.
  rewrite replay_all by reflexivity.
  cbn [outcome app fst snd flat_map]. unfold plan.
  set (jf := destination docx_folder json_folder).
  assert (Hjobs : forall job, In job (jobs listing docx_folder) ->
                              fst job <> [])
    by (intros job; apply jobs_root_not_nil).
  assert (H : flat_map (plan_out Document now cwd docx_folder jf)
                (jobs listing docx_folder)
              = flat_map (file_out Document now cwd docx_folder jf)
                  (jobs listing docx_folder)
              /\ flat_map (plan_events Document now cwd docx_folder jf)
                   (jobs listing docx_folder)
                 = flat_map io_events
                     (flat_map (file_events Document now cwd docx_folder jf)
                        (jobs listing docx_folder))).
  { induction (jobs listing docx_folder) as [|job js IH];
      cbn [flat_map]; [now split|].
    destruct IH as [IH1 IH2]; [intros job' Hin; apply Hjobs; now right|].
    rewrite IH1, IH2, flat_map_app.
    unfold plan_out, plan_events, file_out, file_events.
    rewrite willing_file_plan by (apply Hjobs; now left).
    now split. }
  destruct H as [-> ->]. reflexivity.
Qed.

(** [convert_single_file]: the record is written where the path was
    derived, unless [open] or [json.dump] raises; nothing catches that. *)
Lemma io_convert_single_file_run Document now io_error input_path
    output_path tr :
  F.convert_single_file Document now io_error input_path output_path tr
  = let out := match output_path with
               | Some p =>
                   if str_is_empty p
                   then replace input_path (s ".docx") (s ".json")
                   else p
               | None => replace input_path (s ".docx") (s ".json")
               end in
    match F.parse_doc_to_dict Document now io_error input_path tr with
    | (Ok (Some d), tr') =>
        match io_error tr' (F.Open out) with
        | Some e => (Raise e, tr')
        | None =>
            match io_error (tr' ++ [F.Open out]) (F.Dump out d) with
            | Some e => (Raise e, tr' ++ [F.Open out])
            | None => (Ok (Some out), tr' ++ [F.Open out; F.Dump out d])
            end
        end
    | (Ok None, tr') => (Ok None, tr')
    | (Raise e, tr') => (Raise e, tr')
    end.
Proof.
  unfold F.convert_single_file. cbv zeta. unfold Eff.bind at 1.
  destruct (F.parse_doc_to_dict Document now io_error input_path tr)
    as [[[d|]|e] tr']; try reflexivity.
  unfold F.write_json, Eff.bind, F.attempt, Eff.ret.
  destruct (io_error tr' _); [reflexivity|].
  destruct (io_error (tr' ++ _) _); [reflexivity|].
  now rewrite <- app_assoc.
Qed.

End BatchIOFacts.

Import BatchIOFacts.

(** The folder of [SampleWorld], converted from "in" to "out" with the
    outside answering. *)
Module SampleIO.

Definition run (io_error : list F.event -> F.event -> option exn)
    (listing : str -> option Tree) : res (list str) * list F.event :=
  F.convert_folder SampleWorld.Document SampleWorld.now listing
    SampleWorld.cwd io_error (s "in") (Some (s "out")) [].

(** A file system with no room left: every [json.dump] raises. *)
Definition disk_full (tr : list F.event) (ev : F.event) : option exn :=
  match ev with
  | F.Dump _ _ =>
      Some (OtherException (s "[Errno 28] No space left on device"))
  | _ => None
  end.

End SampleIO.

(** C7 as stated fails in two places, shown on a folder "in" that holds
    a file named ".docx" and a sub-folder "sub" with one document that
    cannot be opened, no call being refused.
    "in/sub/bad.docx" is visited (its error is printed) but "out/sub" is
    never created; and the output for ".docx" is ".docx.json", the whole
    name kept, not ".json". *)
Lemma C7_no_directory_for_a_failed_file :
  SampleIO.run willing SampleWorld.listing_failed_sub
  = (Ok [s "out/./.docx.json"],
     [ConvertDocxToJsonIO.Makedirs (s "out");
      ConvertDocxToJsonIO.Makedirs (s "out/.");
      ConvertDocxToJsonIO.Open (s "out/./.docx.json");
      ConvertDocxToJsonIO.Dump (s "out/./.docx.json")
        (SampleWorld.record (s "in/.docx"));
      ConvertDocxToJsonIO.Print
        (progress_line (s "in/.docx") (s "out/./.docx.json"));
      ConvertDocxToJsonIO.Print
        (s "Error processing in/sub/bad.docx: Package not found")])
  /\ In (s "in/sub", s "bad.docx")
       (jobs SampleWorld.listing_failed_sub (s "in"))
  /\ endswith (s "bad.docx") (s ".docx") = true
  /\ ~ In (ConvertDocxToJsonIO.Makedirs (s "out/sub"))
         (snd (SampleIO.run willing SampleWorld.listing_failed_sub))
  /\ endswith (s ".docx") (s ".docx") = true
  /\ fst (splitext (s ".docx")) ++ s ".json" = s ".docx.json".
Proof.
  split; [reflexivity|]. split; [cbn; auto|].
  split; [reflexivity|]. split; [|split; reflexivity].
  intros H.
  change (In (ConvertDocxToJsonIO.Makedirs (s "out/sub"))
            [ConvertDocxToJsonIO.Makedirs (s "out");
             ConvertDocxToJsonIO.Makedirs (s "out/.");
             ConvertDocxToJsonIO.Open (s "out/./.docx.json");
             ConvertDocxToJsonIO.Dump (s "out/./.docx.json")
               (SampleWorld.record (s "in/.docx"));
             ConvertDocxToJsonIO.Print
               (progress_line (s "in/.docx") (s "out/./.docx.json"));
             ConvertDocxToJsonIO.Print
               (s "Error processing in/sub/bad.docx: Package not found")])
    in H.
  cbn [In] in H.
  destruct H as [H|[H|[H|[H|[H|[H|[]]]]]]]; discriminate.
Qed.

(** C7, as the code has it. What a folder conversion sets out to do is
    its plan: to create the destination, then to handle the files the
    walk lists one after the other, each once and in order. A run does
    the beginning of that plan. Every call in the part done ([print],
    [os.makedirs], [open], [json.dump]) has returned; the run either did
    the whole plan and returns the paths of the plan, or it stopped at
    the first of these calls that raised, and raises the same exception:
    nothing in [convert_folder] catches it, and the files after it are
    left as they were. Nothing else stops a run: for a document that
    cannot be read or parsed, and for a lock file, the plan is one
    printed line and the next file.
    Every file of the tree under the folder is in the plan, and the plan
    has as many files as the tree. A name that does not end in ".docx" is
    passed over; one that does is parsed, and when it gives a record (and
    only then) the plan is to create the directory [json_folder/rel],
    [rel] being the path of the file's directory relative to the source
    folder ("." at the top, the names joined by "/" below), and to write
    the record there under the name [os.path.splitext] leaves, followed
    by ".json": the name without its final ".docx", unless only dots come
    before that suffix, in which case the whole name is kept. *)
Theorem C7_folder_conversion :
  forall Document now listing cwd docx_folder json_folder,
    let jf := destination docx_folder json_folder in
    let todo := file_plan Document now cwd docx_folder jf in
    (forall io_error tr,
        let run := ConvertDocxToJsonIO.convert_folder Document now listing
                     cwd io_error docx_folder json_folder tr in
        exists done rest,
          ConvertDocxToJsonIO.Makedirs jf
          :: flat_map (fun job => snd (todo job)) (jobs listing docx_folder)
          = done ++ rest
          /\ snd run = tr ++ done
          /\ (forall d1 ev d2,
                 done = d1 ++ ev :: d2 -> io_error (tr ++ d1) ev = None)
          /\ match rest with
             | [] =>
                 fst run
                 = Ok (flat_map
                         (fun job => match fst (todo job) with
                                     | Ok out => out
                                     | Raise _ => []
                                     end)
                         (jobs listing docx_folder))
             | ev :: _ =>
                 exists e, io_error (tr ++ done) ev = Some e
                           /\ fst run = Raise e
             end)
    /\ (forall t ds files filename,
           docx_folder <> [] ->
           listing docx_folder = Some t ->
           lists t ds files -> In filename files ->
           In (descend docx_folder ds, filename) (jobs listing docx_folder))
    /\ (forall t,
           docx_folder <> [] ->
           listing docx_folder = Some t ->
           List.length (jobs listing docx_folder) = file_count t)
    /\ (forall root filename,
           endswith filename (s ".docx") = false ->
           todo (root, filename) = (Ok [], []))
    /\ (forall root filename,
           root <> [] ->
           endswith filename (s ".docx") = true ->
           exists r evs,
             ConvertDocxToJsonIO.parse_doc_to_dict Document now willing
               (join root filename) []
             = (Ok r, evs)
             /\ match r with
                | None =>
                    (exists line, evs = [ConvertDocxToJsonIO.Print line])
                    /\ todo (root, filename) = (Ok [], evs)
                | Some data =>
                    evs = []
                    /\ exists rel,
                         relpath cwd root docx_folder = Ok rel
                         /\ todo (root, filename)
                            = (Ok [json_path_of jf rel filename],
                               [ConvertDocxToJsonIO.Makedirs (join jf rel);
                                ConvertDocxToJsonIO.Open
                                  (json_path_of jf rel filename);
                                ConvertDocxToJsonIO.Dump
                                  (json_path_of jf rel filename) data;
                                ConvertDocxToJsonIO.Print
                                  (progress_line (join root filename)
                                     (json_path_of jf rel filename))])
                end)
    /\ (forall t root dirs files,
           startswith cwd [slash] = true ->
           listing docx_folder = Some t ->
           tree_names_plain t ->
           In (root, dirs, files)
              (ConvertDocxToJson.os_walk listing docx_folder) ->
           exists ds,
             root = descend docx_folder ds
             /\ relpath cwd root docx_folder = Ok (rel_of ds))
    /\ (forall stem,
           contains slash stem = false ->
           fst (splitext (stem ++ s ".docx"))
           = if existsb (fun c => negb (N.eqb c dot)) stem
             then stem
             else stem ++ s ".docx").
Proof.
  intros Document now listing cwd docx_folder json_folder jf todo.
  split; [|split; [|split; [|split; [|split; [|split]]]]].
  - intros io_error tr.
    apply (io_convert_folder_done Document now listing cwd io_error
             docx_folder json_folder tr).
  - intros t ds files filename Hdf Hlist Hlists Hin.
    unfold jobs. apply in_flat_map.
    destruct (walk_complete t ds files Hlists docx_folder) as [dirs Hw].
    exists (descend docx_folder ds, dirs, files). split.
    + unfold ConvertDocxToJson.os_walk. rewrite Hlist.
      destruct docx_folder; [contradiction | exact Hw].
    + now apply in_map.
  - intros t Hdf Hlist. unfold jobs, ConvertDocxToJson.os_walk.
    rewrite Hlist. destruct docx_folder as [|c df]; [contradiction|].
    apply (proj1 walk_file_count).
  - intros root filename Hext. now apply file_plan_other.
  - intros root filename Hroot Hext. now apply file_plan_docx.
  - intros t root dirs files Hcwd Hlist Hplain Hin.
    unfold ConvertDocxToJson.os_walk in Hin.
    destruct docx_folder as [|c df] eqn:Edf; [destruct Hin|].
    rewrite Hlist in Hin.
    destruct (proj1 walk_roots_descend t (c :: df) Hplain _ _ _ Hin)
      as (ds & Hds & ->).
    exists ds. split; auto.
    apply relpath_descend; auto. discriminate.
  - intros stem Hstem.
    change (s ".docx") with (dot :: s "docx").
    rewrite (OsPathFacts.splitext_plain stem (s "docx")); [|  | reflexivity].
    + match goal with
      | |- context [existsb ?f stem] => destruct (existsb f stem)
      end; reflexivity.
    + rewrite contains_app, Hstem. reflexivity.
Qed.

Lemma C7_folder_conversion_witness :
  (exists ds,
      s "in/sub" = descend (s "in") ds
      /\ relpath SampleWorld.cwd (s "in/sub") (s "in") = Ok (rel_of ds))
  /\ fst (splitext (s "q1.report.docx")) = s "q1.report"
  /\ In (s "in/sub", s "b.docx") (jobs SampleWorld.listing (s "in"))
  /\ (exists r evs,
         ConvertDocxToJsonIO.parse_doc_to_dict SampleWorld.Document
           SampleWorld.now willing (s "in/sub/bad.docx") []
         = (Ok r, evs)
         /\ match r with
            | None =>
                (exists line, evs = [ConvertDocxToJsonIO.Print line])
                /\ file_plan SampleWorld.Document SampleWorld.now
                     SampleWorld.cwd (s "in") (s "out")
                     (s "in/sub", s "bad.docx")
                   = (Ok [], evs)
            | Some data =>
                evs = []
                /\ exists rel,
                     relpath SampleWorld.cwd (s "in/sub") (s "in") = Ok rel
                     /\ file_plan SampleWorld.Document SampleWorld.now
                          SampleWorld.cwd (s "in") (s "out")
                          (s "in/sub", s "bad.docx")
                        = (Ok [json_path_of (s "out") rel (s "bad.docx")],
                           [ConvertDocxToJsonIO.Makedirs (join (s "out") rel);
                            ConvertDocxToJsonIO.Open
                              (json_path_of (s "out") rel (s "bad.docx"));
                            ConvertDocxToJsonIO.Dump
                              (json_path_of (s "out") rel (s "bad.docx"))
                              data;
                            ConvertDocxToJsonIO.Print
                              (progress_line (s "in/sub/bad.docx")
                                 (json_path_of (s "out") rel
                                    (s "bad.docx")))])
            end).
Proof.
  pose proof (C7_folder_conversion
                SampleWorld.Document SampleWorld.now SampleWorld.listing
                SampleWorld.cwd (s "in") (Some (s "out")))
    as (_ & Hall & _ & _ & Hdocx & Hrel & Hext).
  split; [|split; [|split]].
  - apply (Hrel SampleWorld.tree (s "in/sub") [] [s "bad.docx"; s "b.docx"]).
    + reflexivity.
    + reflexivity.
    + cbn. unfold plain. repeat split; discriminate || reflexivity.
    + cbn. auto.
  - exact (Hext (s "q1.report") eq_refl).
  - apply (Hall SampleWorld.tree [s "sub"] [s "bad.docx"; s "b.docx"]).
    + discriminate.
    + reflexivity.
    + eapply lists_sub; constructor.
    + cbn. auto.
  - apply (Hdocx (s "in/sub") (s "bad.docx")).
    + discriminate.
    + reflexivity.
Defined.

(** A run that the file system ends. With no room left the first
    [json.dump] raises: "out/./a.json" was opened and is left empty, and
    "in/sub/b.docx", which the walk lists after it, is never reached. *)
Example refused_dump_ends_the_run :
  SampleIO.run SampleIO.disk_full SampleWorld.listing
  = (Raise (OtherException (s "[Errno 28] No space left on device")),
     [ConvertDocxToJsonIO.Makedirs (s "out");
      ConvertDocxToJsonIO.Print (s "Skipping lock file: in/~$draft.docx");
      ConvertDocxToJsonIO.Makedirs (s "out/.");
      ConvertDocxToJsonIO.Open (s "out/./a.json")])
  /\ In (s "in/sub", s "b.docx") (jobs SampleWorld.listing (s "in")).
Proof. split; [vm_compute; reflexivity | cbn; tauto]. Qed.

(** * Further properties of the parser *)

Module LineFacts.

Definition ft : str := s "free_text".

(** What the loop body does with a paragraph, by the tests it makes. *)
Inductive line_kind : Type :=
| Blank
| KeyValue (key value : str)
| FreeText (line : str).

Definition classify (text : str) : line_kind :=
  let line := strip text in
  if str_is_empty line then Blank
  else match cut colon line with
       | Some (a, b) => KeyValue (strip a) (strip b)
       | None => FreeText line
       end.

(** The key a paragraph writes to, if any. *)
Definition target (text : str) : option str :=
  match classify text with
  | Blank => None
  | KeyValue k _ => Some k
  | FreeText _ => Some ft
  end.

Lemma para_step_classify content text :
  B.para_step content text =
  match classify text with
  | Blank => Ok content
  | KeyValue k v => Ok (PyDict.set content k (CStr v))
  | FreeText line =>
      match PyDict.get content ft with
      | None => Ok (content ++ [(ft, CList [line])])
      | Some (CList l) => Ok (PyDict.set content ft (CList (l ++ [line])))
      | Some (CStr _) => Raise no_append
      end
  end.
Proof.
  unfold classify.
  destruct (str_is_empty (strip text)) eqn:Hb.
  { unfold B.para_step. now rewrite Hb. }
  destruct (cut colon (strip text)) as [[a b]|] eqn:Hcut.
  - unfold B.para_step. rewrite Hb.
    destruct (cut_spec _ _ _ _ Hcut) as [Hline _].
    replace (contains colon (strip text)) with true.
    + unfold split1. now rewrite Hcut.
    + symmetry. rewrite Hline. apply contains_true_iff, in_or_app.
      right. now left.
  - apply cut_none in Hcut. apply str_is_empty_false in Hb.
    pose proof (para_step_free_text content text Hb Hcut) as H.
    fold ft in H. destruct (PyDict.get content ft) as [[v|l]|]; exact H.
Qed.

(** A line [K ++ ":" ++ V] with no colon in [K] is a key line. *)
Lemma classify_key_value (K V : str) :
  contains colon K = false ->
  classify (K ++ colon :: V) = KeyValue (strip K) (strip V).
Proof.
  intros HK. unfold classify.
  rewrite (strip_app_nonspace colon K V colon_not_space).
  replace (str_is_empty (lstrip K ++ colon :: rstrip V)) with false
    by (now destruct (lstrip K)).
  rewrite cut_app by now apply contains_lstrip_false.
  now rewrite strip_lstrip, strip_rstrip.
Qed.

(** And every key line is of that shape. *)
Lemma classify_key_value_inv text k v :
  classify text = KeyValue k v ->
  exists K V, text = K ++ colon :: V /\ contains colon K = false
              /\ strip K = k /\ strip V = v.
Proof.
  intros H.
  assert (Hc : contains colon text = true).
  { unfold classify in H. destruct (str_is_empty (strip text)); [discriminate|].
    destruct (cut colon (strip text)) as [[a b]|] eqn:Hcut; [|discriminate].
    apply contains_strip. destruct (cut_spec _ _ _ _ Hcut) as [-> _].
    apply contains_true_iff, in_or_app. right. now left. }
  destruct (contains_cut _ _ Hc) as (K & V & Hcut).
  destruct (cut_spec _ _ _ _ Hcut) as [-> HK].
  rewrite (classify_key_value K V HK) in H. injection H as <- <-.
  now exists K, V.
Qed.

Lemma classify_free_text text line :
  classify text = FreeText line ->
  line = strip text /\ line <> [] /\ contains colon line = false.
Proof.
  unfold classify. destruct (str_is_empty (strip text)) eqn:Hb; [discriminate|].
  destruct (cut colon (strip text)) as [[a b]|] eqn:Hcut; [discriminate|].
  intros H. injection H as <-. apply str_is_empty_false in Hb.
  apply cut_none in Hcut. auto.
Qed.

Lemma classify_blank text : classify text = Blank <-> strip text = [].
Proof.
  unfold classify. destruct (strip text) as [|a l] eqn:E; cbn [str_is_empty].
  - tauto.
  - split; [|discriminate]. now destruct (cut colon (a :: l)) as [[? ?]|].
Qed.

End LineFacts.

Import LineFacts.

Module ContentFacts.

(** [ks] with [k] added at the end unless it is there already. *)
Definition add_key (ks : list str) (k : str) : list str :=
  if existsb (str_eqb k) ks then ks else ks ++ [k].

Definition add_target (ks : list str) (text : str) : list str :=
  match target text with
  | Some k => add_key ks k
  | None => ks
  end.

Lemma keys_set {V} (d : PyDict.dict V) k v :
  PyDict.keys (PyDict.set d k v) = add_key (PyDict.keys d) k.
Proof.
  unfold add_key, PyDict.keys.
  induction d as [|[k' v'] d IH]; cbn [PyDict.set map existsb fst]; auto.
  destruct (str_eqb k k'); cbn [orb map fst]; auto.
  rewrite IH. now destruct (existsb (str_eqb k) (map fst d)).
Qed.

Lemma get_In {V} (d : PyDict.dict V) k v :
  PyDict.get d k = Some v -> In (k, v) d.
Proof.
  induction d as [|[k' v'] d IH]; cbn [PyDict.get]; [discriminate|].
  destruct (str_eqb k k') eqn:E.
  - apply str_eqb_eq in E. subst k'. intros H. injection H as ->. now left.
  - intros H. right. auto.
Qed.

Lemma Forall_set {V} (P : str * V -> Prop) (d : PyDict.dict V) k v :
  Forall P d -> P (k, v) -> Forall P (PyDict.set d k v).
Proof.
  intros Hd Hkv. induction Hd as [|[k' v'] d Hx Hd IH]; cbn [PyDict.set].
  - now repeat constructor.
  - destruct (str_eqb k k') eqn:E.
    + apply str_eqb_eq in E. subst k'. now constructor.
    + now constructor.
Qed.

Lemma length_set {V} (d : PyDict.dict V) k v :
  List.length (PyDict.set d k v) <= List.length d + 1.
Proof.
  induction d as [|[k' v'] d IH]; cbn [PyDict.set List.length]; [lia|].
  destruct (str_eqb k k'); cbn [List.length]; lia.
Qed.

(** What a step that ends well did to the content. *)
Lemma para_step_ok content text c :
  B.para_step content text = Ok c ->
  match classify text with
  | Blank => c = content
  | KeyValue k v => c = PyDict.set content k (CStr v)
  | FreeText line =>
      exists l,
        c = PyDict.set content ft (CList (l ++ [line]))
        /\ (PyDict.get content ft = None /\ l = []
            \/ PyDict.get content ft = Some (CList l))
  end.
Proof.
  rewrite para_step_classify. destruct (classify text) as [|k v|line].
  - intros H. now injection H.
  - intros H. now injection H.
  - destruct (PyDict.get content ft) as [[v|l]|] eqn:E; [discriminate| |].
    + intros H. injection H as <-. exists l. auto.
    + intros H. injection H as <-. exists [].
      rewrite (PyDictFacts.set_absent _ _ _ _ E). auto.
Qed.

Lemma para_step_keys content text c :
  B.para_step content text = Ok c ->
  PyDict.keys c = add_target (PyDict.keys content) text.
Proof.
  intros H. apply para_step_ok in H. unfold add_target, target.
  destruct (classify text) as [|k v|line].
  - now subst.
  - subst. apply keys_set.
  - destruct H as (l & -> & _). apply keys_set.
Qed.

Lemma parse_paragraphs_keys paragraphs : forall content c,
  B.parse_paragraphs content paragraphs = Ok c ->
  PyDict.keys c = fold_left add_target paragraphs (PyDict.keys content).
Proof.
  induction paragraphs as [|t ps IH]; intros content c;
    cbn [B.parse_paragraphs fold_left].
  - intros H. now injection H as <-.
  - destruct (B.para_step content t) as [c1|e] eqn:E; cbn [res_bind];
      [|discriminate].
    intros H. rewrite (IH _ _ H). now rewrite (para_step_keys _ _ _ E).
Qed.

Lemma add_key_nodup ks k : NoDup ks -> NoDup (add_key ks k).
Proof.
  intros H. unfold add_key.
  destruct (existsb (str_eqb k) ks) eqn:E; auto.
  apply NoDup_app; auto.
  - constructor; [tauto | constructor].
  - intros x Hx [Hk|[]]. subst x.
    assert (existsb (str_eqb k) ks = true) by now apply existsb_str_eqb.
    congruence.
Qed.

Lemma fold_add_target_nodup paragraphs : forall ks,
  NoDup ks -> NoDup (fold_left add_target paragraphs ks).
Proof.
  induction paragraphs as [|t ps IH]; intros ks H; cbn [fold_left]; auto.
  apply IH. unfold add_target. destruct (target t); auto using add_key_nodup.
Qed.

End ContentFacts.

Import ContentFacts.

(** X1: the keys of the content of a record are pairwise distinct and
    stand in the order in which the document first wrote to them: the
    key of a key line, "free_text" for a line without a colon. *)
Theorem X1_content_keys_in_first_write_order :
  (forall Document now doc_path tr data tr',
      ConvertDocxToJson.parse_doc_to_dict Document now doc_path tr
      = (Ok (Some data), tr') ->
      exists paragraphs,
        Document doc_path = Ok paragraphs
        /\ PyDict.keys (content data) = fold_left add_target paragraphs []
        /\ NoDup (PyDict.keys (content data)))
  /\ (forall now doc_file tr data tr',
         StreamlitApp.parse_doc_to_dict now doc_file tr
         = (Ok (Some data), tr') ->
         exists paragraphs,
           StreamlitApp.document doc_file = Ok paragraphs
           /\ PyDict.keys (content data) = fold_left add_target paragraphs []
           /\ NoDup (PyDict.keys (content data))).
Proof.
  split.
  - intros Document now doc_path tr data tr' H.
    destruct (script_parse_some _ _ _ _ _ _ H) as (ps & c & Hdoc & Hc & -> & _).
    exists ps. cbn [content]. rewrite (parse_paragraphs_keys _ _ _ Hc).
    repeat split; auto. apply fold_add_target_nodup. constructor.
  - intros now doc_file tr data tr' H.
    destruct (app_parse_some _ _ _ _ _ H) as (ps & c & Hdoc & Hc & ->).
    exists ps. cbn [content]. rewrite (parse_paragraphs_keys _ _ _ Hc).
    repeat split; auto. apply fold_add_target_nodup. constructor.
Qed.

Lemma X1_content_keys_in_first_write_order_witness :
  exists data,
    ConvertDocxToJson.parse_doc_to_dict
      (fun _ => Ok [s "b: 1"; s "note"; s "a: 2"; s "b: 3"; s "more"])
      (fun _ => s "2024-01-01T00:00:00") (s "in/k.docx") []
    = (Ok (Some data), [])
    /\ PyDict.keys (content data) = [s "b"; s "free_text"; s "a"].
Proof.
  eexists. split; [reflexivity|].
  destruct (proj1 X1_content_keys_in_first_write_order
              (fun _ => Ok [s "b: 1"; s "note"; s "a: 2"; s "b: 3"; s "more"])
              (fun _ => s "2024-01-01T00:00:00") (s "in/k.docx") [] _ _
              eq_refl)
    as (ps & Hdoc & Hkeys & _).
  injection Hdoc as <-. exact Hkeys.
Defined.

Module OverwriteFacts.

(** The string a key holds survives the lines that write elsewhere,
    as long as the loop goes on. *)
Lemma para_step_keeps content text c k w :
  B.para_step content text = Ok c ->
  target text <> Some k ->
  PyDict.get content k = Some (CStr w) ->
  PyDict.get c k = Some (CStr w).
Proof.
  intros Hstep Htarget Hget. apply para_step_ok in Hstep.
  unfold target in Htarget.
  destruct (classify text) as [|k' v|line].
  - now subst.
  - subst. rewrite PyDictFacts.get_set_other; auto.
    intros ->. now apply Htarget.
  - destruct Hstep as (l & -> & _).
    rewrite PyDictFacts.get_set_other; auto.
    intros ->. now apply Htarget.
Qed.

Lemma parse_paragraphs_keeps paragraphs : forall content c k w,
  B.parse_paragraphs content paragraphs = Ok c ->
  Forall (fun t => target t <> Some k) paragraphs ->
  PyDict.get content k = Some (CStr w) ->
  PyDict.get c k = Some (CStr w).
Proof.
  induction paragraphs as [|t ps IH]; intros content c k w;
    cbn [B.parse_paragraphs].
  - intros H _ Hget. now injection H as <-.
  - destruct (B.para_step content t) as [c1|e] eqn:E; cbn [res_bind];
      [|discriminate].
    intros H Hall Hget. inversion Hall; subst.
    eapply IH; eauto. eapply para_step_keeps; eauto.
Qed.

End OverwriteFacts.

Import OverwriteFacts.

(** X2: the last line that writes to a key decides its value. When the
    loop ends well on a document in which the key line [K ++ ":" ++ V] is
    followed by no line writing to its key, the content holds the
    trimmed [V] under the trimmed [K], whatever earlier lines stored
    there: an earlier value of the same key, or the free_text list
    when the key is "free_text". *)
Theorem X2_last_key_line_wins :
  forall pre post K V c,
    contains colon K = false ->
    Forall (fun t => target t <> Some (strip K)) post ->
    ConvertDocxToJson.parse_paragraphs [] (pre ++ (K ++ colon :: V) :: post)
    = Ok c ->
    PyDict.get c (strip K) = Some (CStr (strip V)).
Proof.
  intros pre post K V c HK Hpost H.
  rewrite parse_paragraphs_app in H.
  destruct (ConvertDocxToJson.parse_paragraphs [] pre) as [c1|e];
    cbn [res_bind] in H; [|discriminate].
  cbn [ConvertDocxToJson.parse_paragraphs] in H.
  rewrite para_step_key_value in H by assumption. cbn [res_bind] in H.
  eapply parse_paragraphs_keeps; eauto.
  apply PyDictFacts.get_set_same.
Qed.

Lemma X2_last_key_line_wins_witness :
  ConvertDocxToJson.parse_paragraphs []
    [s "first note"; s "city: Rome"; s "free_text: kept"; s "city : Oslo "]
  = Ok [(s "free_text", CStr (s "kept")); (s "city", CStr (s "Oslo"))]
  /\ PyDict.get [(s "free_text", CStr (s "kept")); (s "city", CStr (s "Oslo"))]
       (strip (s "free_text"))
     = Some (CStr (strip (s " kept"))).
Proof.
  split; [reflexivity|].
  apply (X2_last_key_line_wins
           [s "first note"; s "city: Rome"] [s "city : Oslo "]
           (s "free_text") (s " kept")).
  - reflexivity.
  - repeat constructor. cbn. discriminate.
  - reflexivity.
Defined.

Module FreeTextFacts.

(** The trimmed lines without a colon, in order. *)
Definition free_line (text : str) : list str :=
  match classify text with
  | FreeText line => [line]
  | _ => []
  end.

Definition free_lines (paragraphs : list str) : list str :=
  flat_map free_line paragraphs.

(** No key line sets the reserved key. *)
Definition reserved_key_unused (paragraphs : list str) : Prop :=
  Forall (fun t => forall v, classify t <> KeyValue ft v) paragraphs.

(** [content["free_text"]] is absent, or the list [l]. *)
Definition holds_list (content : PyDict.dict cval) (l : list str) : Prop :=
  PyDict.get content ft = match l with
                          | [] => None
                          | _ :: _ => Some (CList l)
                          end.

Lemma app_cons_not_nil {X} (l : list X) x : l ++ [x] <> [].
Proof. now destruct l. Qed.

Lemma para_step_holds_list content text l :
  holds_list content l ->
  (forall v, classify text <> KeyValue ft v) ->
  exists c,
    B.para_step content text = Ok c
    /\ holds_list c (l ++ free_line text).
Proof.
  intros Hl Hkey. rewrite para_step_classify. unfold free_line.
  unfold holds_list in *.
  destruct (classify text) as [|k v|line].
  - exists content. now rewrite app_nil_r.
  - eexists. split; [reflexivity|]. rewrite app_nil_r.
    rewrite PyDictFacts.get_set_other; auto.
    intros <-. now apply (Hkey v).
  - rewrite Hl. destruct l as [|a l].
    + eexists. split; [reflexivity|].
      rewrite <- (PyDictFacts.set_absent _ _ _ _ Hl).
      now rewrite PyDictFacts.get_set_same.
    + eexists. split; [reflexivity|].
      rewrite PyDictFacts.get_set_same. reflexivity.
Qed.

Lemma parse_paragraphs_holds_list paragraphs : forall content l,
  holds_list content l ->
  reserved_key_unused paragraphs ->
  exists c,
    B.parse_paragraphs content paragraphs = Ok c
    /\ holds_list c (l ++ free_lines paragraphs).
Proof.
  induction paragraphs as [|t ps IH]; intros content l Hl Hunused;
    cbn [B.parse_paragraphs].
  - exists content. split; auto. unfold free_lines. cbn. now rewrite app_nil_r.
  - inversion Hunused as [|? ? Ht Hps]; subst.
    destruct (para_step_holds_list content t l Hl Ht) as (c1 & -> & Hl1).
    cbn [res_bind].
    destruct (IH c1 _ Hl1 Hps) as (c & Hc & Hlc).
    exists c. split; auto.
    unfold free_lines. cbn [flat_map]. fold (free_lines ps).
    now rewrite app_assoc.
Qed.

(** [content["free_text"]] holds a string. *)
Lemma locked_after_reserved_key content v :
  locked (PyDict.set content ft (CStr v)).
Proof. exists v. apply PyDictFacts.get_set_same. Qed.

(** A step that raises is a line without a colon, met when the
    reserved key holds a string. *)
Lemma para_step_raise_inv content text e :
  B.para_step content text = Raise e ->
  locked content /\ exists line, classify text = FreeText line.
Proof.
  rewrite para_step_classify. destruct (classify text) as [|k v|line];
    try discriminate.
  destruct (PyDict.get content ft) as [[v|l]|] eqn:E; try discriminate.
  intros _. split; [now exists v | now exists line].
Qed.

(** A step leaves the reserved key without a string unless it is a key
    line for it. *)
Lemma para_step_not_locked content text c :
  B.para_step content text = Ok c ->
  ~ locked content ->
  (forall v, classify text <> KeyValue ft v) ->
  ~ locked c.
Proof.
  intros Hstep Hnl Hkey [w Hw]. apply para_step_ok in Hstep.
  fold ft in Hw.
  destruct (classify text) as [|k v|line].
  - subst. apply Hnl. now exists w.
  - subst. rewrite PyDictFacts.get_set_other in Hw.
    + apply Hnl. now exists w.
    + intros <-. now apply (Hkey v).
  - destruct Hstep as (l & -> & _).
    rewrite PyDictFacts.get_set_same in Hw. discriminate.
Qed.

Lemma classify_key_dec text :
  (exists v, classify text = KeyValue ft v)
  \/ (forall v, classify text <> KeyValue ft v).
Proof.
  destruct (classify text) as [|k v|line]; try (right; discriminate).
  destruct (list_eq_dec N.eq_dec k ft) as [->|Hne].
  - left. now exists v.
  - right. intros v' H. injection H as -> _. now apply Hne.
Qed.

(** A loop that raises met a line without a colon. *)
Lemma raise_has_free_line paragraphs : forall content e,
  B.parse_paragraphs content paragraphs = Raise e ->
  exists mid fl line post,
    paragraphs = mid ++ fl :: post /\ classify fl = FreeText line.
Proof.
  induction paragraphs as [|t ps IH]; intros content e;
    cbn [B.parse_paragraphs]; [discriminate|].
  destruct (B.para_step content t) as [c1|e'] eqn:E; cbn [res_bind].
  - intros H. destruct (IH _ _ H) as (mid & fl & line & post & -> & Hfl).
    now exists (t :: mid), fl, line, post.
  - intros _. destruct (para_step_raise_inv _ _ _ E) as [_ [line Hline]].
    now exists [], t, line, ps.
Qed.

(** A loop that raises from a content without a string under the
    reserved key met a key line for it, and later a line without a
    colon. *)
Lemma raise_has_pattern paragraphs : forall content e,
  B.parse_paragraphs content paragraphs = Raise e ->
  ~ locked content ->
  exists pre kl v mid fl line post,
    paragraphs = pre ++ kl :: mid ++ fl :: post
    /\ classify kl = KeyValue ft v
    /\ classify fl = FreeText line.
Proof.
  induction paragraphs as [|t ps IH]; intros content e;
    cbn [B.parse_paragraphs]; [discriminate|].
  destruct (B.para_step content t) as [c1|e'] eqn:E; cbn [res_bind].
  - intros H Hnl. destruct (classify_key_dec t) as [[v Hv]|Hkey].
    + destruct (raise_has_free_line _ _ _ H)
        as (mid & fl & line & post & -> & Hfl).
      now exists [], t, v, mid, fl, line, post.
    + pose proof (para_step_not_locked _ _ _ E Hnl Hkey) as Hnl1.
      destruct (IH _ _ H Hnl1)
        as (pre & kl & v & mid & fl & line & post & -> & Hkl & Hfl).
      now exists (t :: pre), kl, v, mid, fl, line, post.
  - intros _ Hnl. destruct (para_step_raise_inv _ _ _ E) as [Hl _].
    contradiction.
Qed.

End FreeTextFacts.

Import FreeTextFacts.

(** X3: a document none of whose key lines has the key "free_text"
    always gets through the loop, and its content then has under
    "free_text" the trimmed lines without a colon, all of them and in
    document order; the key is absent when there is no such line. *)
Theorem X3_free_text_collects_every_line :
  forall paragraphs,
    reserved_key_unused paragraphs ->
    exists c,
      ConvertDocxToJson.parse_paragraphs [] paragraphs = Ok c
      /\ StreamlitApp.parse_paragraphs ([], 0) paragraphs
         = Ok (c, List.length (filter non_blank paragraphs))
      /\ PyDict.get c (s "free_text")
         = match free_lines paragraphs with
           | [] => None
           | _ :: _ => Some (CList (free_lines paragraphs))
           end.
Proof.
  intros ps Hunused.
  destruct (parse_paragraphs_holds_list ps [] [] eq_refl Hunused)
    as (c & Hc & Hl).
  exists c. split; auto. split.
  - rewrite app_parse_paragraphs, Hc. cbn [res_bind].
    now rewrite bump_count.
  - exact Hl.
Qed.

Lemma X3_free_text_collects_every_line_witness :
  exists c,
    ConvertDocxToJson.parse_paragraphs []
      [s " one "; s "k: v"; s ""; s "two"]
    = Ok c
    /\ PyDict.get c (s "free_text") = Some (CList [s "one"; s "two"]).
Proof.
  destruct (X3_free_text_collects_every_line
              [s " one "; s "k: v"; s ""; s "two"])
    as (c & Hc & _ & Hget).
  - repeat constructor; cbn; discriminate.
  - exists c. split; [exact Hc | exact Hget].
Defined.

(** X4: the paragraph loop raises in one situation only, and always in
    it: a key line whose trimmed key is "free_text" followed, anywhere
    later, by a non-blank line without a colon. The exception is then
    the failed [append] on a string. *)
Theorem X4_loop_raises_only_on_reserved_key :
  forall paragraphs,
    (exists e, ConvertDocxToJson.parse_paragraphs [] paragraphs = Raise e)
    <-> exists pre kl v mid fl line post,
          paragraphs = pre ++ kl :: mid ++ fl :: post
          /\ classify kl = KeyValue (s "free_text") v
          /\ classify fl = FreeText line.
Proof.
  intros ps. split.
  - intros [e He]. eapply raise_has_pattern; eauto.
    intros [w Hw]. discriminate.
  - intros (pre & kl & v & mid & fl & line & post & -> & Hkl & Hfl).
    destruct (classify_key_value_inv _ _ _ Hkl) as (K & V & -> & HK & HkK & _).
    destruct (classify_free_text _ _ Hfl) as (-> & Hne & Hc).
    exists no_append. now apply reserved_key_raises.
Qed.

Lemma X4_loop_raises_only_on_reserved_key_witness :
  exists e,
    ConvertDocxToJson.parse_paragraphs []
      [s "a: 1"; s "free_text : x"; s "b: 2"; s "plain"; s "c: 3"]
    = Raise e.
Proof.
  apply (proj2 (X4_loop_raises_only_on_reserved_key
                  [s "a: 1"; s "free_text : x"; s "b: 2"; s "plain";
                   s "c: 3"])).
  exists [s "a: 1"], (s "free_text : x"), (s "x"), [s "b: 2"], (s "plain"),
    (s "plain"), [s "c: 3"].
  repeat split; reflexivity.
Defined.

Module EntryFacts.

(** A line of the free_text list: trimmed, not empty, without a colon. *)
Definition free_entry (w : str) : Prop :=
  strip w = w /\ w <> [] /\ contains colon w = false.

(** An entry of the content as the loop writes it. *)
Definition entry_ok (kv : str * cval) : Prop :=
  match snd kv with
  | CStr w =>
      strip (fst kv) = fst kv /\ contains colon (fst kv) = false
      /\ strip w = w
  | CList l => fst kv = ft /\ l <> [] /\ Forall free_entry l
  end.

Lemma para_step_entries content text c :
  B.para_step content text = Ok c ->
  Forall entry_ok content -> Forall entry_ok c.
Proof.
  intros Hstep Hall. pose proof Hstep as Hok. apply para_step_ok in Hok.
  destruct (classify text) as [|k v|line] eqn:Hcl.
  - now subst.
  - subst. apply Forall_set; auto.
    destruct (classify_key_value_inv _ _ _ Hcl) as (K & V & _ & HK & <- & <-).
    unfold entry_ok. cbn [fst snd]. split; [apply strip_idem|].
    split; [now apply contains_strip_false | apply strip_idem].
  - destruct Hok as (l & -> & Hl).
    destruct (classify_free_text _ _ Hcl) as (Hline & Hne & Hc).
    apply Forall_set; auto. unfold entry_ok. cbn [fst snd].
    split; auto. split.
    + now destruct l.
    + apply Forall_app. split.
      * destruct Hl as [[_ ->] | Hget]; [constructor|].
        apply get_In in Hget.
        rewrite Forall_forall in Hall. apply Hall in Hget.
        now destruct Hget as (_ & _ & Hl).
      * repeat constructor; auto. subst line. apply strip_idem.
Qed.

Lemma parse_paragraphs_entries paragraphs : forall content c,
  B.parse_paragraphs content paragraphs = Ok c ->
  Forall entry_ok content -> Forall entry_ok c.
Proof.
  induction paragraphs as [|t ps IH]; intros content c;
    cbn [B.parse_paragraphs].
  - intros H. now injection H as <-.
  - destruct (B.para_step content t) as [c1|e] eqn:E; cbn [res_bind];
      [|discriminate].
    intros H Hall. eapply IH; eauto. eapply para_step_entries; eauto.
Qed.

(** The content grows by one entry at most for a paragraph that is not
    blank, and not at all for a blank one. *)
Lemma parse_paragraphs_length paragraphs : forall content c,
  B.parse_paragraphs content paragraphs = Ok c ->
  List.length c
  <= List.length content + List.length (filter non_blank paragraphs).
Proof.
  induction paragraphs as [|t ps IH]; intros content c;
    cbn [B.parse_paragraphs filter].
  - intros H. injection H as <-. cbn. lia.
  - destruct (B.para_step content t) as [c1|e] eqn:E; cbn [res_bind];
      [|discriminate].
    intros H. apply IH in H. pose proof E as Hok. apply para_step_ok in Hok.
    destruct (classify t) as [|k v|line] eqn:Hcl.
    + subst c1. destruct (non_blank t); cbn [List.length]; lia.
    + assert (Hnb : non_blank t = true).
      { unfold non_blank. unfold classify in Hcl.
        now destruct (str_is_empty (strip t)). }
      rewrite Hnb. cbn [List.length]. subst c1.
      pose proof (length_set content k (CStr v)). lia.
    + assert (Hnb : non_blank t = true).
      { unfold non_blank. unfold classify in Hcl.
        now destruct (str_is_empty (strip t)). }
      rewrite Hnb. cbn [List.length]. destruct Hok as (l & -> & _).
      pose proof (length_set content ft (CList (l ++ [line]))). lia.
Qed.

End EntryFacts.

Import EntryFacts.

(** X5: in the content of a record every key is trimmed and has no
    colon, every string value is trimmed, and a list stands under
    "free_text" only, is not empty, and holds trimmed, non-empty lines
    without a colon. *)
Theorem X5_content_entries_are_trimmed :
  (forall Document now doc_path tr data tr',
      ConvertDocxToJson.parse_doc_to_dict Document now doc_path tr
      = (Ok (Some data), tr') ->
      Forall entry_ok (content data))
  /\ (forall now doc_file tr data tr',
         StreamlitApp.parse_doc_to_dict now doc_file tr
         = (Ok (Some data), tr') ->
         Forall entry_ok (content data)).
Proof.
  split.
  - intros Document now doc_path tr data tr' H.
    destruct (script_parse_some _ _ _ _ _ _ H) as (ps & c & _ & Hc & -> & _).
    eapply parse_paragraphs_entries; eauto.
  - intros now doc_file tr data tr' H.
    destruct (app_parse_some _ _ _ _ _ H) as (ps & c & _ & Hc & ->).
    eapply parse_paragraphs_entries; eauto.
Qed.

Lemma X5_content_entries_are_trimmed_witness :
  Forall entry_ok
    [(s "Name", CStr (s "John Doe")); (s "Age", CStr (s "30"));
     (s "free_text", CList [s "likes hiking"])].
Proof.
  exact (proj1 X5_content_entries_are_trimmed
           (fun _ => Ok scenario) (fun _ => s "2024-01-01T00:00:00")
           (s "in/john.docx") [] _ [] eq_refl).
Defined.

(** X6: in a record of the application the number of content entries
    is at most content_paragraphs, which is at most total_paragraphs. *)
Theorem X6_counters_bound_the_content :
  forall now doc_file tr data tr',
    StreamlitApp.parse_doc_to_dict now doc_file tr = (Ok (Some data), tr') ->
    exists n m,
      PyDict.get (metadata data) (s "content_paragraphs") = Some (MInt n)
      /\ PyDict.get (metadata data) (s "total_paragraphs") = Some (MInt m)
      /\ List.length (content data) <= n <= m.
Proof.
  intros now doc_file tr data tr' H.
  destruct (app_parse_some _ _ _ _ _ H) as (ps & c & _ & Hc & ->).
  exists (List.length (filter non_blank ps)), (List.length ps).
  split; [reflexivity|]. split; [reflexivity|]. cbn [content]. split.
  - apply parse_paragraphs_length in Hc. cbn in Hc. lia.
  - apply filter_length_le.
Qed.

Lemma X6_counters_bound_the_content_witness :
  exists data n m,
    StreamlitApp.parse_doc_to_dict (s "2024-01-01T00:00:00") scenario_upload []
    = (Ok (Some data), [StreamlitApp.Seek 0; StreamlitApp.Seek 0])
    /\ PyDict.get (metadata data) (s "content_paragraphs") = Some (MInt n)
    /\ PyDict.get (metadata data) (s "total_paragraphs") = Some (MInt m)
    /\ List.length (content data) <= n <= m.
Proof.
  eexists.
  destruct (X6_counters_bound_the_content
              (s "2024-01-01T00:00:00") scenario_upload [] _ _ eq_refl)
    as (n & m & Hn & Hm & Hle).
  exists n, m. split; [reflexivity|]. auto.
Defined.

(** * Further properties of validation and of the two parsers *)

Module OutcomeFacts.

(** The number of [st.error] calls in a trace of the parser. *)
Definition st_errors (evs : list StreamlitApp.event) : nat :=
  List.length (filter (fun e => match e with
                                | StreamlitApp.StError _ => true
                                | _ => false
                                end) evs).

End OutcomeFacts.

Import OutcomeFacts.

Module SeekFacts.

Module S := StreamlitAppIO.

(** Every run of [validate_docx_file] on a file whose [seek] may raise. *)
Lemma io_validate_run doc_file tr :
  S.validate_docx_file doc_file tr =
  match S.seek_error doc_file tr with
  | Some _ => (Raise S.unbound_zipfile, tr)
  | None =>
      match A.zip_namelist (S.upload doc_file) with
      | Raise e => (Ok (false, validation_error e), tr ++ [A.Seek 0])
      | Ok names =>
          match A.first_missing A.required_files names with
          | Some missing =>
              (Ok (false, s "Missing required file: " ++ missing),
               tr ++ [A.Seek 0])
          | None =>
              match S.seek_error doc_file (tr ++ [A.Seek 0]) with
              | Some e => (Ok (false, validation_error e), tr ++ [A.Seek 0])
              | None =>
                  (Ok (true, s "Valid DOCX file"), tr ++ [A.Seek 0; A.Seek 0])
              end
          end
      end
  end.
Proof.
  unfold S.validate_docx_file, S.seek.
  unfold Eff.try_except, Eff.bind, Eff.lift, Eff.ret, Eff.raise.
  destruct (S.seek_error doc_file tr) as [e|]; [reflexivity|].
  destruct (A.zip_namelist (S.upload doc_file)) as [names|e];
    [|now destruct e].
  destruct (A.first_missing A.required_files names); [reflexivity|].
  destruct (S.seek_error doc_file (tr ++ [A.Seek 0])) as [e|].
  - now destruct e.
  - now rewrite <- app_assoc.
Qed.

(** [StreamlitApp.validate_docx_file] and [StreamlitApp.parse_doc_to_dict]
    are the two functions on a file whose [seek] always returns. *)
Lemma returning_seek doc_file :
  (forall tr, S.seek_error doc_file tr = None) ->
  (forall tr, S.validate_docx_file doc_file tr
              = A.validate_docx_file (S.upload doc_file) tr)
  /\ (forall now tr, S.parse_doc_to_dict now doc_file tr
                     = A.parse_doc_to_dict now (S.upload doc_file) tr).
Proof.
  intros Hseek.
  assert (Hv : forall tr, S.validate_docx_file doc_file tr
                          = A.validate_docx_file (S.upload doc_file) tr).
  { intros tr. rewrite io_validate_run, !Hseek.
    unfold A.validate_docx_file.
    unfold Eff.try_except, Eff.bind, Eff.lift, Eff.ret, Eff.emit.
    destruct (A.zip_namelist (S.upload doc_file)) as [names|e];
      [|now destruct e].
    destruct (A.first_missing A.required_files names); [reflexivity|].
    now rewrite <- app_assoc. }
  split; [exact Hv|].
  intros now tr. unfold S.parse_doc_to_dict, A.parse_doc_to_dict.
  unfold Eff.try_except, Eff.bind at 1. unfold Eff.bind at 4.
  now rewrite Hv.
Qed.

(** A file object that was closed: every [seek] raises. *)
Definition closed_file (name : str) : S.Stream :=
  S.mkStream (A.mkUpload (Some name) (Ok []) (Ok []))
    (fun _ => Some (ValueError (s "I/O operation on closed file."))).

(** A complete archive whose [seek] returns. *)
Definition sound_file (name : str) : S.Stream :=
  S.mkStream
    (A.mkUpload (Some name)
       (Ok [s "[Content_Types].xml"; s "word/document.xml"])
       (Ok []))
    (fun _ => None).

End SeekFacts.

Import SeekFacts.

(** X7: [validate_docx_file] raises exactly when its first
    [doc_file.seek(0)] raises: the handlers name [zipfile], which the
    function imports only after that call, so what leaves the function
    is the [UnboundLocalError] for that name, whatever [seek] raised, and
    nothing else was done; [parse_doc_to_dict], which calls it inside its
    own [try], then reports that error with [st.error] and returns no
    record. When the first [seek] returns, the function returns too: it
    answers True exactly when the file opens as a ZIP archive that has
    both "word/document.xml" and "[Content_Types].xml" and the second
    [seek] returns as well; it then has moved the file pointer to the
    start twice, the second time after reading the archive, and once only
    when it answers False. *)
Theorem X7_validate_accepts_exactly_complete_archives :
  forall doc_file tr,
    (forall e,
        StreamlitAppIO.seek_error doc_file tr = Some e ->
        StreamlitAppIO.validate_docx_file doc_file tr
        = (Raise StreamlitAppIO.unbound_zipfile, tr)
        /\ forall now,
             StreamlitAppIO.parse_doc_to_dict now doc_file tr
             = (Ok None,
                tr ++ [StreamlitApp.StError
                         (s "Error processing "
                          ++ StreamlitApp.getattr_name
                               (StreamlitAppIO.upload doc_file) (s "document")
                          ++ s ": "
                          ++ exn_str StreamlitAppIO.unbound_zipfile)]))
    /\ (StreamlitAppIO.seek_error doc_file tr = None ->
        exists (ok : bool) (msg : str),
          StreamlitAppIO.validate_docx_file doc_file tr
          = (Ok (ok, msg),
             tr ++ if ok then [StreamlitApp.Seek 0; StreamlitApp.Seek 0]
                   else [StreamlitApp.Seek 0])
          /\ (ok = true <->
              exists names,
                StreamlitApp.zip_namelist (StreamlitAppIO.upload doc_file)
                = Ok names
                /\ In (s "word/document.xml") names
                /\ In (s "[Content_Types].xml") names
                /\ StreamlitAppIO.seek_error doc_file
                     (tr ++ [StreamlitApp.Seek 0]) = None)).
Proof.
  intros doc_file tr. split.
  - intros e He. split.
    + now rewrite io_validate_run, He.
    + intros now. unfold StreamlitAppIO.parse_doc_to_dict.
      unfold Eff.try_except, Eff.bind at 1.
      rewrite io_validate_run, He. reflexivity.
  - intros Hseek. rewrite io_validate_run, Hseek.
    destruct (StreamlitApp.zip_namelist (StreamlitAppIO.upload doc_file))
      as [names|e].
    + destruct (StreamlitApp.first_missing StreamlitApp.required_files names)
        as [missing|] eqn:E.
      * exists false, (s "Missing required file: " ++ missing).
        split; [reflexivity|]. split; [discriminate|].
        intros (names' & Hn & H1 & H2 & _). injection Hn as <-.
        destruct (first_missing_some _ _ _ E) as [Hin Hnot].
        destruct Hin as [<-|[<-|[]]]; contradiction.
      * destruct (StreamlitAppIO.seek_error doc_file
                    (tr ++ [StreamlitApp.Seek 0])) as [e|] eqn:E2.
        -- exists false, (validation_error e). split; [reflexivity|].
           split; [discriminate|].
           intros (names' & _ & _ & _ & H). discriminate.
        -- exists true, (s "Valid DOCX file"). split; [reflexivity|].
           split; [|reflexivity]. intros _. exists names.
           pose proof (proj1 (first_missing_none _ _) E) as Hall.
           repeat split; auto; apply Hall; cbn; auto.
    + exists false, (validation_error e). split; [reflexivity|].
      split; [discriminate|]. intros (names & Hn & _). discriminate.
Qed.

Lemma X7_validate_accepts_exactly_complete_archives_witness :
  (StreamlitAppIO.validate_docx_file (closed_file (s "a.docx")) []
   = (Raise StreamlitAppIO.unbound_zipfile, [])
   /\ forall now,
        StreamlitAppIO.parse_doc_to_dict now (closed_file (s "a.docx")) []
        = (Ok None,
           [] ++ [StreamlitApp.StError
                    (s "Error processing "
                     ++ StreamlitApp.getattr_name
                          (StreamlitAppIO.upload (closed_file (s "a.docx")))
                          (s "document")
                     ++ s ": "
                     ++ exn_str StreamlitAppIO.unbound_zipfile)]))
  /\ exists (ok : bool) (msg : str),
       StreamlitAppIO.validate_docx_file (sound_file (s "a.docx")) []
       = (Ok (ok, msg),
          [] ++ if ok then [StreamlitApp.Seek 0; StreamlitApp.Seek 0]
                else [StreamlitApp.Seek 0])
       /\ (ok = true <->
           exists names,
             StreamlitApp.zip_namelist
               (StreamlitAppIO.upload (sound_file (s "a.docx")))
             = Ok names
             /\ In (s "word/document.xml") names
             /\ In (s "[Content_Types].xml") names
             /\ StreamlitAppIO.seek_error (sound_file (s "a.docx"))
                  ([] ++ [StreamlitApp.Seek 0]) = None).
Proof.
  split.
  - exact (proj1 (X7_validate_accepts_exactly_complete_archives
                    (closed_file (s "a.docx")) [])
             (ValueError (s "I/O operation on closed file.")) eq_refl).
  - exact (proj2 (X7_validate_accepts_exactly_complete_archives
                    (sound_file (s "a.docx")) []) eq_refl).
Defined.

(** X8: the application's [parse_doc_to_dict] never raises and only
    adds to the trace. It returns no record exactly when it has called
    [st.error], and then it has called it once; with a record it has
    called it not at all. *)
Theorem X8_app_parser_reports_every_failure_once :
  forall now doc_file tr,
    exists r evs,
      StreamlitApp.parse_doc_to_dict now doc_file tr = (Ok r, tr ++ evs)
      /\ StreamlitApp.parse_doc_to_dict now doc_file [] = (Ok r, evs)
      /\ st_errors evs = match r with None => 1 | Some _ => 0 end.
Proof.
  intros now doc_file tr. rewrite !app_parse_run.
  destruct (StreamlitApp.zip_namelist doc_file) as [names|e].
  2:{ eexists _, _. split; [reflexivity|]. split; reflexivity. }
  destruct (StreamlitApp.first_missing StreamlitApp.required_files names).
  { eexists _, _. split; [reflexivity|]. split; reflexivity. }
  destruct (res_bind _ _) as [[total [c n]]|e].
  - eexists _, _. split; [reflexivity|]. split; [reflexivity|].
    destruct (PyDict.is_empty c); reflexivity.
  - eexists _, _. split; [reflexivity|]. split; reflexivity.
Qed.


(** * Further properties of the conversions *)

Module ReplaceFacts.







End ReplaceFacts.

Import ReplaceFacts.





Module WrittenFacts.

(** The paths a trace opened for writing, in order. *)
Definition opened (evs : list F.event) : list str :=
  flat_map (fun e => match e with
                     | F.Open p => [p]
                     | _ => []
                     end) evs.

(** The paths of the files a trace wrote a record to, in order. *)
Definition dumped (evs : list F.event) : list str :=
  flat_map (fun e => match e with
                     | F.Dump p _ => [p]
                     | _ => []
                     end) evs.

Lemma opened_app evs1 evs2 :
  opened (evs1 ++ evs2) = opened evs1 ++ opened evs2.
Proof. apply flat_map_app. Qed.

Lemma dumped_app evs1 evs2 :
  dumped (evs1 ++ evs2) = dumped evs1 ++ dumped evs2.
Proof. apply flat_map_app. Qed.

Lemma opened_flat_map {X} (f : X -> list F.event) xs :
  opened (flat_map f xs) = flat_map (fun x => opened (f x)) xs.
Proof.
  induction xs as [|x xs IH]; cbn [flat_map]; auto.
  now rewrite opened_app, IH.
Qed.

Lemma dumped_flat_map {X} (f : X -> list F.event) xs :
  dumped (flat_map f xs) = flat_map (fun x => dumped (f x)) xs.
Proof.
  induction xs as [|x xs IH]; cbn [flat_map]; auto.
  now rewrite dumped_app, IH.
Qed.

Lemma endswith_join a b p : endswith b p = true -> endswith (join a b) p = true.
Proof.
  rewrite !OsPathFacts.endswith_spec. intros [stem ->]. unfold join.
  destruct (startswith (stem ++ p) [slash]).
  - now exists stem.
  - destruct (_ || _).
    + exists (a ++ stem). now rewrite app_assoc.
    + exists (a ++ slash :: stem). now rewrite <- app_assoc.
Qed.

Lemma json_path_ends_json json_folder rel filename :
  endswith (json_path_of json_folder rel filename) (s ".json") = true.
Proof. apply endswith_join, OsPathFacts.endswith_app. Qed.

Lemma ends_json_not_docx (p : str) :
  endswith p (s ".json") = true -> endswith p (s ".docx") = false.
Proof.
  rewrite OsPathFacts.endswith_spec. intros [stem ->].
  unfold endswith. rewrite rev_app_distr. reflexivity.
Qed.

(** One file: what the plan opens and writes is what it returns, a
    path ending in ".json". *)
Lemma plan_out_written Document now cwd docx_folder json_folder job :
  fst job <> [] ->
  opened (plan_events Document now cwd docx_folder json_folder job)
  = plan_out Document now cwd docx_folder json_folder job
  /\ dumped (plan_events Document now cwd docx_folder json_folder job)
     = plan_out Document now cwd docx_folder json_folder job
  /\ List.length (plan_out Document now cwd docx_folder json_folder job) <= 1
  /\ Forall (fun p => endswith p (s ".json") = true)
       (plan_out Document now cwd docx_folder json_folder job).
Proof.
  destruct job as [root filename]. cbn [fst]. intros Hroot.
  unfold plan_events, plan_out.
  destruct (endswith filename (s ".docx")) eqn:Hext.
  2:{ rewrite file_plan_other by assumption. cbn. repeat split; auto. }
  destruct (file_plan_docx Document now cwd docx_folder json_folder
              root filename Hroot Hext) as (r & evs & _ & Hplan).
  destruct r as [data|].
  - destruct Hplan as (_ & rel & _ & ->). cbn [fst snd].
    split; [reflexivity|]. split; [reflexivity|]. split; [cbn; lia|].
    constructor; [apply json_path_ends_json | constructor].
  - destruct Hplan as ((line & ->) & ->). cbn.
    repeat split; auto.
Qed.

(** The whole plan opens and writes the files it returns. *)
Lemma plan_written Document now listing cwd docx_folder json_folder :
  let files :=
    flat_map (plan_out Document now cwd docx_folder
                (destination docx_folder json_folder))
      (jobs listing docx_folder) in
  opened (plan Document now listing cwd docx_folder json_folder) = files
  /\ dumped (plan Document now listing cwd docx_folder json_folder) = files
  /\ List.length files <= List.length (jobs listing docx_folder)
  /\ Forall (fun p => endswith p (s ".json") = true
                      /\ endswith p (s ".docx") = false) files.
Proof.
  intros files. subst files. unfold plan.
  set (jf := destination docx_folder json_folder).
  assert (Hjobs : forall job, In job (jobs listing docx_folder) ->
                              fst job <> [])
    by (intros job; apply jobs_root_not_nil).
  change (opened (?e :: ?l)) with (opened [e] ++ opened l).
  change (dumped (?e :: ?l)) with (dumped [e] ++ dumped l).
  cbn [opened dumped flat_map app].
  rewrite opened_flat_map, dumped_flat_map.
  induction (jobs listing docx_folder) as [|job js IH];
    cbn [flat_map List.length].
  - repeat split; auto.
  - destruct IH as (Ho & Hd & Hlen & Hall);
      [intros job' Hin; apply Hjobs; now right|].
    destruct (plan_out_written Document now cwd docx_folder jf job)
      as (Hop & Hdu & Hone & Hjson); [apply Hjobs; now left|].
    rewrite Hop, Hdu, Ho, Hd, length_app.
    split; [reflexivity|]. split; [reflexivity|]. split; [lia|].
    apply Forall_app. split; auto.
    eapply Forall_impl; [|exact Hjson].
    intros p Hp. split; auto using ends_json_not_docx.
Qed.

(** What a run opened and wrote, against what it returns. *)
Lemma folder_written :
  forall Document now listing cwd io_error docx_folder json_folder,
    let run := F.convert_folder Document now listing cwd
                 io_error docx_folder json_folder [] in
    (forall files,
        fst run = Ok files ->
        opened (snd run) = files
        /\ dumped (snd run) = files
        /\ List.length files <= List.length (jobs listing docx_folder))
    /\ Forall (fun p => endswith p (s ".json") = true
                        /\ endswith p (s ".docx") = false)
         (opened (snd run)).
Proof.
  intros Document now listing cwd io_error docx_folder json_folder run.
  destruct (io_convert_folder_done Document now listing cwd io_error
              docx_folder json_folder [])
    as (done & rest & Hplan & Htr & _ & Hrest).
  fold run in Htr, Hrest. cbn [app] in Htr.
  destruct (plan_written Document now listing cwd docx_folder json_folder)
    as (Ho & Hd & Hlen & Hall).
  split.
  - intros files Hfiles. rewrite Hfiles in Hrest.
    destruct rest as [|ev rest].
    + injection Hrest as Hfst. rewrite app_nil_r in Hplan.
      rewrite Htr, <- Hplan, Ho, Hd, Hfst. auto.
    + destruct Hrest as (e & _ & H). discriminate.
  - rewrite Htr. rewrite <- Ho, Hplan, opened_app in Hall.
    now apply Forall_app in Hall.
Qed.

(** The answer of [os.makedirs] to the empty path. *)
Definition no_such_directory (tr : list F.event) (ev : F.event)
  : option exn :=
  match ev with
  | F.Makedirs [] =>
      Some (OtherException (s "[Errno 2] No such file or directory: ''"))
  | _ => None
  end.

End WrittenFacts.

Import WrittenFacts.

(** X12: whenever [convert_folder] returns, the list it returns is the
    list of the JSON files it opened and of those it wrote a record to,
    in that order, one at most for each file the walk lists. In every
    run, also one that an exception of the file system ends, each path
    opened for writing ends in ".json", so none is a ".docx" path: the
    folder conversion never writes over a document. *)
Theorem X12_folder_returns_what_it_wrote :
  forall Document now listing cwd io_error docx_folder json_folder,
    let run := ConvertDocxToJsonIO.convert_folder Document now listing cwd
                 io_error docx_folder json_folder [] in
    (forall files,
        fst run = Ok files ->
        opened (snd run) = files
        /\ dumped (snd run) = files
        /\ List.length files <= List.length (jobs listing docx_folder))
    /\ Forall (fun p => endswith p (s ".json") = true
                        /\ endswith p (s ".docx") = false)
         (opened (snd run)).
Proof. exact folder_written. Qed.

Lemma X12_folder_returns_what_it_wrote_witness :
  opened (snd (SampleIO.run willing SampleWorld.listing))
  = [s "out/./a.json"; s "out/sub/b.json"]
  /\ dumped (snd (SampleIO.run willing SampleWorld.listing))
     = [s "out/./a.json"; s "out/sub/b.json"]
  /\ List.length [s "out/./a.json"; s "out/sub/b.json"]
     <= List.length (jobs SampleWorld.listing (s "in")).
Proof.
  apply (proj1 (X12_folder_returns_what_it_wrote
                  SampleWorld.Document SampleWorld.now SampleWorld.listing
                  SampleWorld.cwd willing (s "in") (Some (s "out")))).
  vm_compute. reflexivity.
Defined.

(** X13: a source folder that cannot be listed, or in which no file
    name ends in ".docx", gives one call, [os.makedirs] for the
    destination folder, which is the source folder itself when none is
    given. When that call returns the result is the empty list; when it
    raises, as it does for the source folder "" or for a destination
    that is a regular file, the conversion raises the same exception and
    has done nothing. *)
Theorem X13_folder_without_documents :
  forall Document now listing cwd io_error docx_folder json_folder tr,
    Forall (fun job => endswith (snd job) (s ".docx") = false)
      (jobs listing docx_folder) ->
    ConvertDocxToJsonIO.convert_folder Document now listing cwd io_error
      docx_folder json_folder tr
    = match io_error tr (ConvertDocxToJsonIO.Makedirs
                           (destination docx_folder json_folder)) with
      | None =>
          (Ok [],
           tr ++ [ConvertDocxToJsonIO.Makedirs
                    (destination docx_folder json_folder)])
      | Some e => (Raise e, tr)
      end
    /\ destination docx_folder None = docx_folder.
Proof.
  intros Document now listing cwd io_error docx_folder json_folder tr Hall.
  split; [|reflexivity]. rewrite io_convert_folder_run. unfold plan.
  set (jf := destination docx_folder json_folder).
  assert (Hnone :
            flat_map (plan_events Document now cwd docx_folder jf)
              (jobs listing docx_folder) = []
            /\ flat_map (plan_out Document now cwd docx_folder jf)
                 (jobs listing docx_folder) = []).
  { induction Hall as [|[root filename] js Hext _ IH]; [now split|].
    cbn [flat_map]. unfold plan_out at 1, plan_events at 1.
    cbn [snd] in Hext. rewrite file_plan_other by assumption.
    cbn [fst snd app]. exact IH. }
  destruct Hnone as [-> ->]. cbn [replay].
  destruct (io_error tr (ConvertDocxToJsonIO.Makedirs jf)); reflexivity.
Qed.

Lemma X13_folder_without_documents_witness :
  ConvertDocxToJsonIO.convert_folder SampleWorld.Document SampleWorld.now
    SampleWorld.listing SampleWorld.cwd no_such_directory [] None []
  = (Raise (OtherException (s "[Errno 2] No such file or directory: ''")),
     [])
  /\ ConvertDocxToJsonIO.convert_folder SampleWorld.Document SampleWorld.now
       (fun top => if str_eqb top (s "empty")
                   then Some (Dir [s "readme.txt"; s "old.doc"] FNil)
                   else None)
       SampleWorld.cwd no_such_directory (s "empty") None []
     = (Ok [], [ConvertDocxToJsonIO.Makedirs (s "empty")]).
Proof.
  split.
  - apply (proj1 (X13_folder_without_documents
                    SampleWorld.Document SampleWorld.now SampleWorld.listing
                    SampleWorld.cwd no_such_directory [] None []
                    ltac:(constructor))).
  - apply (proj1 (X13_folder_without_documents
                    SampleWorld.Document SampleWorld.now
                    (fun top => if str_eqb top (s "empty")
                                then Some (Dir [s "readme.txt"; s "old.doc"]
                                             FNil)
                                else None)
                    SampleWorld.cwd no_such_directory (s "empty") None []
                    ltac:(repeat constructor))).
Defined.

Module NamingFacts.

Lemma join_inj a b1 b2 :
  startswith b1 [slash] = false -> startswith b2 [slash] = false ->
  join a b1 = join a b2 -> b1 = b2.
Proof.
  intros H1 H2. rewrite (join_rel a b1 H1), (join_rel a b2 H2).
  intros H. apply app_inv_head in H.
  destruct (_ || _); [assumption | now injection H].
Qed.

Lemma json_name_relative (stem : str) :
  contains slash stem = false ->
  startswith (stem ++ s ".json") [slash] = false.
Proof.
  intros H. apply OsPathFacts.startswith_slash_free.
  rewrite contains_app, H. reflexivity.
Qed.

(** The part of a name [splitext] keeps. *)
Definition has_name (stem : str) : bool :=
  existsb (fun c => negb (N.eqb c dot)) stem.

Lemma base_name_plain (stem : str) :
  contains slash stem = false -> has_name stem = true ->
  fst (splitext (stem ++ s ".docx")) = stem.
Proof.
  intros Hs Hn. change (s ".docx") with (dot :: s "docx").
  rewrite (OsPathFacts.splitext_plain stem (s "docx")).
  - unfold has_name in Hn. now rewrite Hn.
  - rewrite contains_app, Hs. reflexivity.
  - reflexivity.
Qed.

End NamingFacts.

Import NamingFacts.

(** X14: two documents of one directory whose names differ get
    different JSON files, provided each name has a character other
    than a dot before its ".docx". The proviso is needed: ".docx" and
    ".docx.docx" are both written to ".docx.json". *)
Theorem X14_outputs_of_a_directory_are_distinct :
  (forall json_folder rel stem1 stem2,
      contains slash stem1 = false -> contains slash stem2 = false ->
      has_name stem1 = true -> has_name stem2 = true ->
      stem1 <> stem2 ->
      json_path_of json_folder rel (stem1 ++ s ".docx")
      <> json_path_of json_folder rel (stem2 ++ s ".docx"))
  /\ (forall json_folder rel,
         json_path_of json_folder rel (s ".docx")
         = json_path_of json_folder rel (s ".docx.docx")).
Proof.
  split.
  - intros jf rel s1 s2 Hs1 Hs2 Hn1 Hn2 Hne. unfold json_path_of.
    rewrite !base_name_plain by assumption.
    intros H. apply Hne. apply join_inj in H; auto using json_name_relative.
    now apply app_inv_tail in H.
  - intros jf rel. reflexivity.
Qed.

Lemma X14_outputs_of_a_directory_are_distinct_witness :
  json_path_of (s "out") (s "sub") (s "a.docx") = s "out/sub/a.json"
  /\ json_path_of (s "out") (s "sub") (s "A.docx") = s "out/sub/A.json"
  /\ json_path_of (s "out") (s "sub") (s "a.docx")
     <> json_path_of (s "out") (s "sub") (s "A.docx").
Proof.
  split; [reflexivity|]. split; [reflexivity|].
  apply (proj1 X14_outputs_of_a_directory_are_distinct
           (s "out") (s "sub") (s "a") (s "A"));
    try reflexivity; discriminate.
Defined.

Module MainSample.

(** The folder of the script, holding one document and one file that
    is not a document. *)
Definition listing (top : str) : option Tree :=
  if str_eqb top ScriptMain.DOCX_FOLDER
  then Some (Dir [s "policy.docx"; s "notes.txt"] FNil)
  else None.

End MainSample.

(** X15: the command line block. When the folder
    "sample_data/7. Critical Illness_all" does not exist it prints two
    lines and touches nothing. When it exists it converts the folder in
    place: if the conversion returns, the block ends with a line that
    gives the number of JSON files written; if the conversion raises,
    the block raises the same exception and prints no such line. A
    [print] that raises ends the block in the same way. *)
Theorem X15_script_main_reports_the_files_written :
  forall Document now listing cwd io_error path_exists,
    let say tr lines :=
      match replay io_error tr (map ConvertDocxToJsonIO.Print lines) with
      | (None, tr') => (Ok tt, tr')
      | (Some e, tr') => (Raise e, tr')
      end in
    (path_exists ScriptMain.DOCX_FOLDER = false ->
     forall tr,
       ScriptMain.main Document now listing cwd io_error path_exists tr
       = say tr [s "Folder not found: sample_data/7. Critical Illness_all";
                 s "Please update the DOCX_FOLDER path in the script."])
    /\ (path_exists ScriptMain.DOCX_FOLDER = true ->
        let run := ConvertDocxToJsonIO.convert_folder Document now listing
                     cwd io_error
                     ScriptMain.DOCX_FOLDER (Some ScriptMain.JSON_FOLDER) [] in
        ScriptMain.main Document now listing cwd io_error path_exists []
        = match fst run with
          | Ok _ =>
              say (snd run)
                [newline :: s "Conversion complete! Converted "
                 ++ str_of_nat (List.length (dumped (snd run)))
                 ++ s " files."]
          | Raise e => (Raise e, snd run)
          end).
Proof.
  intros Document now listing cwd io_error path_exists say. subst say.
  split.
  - intros H tr. unfold ScriptMain.main. rewrite H.
    unfold Eff.bind, ConvertDocxToJsonIO.attempt. cbn [map replay].
    destruct (io_error tr _); [reflexivity|].
    destruct (io_error (tr ++ _) _); [reflexivity|]. reflexivity.
  - intros H run.
    pose proof (proj1 (folder_written Document now listing cwd io_error
                         ScriptMain.DOCX_FOLDER (Some ScriptMain.JSON_FOLDER)))
      as Hw.
    fold run in Hw.
    unfold ScriptMain.main. rewrite H. unfold Eff.bind. fold run.
    destruct run as [[files|e] tr']; cbn [fst snd] in *; [|reflexivity].
    destruct (Hw files eq_refl) as (_ & -> & _).
    unfold ConvertDocxToJsonIO.attempt. cbn [map replay].
    destruct (io_error tr' _); reflexivity.
Qed.

Lemma X15_script_main_reports_the_files_written_witness :
  ScriptMain.main SampleWorld.Document SampleWorld.now MainSample.listing
    SampleWorld.cwd willing (fun _ => false) []
  = (Ok tt,
     [ConvertDocxToJsonIO.Print
        (s "Folder not found: sample_data/7. Critical Illness_all");
      ConvertDocxToJsonIO.Print
        (s "Please update the DOCX_FOLDER path in the script.")])
  /\ ScriptMain.main SampleWorld.Document SampleWorld.now MainSample.listing
       SampleWorld.cwd willing (fun _ => true) []
     = (Ok tt,
        [ConvertDocxToJsonIO.Makedirs ScriptMain.DOCX_FOLDER;
         ConvertDocxToJsonIO.Makedirs
           (s "sample_data/7. Critical Illness_all/.");
         ConvertDocxToJsonIO.Open
           (s "sample_data/7. Critical Illness_all/./policy.json");
         ConvertDocxToJsonIO.Dump
           (s "sample_data/7. Critical Illness_all/./policy.json")
           (SampleWorld.record
              (s "sample_data/7. Critical Illness_all/policy.docx"));
         ConvertDocxToJsonIO.Print
           (progress_line
              (s "sample_data/7. Critical Illness_all/policy.docx")
              (s "sample_data/7. Critical Illness_all/./policy.json"));
         ConvertDocxToJsonIO.Print
           (newline :: s "Conversion complete! Converted 1 files.")])
  /\ ScriptMain.main SampleWorld.Document SampleWorld.now MainSample.listing
       SampleWorld.cwd SampleIO.disk_full (fun _ => true) []
     = (Raise (OtherException (s "[Errno 28] No space left on device")),
        [ConvertDocxToJsonIO.Makedirs ScriptMain.DOCX_FOLDER;
         ConvertDocxToJsonIO.Makedirs
           (s "sample_data/7. Critical Illness_all/.");
         ConvertDocxToJsonIO.Open
           (s "sample_data/7. Critical Illness_all/./policy.json")]).
Proof.
  split; [|split].
  - pose proof (proj1 (X15_script_main_reports_the_files_written
                         SampleWorld.Document SampleWorld.now
                         MainSample.listing SampleWorld.cwd willing
                         (fun _ => false)) eq_refl []) as H.
    rewrite H. reflexivity.
  - pose proof (proj2 (X15_script_main_reports_the_files_written
                         SampleWorld.Document SampleWorld.now
                         MainSample.listing SampleWorld.cwd willing
                         (fun _ => true)) eq_refl) as H.
    cbv zeta in H. rewrite H. vm_compute. reflexivity.
  - pose proof (proj2 (X15_script_main_reports_the_files_written
                         SampleWorld.Document SampleWorld.now
                         MainSample.listing SampleWorld.cwd SampleIO.disk_full
                         (fun _ => true)) eq_refl) as H.
    cbv zeta in H. rewrite H. vm_compute. reflexivity.
Defined.

(** * The conversion loop of the page *)

Module PageFacts.

Module P := StreamlitMain.

(** The upload gets a record from the parser. *)
Definition converts (doc_file : A.Upload) : bool :=
  match A.zip_namelist doc_file with
  | Ok names =>
      match A.first_missing A.required_files names with
      | None =>
          match res_bind (A.document doc_file) (B.parse_paragraphs []) with
          | Ok _ => true
          | Raise _ => false
          end
      | Some _ => false
      end
  | Raise _ => false
  end.

(** The parser never raises, and gives a record exactly to the
    uploads that convert. *)
Lemma app_parse_total now doc_file :
  exists r evs,
    A.parse_doc_to_dict now doc_file [] = (Ok r, evs)
    /\ (converts doc_file = true <-> exists d, r = Some d).
Proof.
  rewrite app_parse_run. unfold converts.
  destruct (A.zip_namelist doc_file) as [names|e].
  2:{ eexists _, _. split; [reflexivity|].
      split; [discriminate | intros [d Hd]; discriminate]. }
  destruct (A.first_missing A.required_files names).
  { eexists _, _. split; [reflexivity|].
    split; [discriminate | intros [d Hd]; discriminate]. }
  destruct (A.document doc_file) as [ps|e]; cbn [res_bind].
  2:{ eexists _, _. split; [reflexivity|].
      split; [discriminate | intros [d Hd]; discriminate]. }
  rewrite app_parse_paragraphs.
  destruct (B.parse_paragraphs [] ps) as [c|e]; cbn [res_bind].
  - eexists _, _. split; [reflexivity|]. split; [now eexists | reflexivity].
  - eexists _, _. split; [reflexivity|].
    split; [discriminate | intros [d Hd]; discriminate].
Qed.

Definition named (u : P.UploadedFile) : Prop :=
  exists n, A.name (P.file u) = Some n.

Definition name_of (u : P.UploadedFile) : str :=
  match A.name (P.file u) with
  | Some n => n
  | None => []
  end.

(** The key of [converted_files] an upload is stored under. *)
Definition json_name (u : P.UploadedFile) : str :=
  replace (name_of u) (s ".docx") (s ".json").

Section Page.
Variable json_dumps : option nat -> P.payload -> str.
Variable now : nat -> str.
Variable include_metadata pretty_format : bool.

Definition parsed (item : nat * P.UploadedFile) : option Data :=
  match fst (A.parse_doc_to_dict (now (fst item)) (P.file (snd item)) []) with
  | Ok r => r
  | Raise _ => None
  end.

Definition parser_events (item : nat * P.UploadedFile) : list P.event :=
  map P.Parser
    (snd (A.parse_doc_to_dict (now (fst item)) (P.file (snd item)) [])).

(** The text stored for a record. *)
Definition json_of (d : Data) : str :=
  json_dumps (if pretty_format then Some 2 else None)
    (if include_metadata then P.WholeRecord d else P.ContentOnly (content d)).

Definition step (st : PyDict.dict str * list str) (item : nat * P.UploadedFile)
  : PyDict.dict str * list str :=
  match parsed item with
  | Some d => (PyDict.set (fst st) (json_name (snd item)) (json_of d), snd st)
  | None => (fst st, snd st ++ [name_of (snd item)])
  end.

Definition item_events (total : nat) (item : nat * P.UploadedFile)
  : list P.event :=
  let nm := name_of (snd item) in
  [P.StatusText (s "Converting " ++ nm ++ s "...");
   P.StWrite (P.magnifier :: s " Processing: " ++ nm ++ s " ("
              ++ format_commas (P.size (snd item)) ++ s " bytes)")]
  ++ parser_events item
  ++ [match parsed item with
      | Some _ => P.StSuccess (s "Successfully converted " ++ nm)
      | None => P.StError (s "Failed to convert " ++ nm)
      end;
      P.Progress (fst item + 1) total].

Lemma convert_one_run total item st tr :
  named (snd item) ->
  P.convert_one json_dumps now include_metadata pretty_format total item st tr
  = (Ok (step st item), tr ++ item_events total item).
Proof.
  destruct item as [i u]. destruct st as [conv failed]. intros [nm Hnm].
  cbn [snd] in Hnm.
  unfold P.convert_one, P.get_name, step, item_events, parsed, parser_events,
    json_name, json_of, name_of.
  cbn [fst snd]. rewrite Hnm.
  unfold Eff.bind, Eff.ret, Eff.emit, P.call_parser.
  destruct (app_parse_total (now i) (P.file u)) as (r & evs & Hparse & _).
  rewrite Hparse. cbn [fst snd].
  destruct r as [d|].
  - destruct include_metadata, pretty_format; cbn [negb];
      rewrite <- !app_assoc; reflexivity.
  - rewrite <- !app_assoc. reflexivity.
Qed.

Lemma loop_run total items : forall st tr,
  Forall named (map snd items) ->
  Eff.for_each items
    (P.convert_one json_dumps now include_metadata pretty_format total) st tr
  = (Ok (fold_left step items st), tr ++ flat_map (item_events total) items).
Proof.
  induction items as [|item items IH]; intros st tr Hnamed;
    cbn [Eff.for_each fold_left flat_map].
  - unfold Eff.ret. now rewrite app_nil_r.
  - inversion Hnamed; subst. unfold Eff.bind.
    rewrite convert_one_run by assumption.
    rewrite IH by assumption. now rewrite <- app_assoc.
Qed.

(** The page's summary, from the two collections. *)
Definition summary (st : PyDict.dict str * list str) : list P.event :=
  P.StatusText
    (if negb (PyDict.is_empty (fst st))
     then s "Conversion complete! "
          ++ str_of_nat (List.length (fst st)) ++ s " successful, "
          ++ str_of_nat (List.length (snd st)) ++ s " failed"
     else s "No files were successfully converted")
  :: match snd st with
     | [] => []
     | _ :: _ =>
         [P.StError (s "Failed to convert: " ++ str_join (s ", ") (snd st));
          P.StInfo P.tips]
     end.

Definition items_of (uploaded_files : list P.UploadedFile)
  : list (nat * P.UploadedFile) :=
  combine (seq 0 (List.length uploaded_files)) uploaded_files.

Lemma map_snd_combine_seq {X} (l : list X) : forall k,
  map snd (combine (seq k (List.length l)) l) = l.
Proof.
  induction l as [|x l IH]; intros k; cbn; auto. now rewrite IH.
Qed.

Lemma convert_all_run uploaded_files tr :
  Forall named uploaded_files ->
  let items := items_of uploaded_files in
  let st := fold_left step items ([], []) in
  P.convert_all json_dumps now include_metadata pretty_format
    uploaded_files tr
  = (Ok st,
     tr ++ [P.NewProgress 0; P.NewEmpty]
        ++ flat_map (item_events (List.length uploaded_files)) items
        ++ summary st).
Proof.
  intros Hnamed items st. unfold P.convert_all.
  unfold Eff.bind at 1 2 3. unfold Eff.emit at 1 2.
  fold (items_of uploaded_files). fold items.
  rewrite loop_run by (unfold items, items_of;
                       now rewrite map_snd_combine_seq).
  fold st. destruct st as [conv failed]. unfold summary. cbn [fst snd].
  unfold Eff.bind, Eff.emit, Eff.ret.
  destruct (PyDict.is_empty conv), failed as [|f failed]; cbn [negb];
    rewrite <- !app_assoc; reflexivity.
Qed.

(** The failed names: those of the items without a record. *)
Lemma fold_step_failed items : forall st,
  snd (fold_left step items st)
  = snd st ++ map (fun item => name_of (snd item))
               (filter (fun item => match parsed item with
                                    | Some _ => false
                                    | None => true
                                    end) items).
Proof.
  induction items as [|item items IH]; intros st; cbn [fold_left filter map].
  - now rewrite app_nil_r.
  - rewrite IH. unfold step.
    destruct (parsed item); cbn [snd map]; auto.
    now rewrite <- app_assoc.
Qed.

(** The stored names: those of the items with a record, each once. *)
Lemma fold_step_keys items : forall st,
  PyDict.keys (fst (fold_left step items st))
  = fold_left add_key
      (map (fun item => json_name (snd item))
         (filter (fun item => match parsed item with
                              | Some _ => true
                              | None => false
                              end) items))
      (PyDict.keys (fst st)).
Proof.
  induction items as [|item items IH]; intros st; cbn [fold_left filter map];
    auto.
  rewrite IH. unfold step.
  destruct (parsed item); cbn [fst fold_left map]; auto.
  now rewrite keys_set.
Qed.

Lemma parsed_converts item :
  (exists d, parsed item = Some d) <-> converts (P.file (snd item)) = true.
Proof.
  unfold parsed.
  destruct (app_parse_total (now (fst item)) (P.file (snd item)))
    as (r & evs & -> & Hiff).
  cbn [fst]. symmetry. exact Hiff.
Qed.

Lemma parsed_none item :
  parsed item = None <-> converts (P.file (snd item)) = false.
Proof.
  pose proof (parsed_converts item) as H.
  destruct (parsed item) as [d|], (converts (P.file (snd item))).
  - split; discriminate.
  - assert (false = true) by (apply H; now exists d). discriminate.
  - destruct (proj2 H eq_refl) as [d Hd]. discriminate.
  - split; reflexivity.
Qed.

End Page.

End PageFacts.

Import PageFacts.

Module PageCountFacts.

Lemma filter_map_swap {X Y} (f : Y -> bool) (g : X -> Y) (l : list X) :
  filter f (map g l) = map g (filter (fun x => f (g x)) l).
Proof.
  induction l as [|x l IH]; cbn [map filter]; auto.
  destruct (f (g x)); cbn [map]; now rewrite IH.
Qed.

Lemma fold_add_key_length ks : forall acc,
  List.length (fold_left add_key ks acc) <= List.length acc + List.length ks.
Proof.
  induction ks as [|k ks IH]; intros acc; cbn [fold_left List.length]; [lia|].
  specialize (IH (add_key acc k)). unfold add_key in *.
  destruct (existsb (str_eqb k) acc); [lia|].
  rewrite length_app in IH. cbn [List.length] in IH. lia.
Qed.

(** No key is dropped exactly when no key comes twice. *)
Lemma fold_add_key_full ks : forall acc,
  NoDup acc ->
  (List.length (fold_left add_key ks acc)
   = List.length acc + List.length ks
   <-> NoDup (acc ++ ks)).
Proof.
  induction ks as [|k ks IH]; intros acc Hacc; cbn [fold_left List.length].
  - rewrite app_nil_r. split; [auto | lia].
  - pose proof (fold_add_key_length ks acc) as Hle.
    destruct (existsb (str_eqb k) acc) eqn:E.
    + assert (Hk : add_key acc k = acc) by (unfold add_key; now rewrite E).
      rewrite Hk. split; [intros; lia|]. intros Hnd.
      apply existsb_str_eqb in E.
      apply NoDup_remove_2 in Hnd. exfalso. apply Hnd.
      apply in_or_app. now left.
    + assert (Hk : add_key acc k = acc ++ [k])
        by (unfold add_key; now rewrite E).
      rewrite Hk.
      assert (Hnd1 : NoDup (acc ++ [k])).
      { apply NoDup_app; auto.
        - constructor; [tauto | constructor].
        - intros x Hx [Hx'|[]]. subst x.
          assert (existsb (str_eqb k) acc = true)
            by now apply existsb_str_eqb.
          congruence. }
      destruct (IH _ Hnd1) as [I1 I2].
      replace (acc ++ k :: ks) with ((acc ++ [k]) ++ ks)
        by (now rewrite <- app_assoc).
      rewrite length_app in I1, I2. cbn [List.length] in I1, I2.
      split; intros H.
      * apply I1. lia.
      * specialize (I2 H). lia.
Qed.

Lemma fold_add_key_nodup ks : forall acc,
  NoDup acc -> NoDup (fold_left add_key ks acc).
Proof.
  induction ks as [|k ks IH]; intros acc H; cbn [fold_left]; auto.
  apply IH. now apply add_key_nodup.
Qed.

Lemma add_key_in acc k x : In x (add_key acc k) <-> In x acc \/ x = k.
Proof.
  unfold add_key. destruct (existsb (str_eqb k) acc) eqn:E.
  - apply existsb_str_eqb in E. split; [auto|]. intros [H| ->]; auto.
  - rewrite in_app_iff. cbn. intuition.
Qed.

Lemma fold_add_key_in ks : forall acc x,
  In x (fold_left add_key ks acc) <-> In x acc \/ In x ks.
Proof.
  induction ks as [|k ks IH]; intros acc x; cbn [fold_left].
  - cbn. tauto.
  - rewrite IH, add_key_in. cbn. intuition.
Qed.

End PageCountFacts.

Import PageCountFacts.

Module P := StreamlitMain.

(** X16: the loop of the page never stops at a failure. For uploads
    that have a name it ends normally with, as [failed_files], the names
    of the uploads that got no record, in upload order; and the last
    calls it makes are the summary line and then, when some upload
    failed, one [st.error] that lists all the failed names, separated by
    ", ", followed by the tips. *)
Theorem X16_page_reports_failures_together :
  forall json_dumps now include_metadata pretty_format uploaded_files tr,
    Forall named uploaded_files ->
    exists converted_files failed_files evs line,
      StreamlitMain.convert_all json_dumps now include_metadata pretty_format
        uploaded_files tr
      = (Ok (converted_files, failed_files),
         tr ++ evs
            ++ StreamlitMain.StatusText line
            :: match failed_files with
               | [] => []
               | _ :: _ =>
                   [StreamlitMain.StError
                      (s "Failed to convert: "
                       ++ str_join (s ", ") failed_files);
                    StreamlitMain.StInfo StreamlitMain.tips]
               end)
      /\ failed_files
         = map name_of
             (filter (fun u => negb (converts (StreamlitMain.file u)))
                uploaded_files).
Proof.
  intros json_dumps now incl pretty ups tr Hnamed.
  rewrite (convert_all_run json_dumps now incl pretty ups tr Hnamed).
  cbv zeta.
  destruct (fold_left (step json_dumps now incl pretty) (items_of ups)
              ([], [])) as [conv failed] eqn:Hst.
  exists conv, failed.
  exists ([P.NewProgress 0; P.NewEmpty]
          ++ flat_map (item_events now (List.length ups)) (items_of ups)).
  exists (if negb (PyDict.is_empty conv)
          then s "Conversion complete! "
               ++ str_of_nat (List.length conv) ++ s " successful, "
               ++ str_of_nat (List.length failed) ++ s " failed"
          else s "No files were successfully converted").
  split.
  - unfold summary. cbn [fst snd].
    rewrite <- (app_assoc [P.NewProgress 0; P.NewEmpty]). reflexivity.
  - pose proof (fold_step_failed json_dumps now incl pretty (items_of ups)
                  ([], [])) as Hf.
    rewrite Hst in Hf. cbn [snd app] in Hf. rewrite Hf.
    rewrite <- (map_snd_combine_seq ups 0) at 2. fold (items_of ups).
    rewrite filter_map_swap, map_map. f_equal.
    apply filter_ext. intros item.
    pose proof (parsed_none now item) as Hn.
    destruct (parsed now item), (converts (P.file (snd item)));
      cbn [negb]; auto.
    + assert (false = true -> False) by discriminate.
      destruct Hn as [_ Hn]. discriminate (Hn eq_refl).
    + destruct Hn as [Hn _]. discriminate (Hn eq_refl).
Qed.

Module PageSample.

Definition good (n : str) : P.UploadedFile :=
  P.mkUploadedFile
    (StreamlitApp.mkUpload (Some n) (Ok valid_names) (Ok scenario)) 1500.

Definition bad (n : str) : P.UploadedFile :=
  P.mkUploadedFile
    (StreamlitApp.mkUpload (Some n) (Raise (BadZipFile (s "not a zip")))
       (Ok scenario)) 12.

(** A serialiser that tells the two payloads apart. *)
Definition dumps (indent : option nat) (p : P.payload) : str :=
  match p with
  | P.WholeRecord _ => s "record"
  | P.ContentOnly _ => s "content"
  end.

Definition now (i : nat) : str := s "2024-01-01T00:00:00".

Lemma named_good n : named (good n).
Proof. now exists n. Qed.

Lemma named_bad n : named (bad n).
Proof. now exists n. Qed.

End PageSample.

Lemma X16_page_reports_failures_together_witness :
  exists evs line,
    StreamlitMain.convert_all PageSample.dumps PageSample.now true true
      [PageSample.bad (s "x.docx"); PageSample.good (s "a.docx");
       PageSample.bad (s "y.docx")] []
    = (Ok ([(s "a.json", s "record")], [s "x.docx"; s "y.docx"]),
       evs ++ StreamlitMain.StatusText line
           :: [StreamlitMain.StError (s "Failed to convert: x.docx, y.docx");
               StreamlitMain.StInfo StreamlitMain.tips]).
Proof.
  destruct (X16_page_reports_failures_together
              PageSample.dumps PageSample.now true true
              [PageSample.bad (s "x.docx"); PageSample.good (s "a.docx");
               PageSample.bad (s "y.docx")] [])
    as (conv & failed & evs & line & Hrun & Hfailed).
  - repeat constructor;
      auto using PageSample.named_good, PageSample.named_bad.
  - assert (H : fst (StreamlitMain.convert_all PageSample.dumps
                       PageSample.now true true
                       [PageSample.bad (s "x.docx");
                        PageSample.good (s "a.docx");
                        PageSample.bad (s "y.docx")] [])
                = Ok ([(s "a.json", s "record")],
                      [s "x.docx"; s "y.docx"]))
      by (vm_compute; reflexivity).
    rewrite Hrun in H. cbn [fst] in H. injection H as Hc Hf.
    subst conv failed. exists evs, line. rewrite Hrun. reflexivity.
Defined.

(** X17: [converted_files] has one entry for each different JSON name
    among the uploads that got a record, so the two collections may
    hold fewer items than there were uploads: their sizes add up to the
    number of uploads exactly when no two converted uploads share a JSON
    name (as two uploads of the same name do). *)
Theorem X17_page_counts_miss_shared_names :
  forall json_dumps now include_metadata pretty_format uploaded_files tr
         converted_files failed_files tr',
    Forall named uploaded_files ->
    StreamlitMain.convert_all json_dumps now include_metadata pretty_format
      uploaded_files tr
    = (Ok (converted_files, failed_files), tr') ->
    let json_names :=
      map json_name
        (filter (fun u => converts (StreamlitMain.file u)) uploaded_files) in
    NoDup (PyDict.keys converted_files)
    /\ (forall k, In k (PyDict.keys converted_files) <-> In k json_names)
    /\ List.length converted_files + List.length failed_files
       <= List.length uploaded_files
    /\ (List.length converted_files + List.length failed_files
        = List.length uploaded_files
        <-> NoDup json_names).
Proof.
  intros json_dumps now incl pretty ups tr conv failed tr' Hnamed Hrun names.
  rewrite (convert_all_run json_dumps now incl pretty ups tr Hnamed) in Hrun.
  cbv zeta in Hrun. injection Hrun as Hst _.
  pose proof (fold_step_keys json_dumps now incl pretty (items_of ups)
                ([], [])) as Hk.
  pose proof (fold_step_failed json_dumps now incl pretty (items_of ups)
                ([], [])) as Hf.
  rewrite Hst in Hk, Hf. cbn [fst snd app] in Hk, Hf.
  change (PyDict.keys (@nil (str * str))) with (@nil str) in Hk.
  assert (Hnames :
            map (fun item => json_name (snd item))
              (filter (fun item => match parsed now item with
                                   | Some _ => true
                                   | None => false
                                   end) (items_of ups))
            = names).
  { unfold names. rewrite <- (map_snd_combine_seq ups 0) at 2.
    fold (items_of ups). rewrite filter_map_swap, map_map. f_equal.
    apply filter_ext. intros item.
    pose proof (parsed_none now item) as Hn.
    destruct (parsed now item), (converts (P.file (snd item))); auto.
    - destruct Hn as [_ Hn]. discriminate (Hn eq_refl).
    - destruct Hn as [Hn _]. discriminate (Hn eq_refl). }
  rewrite Hnames in Hk.
  assert (Hlenf : List.length failed
                  = List.length
                      (filter (fun u => negb (converts (P.file u))) ups)).
  { rewrite Hf, length_map.
    rewrite <- (map_snd_combine_seq ups 0) at 2. fold (items_of ups).
    rewrite filter_map_swap, length_map. f_equal.
    apply filter_ext. intros item.
    pose proof (parsed_none now item) as Hn.
    destruct (parsed now item), (converts (P.file (snd item)));
      cbn [negb]; auto.
    - destruct Hn as [_ Hn]. discriminate (Hn eq_refl).
    - destruct Hn as [Hn _]. discriminate (Hn eq_refl). }
  assert (Hlenc : List.length conv = List.length (PyDict.keys conv))
    by (unfold PyDict.keys; now rewrite length_map).
  assert (Hlenn : List.length names
                  = List.length
                      (filter (fun u => converts (P.file u)) ups))
    by (unfold names; now rewrite length_map).
  pose proof (filter_length (fun u => converts (P.file u)) ups) as Hsum.
  pose proof (fold_add_key_length names []) as Hle.
  pose proof (fold_add_key_full names [] (NoDup_nil _)) as Hfull.
  cbn [app List.length] in Hle, Hfull. rewrite <- Hk in Hle, Hfull.
  split; [|split; [|split]].
  - rewrite Hk. apply fold_add_key_nodup. constructor.
  - intros k. rewrite Hk, fold_add_key_in. cbn. tauto.
  - lia.
  - rewrite <- Hfull. lia.
Qed.

Lemma X17_page_counts_miss_shared_names_witness :
  fst (StreamlitMain.convert_all PageSample.dumps PageSample.now false true
         [PageSample.good (s "a.docx"); PageSample.good (s "a.docx")] [])
  = Ok ([(s "a.json", s "content")], [])
  /\ ~ NoDup (map json_name
                [PageSample.good (s "a.docx"); PageSample.good (s "a.docx")]).
Proof.
  assert (Hfst : fst (StreamlitMain.convert_all PageSample.dumps
                        PageSample.now false true
                        [PageSample.good (s "a.docx");
                         PageSample.good (s "a.docx")] [])
                 = Ok ([(s "a.json", s "content")], []))
    by (vm_compute; reflexivity).
  split; [exact Hfst|]. intros Hnd.
  assert (Hrun : StreamlitMain.convert_all PageSample.dumps
                   PageSample.now false true
                   [PageSample.good (s "a.docx");
                    PageSample.good (s "a.docx")] []
                 = (Ok ([(s "a.json", s "content")], []),
                    snd (StreamlitMain.convert_all PageSample.dumps
                           PageSample.now false true
                           [PageSample.good (s "a.docx");
                            PageSample.good (s "a.docx")] [])))
    by (rewrite <- Hfst; apply surjective_pairing).
  destruct (X17_page_counts_miss_shared_names
              PageSample.dumps PageSample.now false true
              [PageSample.good (s "a.docx"); PageSample.good (s "a.docx")]
              [] _ _ _
              ltac:(repeat constructor; apply PageSample.named_good)
              Hrun)
    as (_ & _ & _ & Hiff).
  apply Hiff in Hnd. cbn in Hnd. discriminate.
Defined.

Module PageLastFacts.

Lemma combine_seq_app {X} (a b : list X) : forall k,
  combine (seq k (List.length (a ++ b))) (a ++ b)
  = combine (seq k (List.length a)) a
    ++ combine (seq (k + List.length a) (List.length b)) b.
Proof.
  induction a as [|x a IH]; intros k; cbn [app List.length seq combine].
  - now rewrite Nat.add_0_r.
  - rewrite IH.
    replace (k + S (List.length a)) with (S k + List.length a) by lia.
    reflexivity.
Qed.

(** A stored text stays while no later record has its name. *)
Lemma fold_step_keeps json_dumps now incl pretty items : forall st k v,
  PyDict.get (fst st) k = Some v ->
  Forall (fun item => forall d, parsed now item = Some d ->
                                json_name (snd item) <> k) items ->
  PyDict.get (fst (fold_left (step json_dumps now incl pretty) items st)) k
  = Some v.
Proof.
  induction items as [|item items IH]; intros st k v Hget Hall;
    cbn [fold_left]; auto.
  inversion Hall as [|? ? Hitem Hrest]; subst.
  apply IH; auto. unfold step.
  destruct (parsed now item) as [d|] eqn:E; cbn [fst]; auto.
  rewrite PyDictFacts.get_set_other; auto.
  intros Heq. now apply (Hitem d).
Qed.

End PageLastFacts.

Import PageLastFacts.

(** X18: under a JSON name [converted_files] holds the text of the last
    upload with that name that got a record: an earlier upload of the
    same name is replaced without notice. The text is [json.dumps] of the
    whole record, or of its content alone when metadata is left out, with
    indent 2 when the pretty format is chosen. *)
Theorem X18_page_keeps_the_last_upload_of_a_name :
  forall json_dumps now include_metadata pretty_format pre u post tr
         converted_files failed_files tr' d evs,
    Forall named (pre ++ u :: post) ->
    StreamlitMain.convert_all json_dumps now include_metadata pretty_format
      (pre ++ u :: post) tr
    = (Ok (converted_files, failed_files), tr') ->
    StreamlitApp.parse_doc_to_dict (now (List.length pre))
      (StreamlitMain.file u) []
    = (Ok (Some d), evs) ->
    Forall (fun v => converts (StreamlitMain.file v) = true ->
                     json_name v <> json_name u) post ->
    PyDict.get converted_files (replace (name_of u) (s ".docx") (s ".json"))
    = Some (json_dumps (if pretty_format then Some 2 else None)
              (if include_metadata then StreamlitMain.WholeRecord d
               else StreamlitMain.ContentOnly (content d))).
Proof.
  intros json_dumps now incl pretty pre u post tr conv failed tr' d evs
         Hnamed Hrun Hparse Hpost.
  rewrite (convert_all_run json_dumps now incl pretty _ tr Hnamed) in Hrun.
  cbv zeta in Hrun. injection Hrun as Hst _.
  apply (f_equal fst) in Hst. cbn [fst] in Hst. rewrite <- Hst.
  unfold items_of. rewrite (combine_seq_app pre (u :: post) 0).
  cbn [List.length seq combine Nat.add]. rewrite fold_left_app.
  cbn [fold_left].
  apply fold_step_keeps.
  - unfold step at 1. unfold parsed. cbn [fst snd]. rewrite Hparse.
    cbn [fst]. apply PyDictFacts.get_set_same.
  - clear - Hpost. generalize (S (List.length pre)) as k.
    induction Hpost as [|v post Hv _ IH]; intros k;
      cbn [List.length seq combine]; constructor; auto.
    intros d Hd. cbn [snd]. apply Hv.
    apply (parsed_converts now (k, v)). now exists d.
Qed.

Module PageSample2.

(** A serialiser that shows the first key of the content. *)
Definition dumps (indent : option nat) (p : P.payload) : str :=
  match p with
  | P.WholeRecord d =>
      s "record:" ++ hd [] (PyDict.keys (content d))
  | P.ContentOnly c => s "content:" ++ hd [] (PyDict.keys c)
  end.

Definition first_upload : P.UploadedFile :=
  P.mkUploadedFile
    (StreamlitApp.mkUpload (Some (s "a.docx")) (Ok valid_names)
       (Ok [s "x: 1"])) 10.

Definition second_upload : P.UploadedFile := PageSample.good (s "a.docx").

Definition second_record : Data :=
  mkData (app_metadata (PageSample.now 1)
            (StreamlitMain.file second_upload) 4 3)
         scenario_content.

End PageSample2.

Lemma X18_page_keeps_the_last_upload_of_a_name_witness :
  fst (StreamlitMain.convert_all PageSample2.dumps PageSample.now false false
         [PageSample2.first_upload; PageSample2.second_upload] [])
  = Ok ([(s "a.json", s "content:Name")], [])
  /\ PyDict.get [(s "a.json", s "content:Name")] (s "a.json")
     = Some (s "content:Name").
Proof.
  assert (Hfst : fst (StreamlitMain.convert_all PageSample2.dumps
                        PageSample.now false false
                        [PageSample2.first_upload;
                         PageSample2.second_upload] [])
                 = Ok ([(s "a.json", s "content:Name")], []))
    by (vm_compute; reflexivity).
  split; [exact Hfst|].
  assert (Hrun : StreamlitMain.convert_all PageSample2.dumps
                   PageSample.now false false
                   [PageSample2.first_upload; PageSample2.second_upload] []
                 = (Ok ([(s "a.json", s "content:Name")], []),
                    snd (StreamlitMain.convert_all PageSample2.dumps
                           PageSample.now false false
                           [PageSample2.first_upload;
                            PageSample2.second_upload] [])))
    by (rewrite <- Hfst; apply surjective_pairing).
  apply (X18_page_keeps_the_last_upload_of_a_name
           PageSample2.dumps PageSample.now false false
           [PageSample2.first_upload] PageSample2.second_upload []
           [] [(s "a.json", s "content:Name")] []
           (snd (StreamlitMain.convert_all PageSample2.dumps
                   PageSample.now false false
                   [PageSample2.first_upload;
                    PageSample2.second_upload] []))
           PageSample2.second_record
           [StreamlitApp.Seek 0; StreamlitApp.Seek 0]).
  - repeat constructor; [now exists (s "a.docx") | apply PageSample.named_good].
  - exact Hrun.
  - reflexivity.
  - constructor.
Defined.

(** * Order of the effects, and what the loop does not look at *)

Module TraceFacts.

(** The last separator of a path that ends in a name put after a
    directory: none when the directory is empty or ends in "/". *)
Definition sep_after (folder : str) : str :=
  if str_is_empty folder || endswith folder [slash] then [] else [slash].

(** A plan in which every JSON file is opened right after the creation
    of the directory it lies in, and written right after it was opened.
    The name of the file has no "/": the file lies in that directory
    itself. *)
Inductive dirs_first : list F.event -> Prop :=
| dirs_first_nil : dirs_first []
| dirs_first_print line rest :
    dirs_first rest -> dirs_first (F.Print line :: rest)
| dirs_first_makedirs path rest :
    dirs_first rest -> dirs_first (F.Makedirs path :: rest)
| dirs_first_write folder stem data rest :
    contains slash stem = false ->
    dirs_first rest ->
    dirs_first (F.Makedirs folder
                :: F.Open (folder ++ sep_after folder ++ stem ++ s ".json")
                :: F.Dump (folder ++ sep_after folder ++ stem ++ s ".json")
                     data
                :: rest).

Lemma dirs_first_app evs1 evs2 :
  dirs_first evs1 -> dirs_first evs2 -> dirs_first (evs1 ++ evs2).
Proof.
  induction 1; intros H2; cbn [app]; auto; now constructor; auto.
Qed.

(** What [splitext] keeps of a name is the beginning of the name. *)
Lemma base_name_slash_free (filename : str) :
  contains slash filename = false ->
  contains slash (fst (splitext filename)) = false.
Proof.
  intros H. unfold splitext. destruct (_ && _); cbn [fst]; auto.
  unfold slice_to.
  rewrite <- (firstn_skipn (Z.to_nat (rfind dot filename)) filename) in H.
  rewrite contains_app in H. now apply orb_false_iff in H.
Qed.

Lemma join_name folder stem :
  contains slash stem = false ->
  join folder (stem ++ s ".json")
  = folder ++ sep_after folder ++ stem ++ s ".json".
Proof.
  intros H. rewrite join_rel.
  - unfold sep_after. now destruct (_ || _).
  - apply OsPathFacts.startswith_slash_free.
    rewrite contains_app, H. reflexivity.
Qed.

Lemma plan_events_dirs_first Document now cwd docx_folder json_folder job :
  fst job <> [] ->
  contains slash (snd job) = false ->
  dirs_first (plan_events Document now cwd docx_folder json_folder job).
Proof.
  destruct job as [root filename]. cbn [fst snd]. intros Hroot Hname.
  unfold plan_events.
  destruct (endswith filename (s ".docx")) eqn:Hext.
  2:{ rewrite file_plan_other by assumption. constructor. }
  destruct (file_plan_docx Document now cwd docx_folder json_folder
              root filename Hroot Hext) as (r & evs & _ & Hplan).
  destruct r as [data|].
  - destruct Hplan as (_ & rel & _ & ->). cbn [snd].
    unfold json_path_of.
    rewrite (join_name _ _ (base_name_slash_free filename Hname)).
    apply dirs_first_write; [now apply base_name_slash_free|].
    repeat constructor.
  - destruct Hplan as ((line & ->) & ->). cbn [snd]. repeat constructor.
Qed.

Lemma plan_dirs_first Document now listing cwd docx_folder json_folder :
  Forall (fun job => contains slash (snd job) = false)
    (jobs listing docx_folder) ->
  dirs_first (plan Document now listing cwd docx_folder json_folder).
Proof.
  intros Hnames. unfold plan. apply dirs_first_makedirs.
  assert (Hjobs : forall job, In job (jobs listing docx_folder) ->
                              fst job <> [])
    by (intros job; apply jobs_root_not_nil).
  induction Hnames as [|job js Hname _ IH]; cbn [flat_map].
  - constructor.
  - apply dirs_first_app.
    + apply plan_events_dirs_first; auto. apply Hjobs. now left.
    + apply IH. intros job' Hin. apply Hjobs. now right.
Qed.

(** In such a plan, what comes right before an [open]. *)
Lemma dirs_first_open evs :
  dirs_first evs ->
  forall before path after,
    evs = before ++ F.Open path :: after ->
    exists before' folder stem,
      before = before' ++ [F.Makedirs folder]
      /\ contains slash stem = false
      /\ path = folder ++ sep_after folder ++ stem ++ s ".json".
Proof.
  induction 1 as [|line rest _ IH|p rest _ IH|folder stem data rest Hs _ IH];
    intros before path after Heq.
  - destruct before; discriminate.
  - destruct before as [|ev before]; [discriminate|].
    injection Heq as <- Heq.
    destruct (IH _ _ _ Heq) as (b' & f & st & -> & Hst & ->).
    now exists (F.Print line :: b'), f, st.
  - destruct before as [|ev before]; [discriminate|].
    injection Heq as <- Heq.
    destruct (IH _ _ _ Heq) as (b' & f & st & -> & Hst & ->).
    now exists (F.Makedirs p :: b'), f, st.
  - destruct before as [|ev1 [|ev2 [|ev3 before]]];
      try discriminate; injection Heq.
    + intros _ <- <-. now exists [], folder, stem.
    + intros Heq' <- <- <-.
      destruct (IH _ _ _ Heq') as (b' & f & st & -> & Hst & ->).
      set (p := folder ++ sep_after folder ++ stem ++ s ".json").
      now exists (F.Makedirs folder :: F.Open p :: F.Dump p data :: b'),
                 f, st.
Qed.

(** And what comes right before a [json.dump]. *)
Lemma dirs_first_dump evs :
  dirs_first evs ->
  forall before path data after,
    evs = before ++ F.Dump path data :: after ->
    exists before', before = before' ++ [F.Open path].
Proof.
  induction 1 as [|line rest _ IH|p rest _ IH|folder stem data' rest Hs _ IH];
    intros before path data after Heq.
  - destruct before; discriminate.
  - destruct before as [|ev before]; [discriminate|].
    injection Heq as <- Heq.
    destruct (IH _ _ _ _ Heq) as (b' & ->).
    now exists (F.Print line :: b').
  - destruct before as [|ev before]; [discriminate|].
    injection Heq as <- Heq.
    destruct (IH _ _ _ _ Heq) as (b' & ->).
    now exists (F.Makedirs p :: b').
  - destruct before as [|ev1 [|ev2 [|ev3 before]]];
      try discriminate; injection Heq.
    + intros _ _ <- <- <-. now exists [F.Makedirs folder].
    + intros Heq' <- <- <-.
      destruct (IH _ _ _ _ Heq') as (b' & ->).
      set (p := folder ++ sep_after folder ++ stem ++ s ".json").
      now exists (F.Makedirs folder :: F.Open p :: F.Dump p data' :: b').
Qed.

End TraceFacts.

Import TraceFacts.

(** X19: in a folder conversion, also one that an exception of the file
    system ends, every JSON file is opened right after [os.makedirs] was
    called, and returned, for the directory the file lies in: the path
    opened is that directory, a "/" unless the directory already ends in
    one, and a name ending in ".json" that has no "/" in it. And a
    record is written only to the file that was opened last. So the
    conversion never writes into a directory it has not asked for. This
    is for file names without "/", as a directory listing gives them. *)
Theorem X19_folder_creates_directory_before_writing :
  forall Document now listing cwd io_error docx_folder json_folder,
    Forall (fun job => contains slash (snd job) = false)
      (jobs listing docx_folder) ->
    let trace := snd (ConvertDocxToJsonIO.convert_folder Document now listing
                        cwd io_error docx_folder json_folder []) in
    (forall before path after,
        trace = before ++ ConvertDocxToJsonIO.Open path :: after ->
        exists before' folder stem,
          before = before' ++ [ConvertDocxToJsonIO.Makedirs folder]
          /\ contains slash stem = false
          /\ path = folder ++ sep_after folder ++ stem ++ s ".json")
    /\ (forall before path data after,
           trace = before ++ ConvertDocxToJsonIO.Dump path data :: after ->
           exists before', before = before' ++ [ConvertDocxToJsonIO.Open path]).
Proof.
  intros Document now listing cwd io_error docx_folder json_folder Hnames
         trace.
  destruct (io_convert_folder_done Document now listing cwd io_error
              docx_folder json_folder [])
    as (done & rest & Hplan & Htr & _).
  cbn [app] in Htr. fold trace in Htr.
  pose proof (plan_dirs_first Document now listing cwd docx_folder
                json_folder Hnames) as Hfirst.
  rewrite Hplan in Hfirst. split.
  - intros before path after Heq.
    apply (dirs_first_open _ Hfirst before path (after ++ rest)).
    rewrite <- Htr, Heq, <- app_assoc. reflexivity.
  - intros before path data after Heq.
    apply (dirs_first_dump _ Hfirst before path data (after ++ rest)).
    rewrite <- Htr, Heq, <- app_assoc. reflexivity.
Qed.

Lemma X19_folder_creates_directory_before_writing_witness :
  (exists before' folder stem,
      [ConvertDocxToJsonIO.Makedirs (s "out");
       ConvertDocxToJsonIO.Print (s "Skipping lock file: in/~$draft.docx");
       ConvertDocxToJsonIO.Makedirs (s "out/.")]
      = before' ++ [ConvertDocxToJsonIO.Makedirs folder]
      /\ contains slash stem = false
      /\ s "out/./a.json" = folder ++ sep_after folder ++ stem ++ s ".json").
Proof.
  apply (proj1 (X19_folder_creates_directory_before_writing
                  SampleWorld.Document SampleWorld.now SampleWorld.listing
                  SampleWorld.cwd SampleIO.disk_full (s "in")
                  (Some (s "out"))
                  ltac:(vm_compute; repeat constructor))
           _ (s "out/./a.json") []).
  vm_compute. reflexivity.
Defined.

Module TrimFacts.

Lemma para_step_strip content text :
  B.para_step content (strip text) = B.para_step content text.
Proof. unfold B.para_step. now rewrite strip_idem. Qed.

Lemma non_blank_false text : non_blank text = false -> strip text = [].
Proof.
  unfold non_blank. intros H. apply negb_false_iff in H.
  now apply str_is_empty_true.
Qed.

End TrimFacts.

Import TrimFacts.

(** X20: the content depends on the trimmed non-blank paragraphs only:
    the loop gives the same result, record or exception, on a document
    and on the document with its blank paragraphs removed and every
    other paragraph trimmed. *)
Theorem X20_blank_lines_and_margins_do_not_matter :
  forall paragraphs content,
    ConvertDocxToJson.parse_paragraphs content
      (map strip (filter non_blank paragraphs))
    = ConvertDocxToJson.parse_paragraphs content paragraphs.
Proof.
  induction paragraphs as [|t ps IH]; intros content; auto.
  cbn [filter]. destruct (non_blank t) eqn:E;
    cbn [map ConvertDocxToJson.parse_paragraphs].
  - rewrite para_step_strip.
    destruct (ConvertDocxToJson.para_step content t); cbn [res_bind]; auto.
  - rewrite (para_step_blank content t (non_blank_false t E)).
    cbn [res_bind]. apply IH.
Qed.

(** * Formatting, on examples *)

Module PyFmtExamples.

Example format_commas_1500 : format_commas 1500 = s "1,500".
Proof. vm_compute. reflexivity. Qed.

Example format_commas_999 : format_commas 999 = s "999".
Proof. vm_compute. reflexivity. Qed.

Example format_commas_0 : format_commas 0 = s "0".
Proof. vm_compute. reflexivity. Qed.

Example str_join_ex : str_join (s ", ") [s "a"; s "b"; s "c"] = s "a, b, c".
Proof. reflexivity. Qed.

End PyFmtExamples.
